(** * ResiboKo: record store, extraction defaults, summaries and serialization

    A shallow embedding of the data-handling code of the ResiboKo expense
    tracker (src/App.tsx, src/services/geminiService.ts and the
    TransactionHistory component), with the properties its specification
    states about it.

    Conventions of the embedding:
    - a field of type [string | null] is an [option string], [None] being
      [null]; for the two optional fields [None] is [undefined] as well;
    - a peso amount (a JavaScript number) is the integer count of its
      centavos, so that [toFixed(2)] prints it exactly;
    - a time value is the integer count of milliseconds since the epoch, as
      in ECMAScript; a [Date] built from a string is an [option Z], [None]
      being the Invalid Date whose time value is NaN;
    - React state is an explicit record threaded through the handlers;
      the result of an awaited call and the reading of the clock are
      arguments of the handler that awaits or reads them. *)

From Stdlib Require Import ZArith List String Ascii Bool Lia.
From Stdlib Require Import Permutation Sorting.Sorted DecimalString.
Import ListNotations.
Local Open Scope string_scope.
Local Open Scope Z_scope.

(** ** ECMAScript time arithmetic (ECMA-262, "Time Values and Time Range") *)

Module ES.

Definition msPerDay : Z := 86400000.

Definition Day (t : Z) : Z := t / msPerDay.
Definition TimeWithinDay (t : Z) : Z := t mod msPerDay.

Definition isLeap (y : Z) : bool :=
  (y mod 4 =? 0) && (negb (y mod 100 =? 0) || (y mod 400 =? 0)).

Definition DaysInYear (y : Z) : Z := if isLeap y then 366 else 365.

Definition DayFromYear (y : Z) : Z :=
  365 * (y - 1970) + (y - 1969) / 4 - (y - 1901) / 100 + (y - 1601) / 400.

(** The largest year [y] with [DayFromYear y <= d]: an estimate from the mean
    length of a year, corrected by one where needed. *)
Definition YearFromDay (d : Z) : Z :=
  let y := 1970 + (400 * d) / 146097 in
  if d <? DayFromYear y then y - 1
  else if DayFromYear (y + 1) <=? d then y + 1
  else y.

Definition YearFromTime (t : Z) : Z := YearFromDay (Day t).

Definition InLeapYear (t : Z) : Z :=
  if isLeap (YearFromTime t) then 1 else 0.

Definition DayWithinYear (t : Z) : Z := Day t - DayFromYear (YearFromTime t).

(** Number of days of the year before month [m] (0 = January). *)
Definition monthStart (leap m : Z) : Z :=
  match m with
  | 0 => 0
  | 1 => 31
  | 2 => 59 + leap
  | 3 => 90 + leap
  | 4 => 120 + leap
  | 5 => 151 + leap
  | 6 => 181 + leap
  | 7 => 212 + leap
  | 8 => 243 + leap
  | 9 => 273 + leap
  | 10 => 304 + leap
  | _ => 334 + leap
  end.

Definition MonthFromTime (t : Z) : Z :=
  let d := DayWithinYear t in
  let l := InLeapYear t in
  if d <? 31 then 0
  else if d <? 59 + l then 1
  else if d <? 90 + l then 2
  else if d <? 120 + l then 3
  else if d <? 151 + l then 4
  else if d <? 181 + l then 5
  else if d <? 212 + l then 6
  else if d <? 243 + l then 7
  else if d <? 273 + l then 8
  else if d <? 304 + l then 9
  else if d <? 334 + l then 10
  else 11.

Definition DateFromTime (t : Z) : Z :=
  DayWithinYear t - monthStart (InLeapYear t) (MonthFromTime t) + 1.

(** 0 = Sunday, 1 = Monday, ..., 6 = Saturday; the epoch was a Thursday. *)
Definition WeekDay (t : Z) : Z := (Day t + 4) mod 7.

Definition MakeTime (h m s ms : Z) : Z :=
  h * 3600000 + m * 60000 + s * 1000 + ms.

Definition MakeDay (year month date : Z) : Z :=
  let ym := year + month / 12 in
  let mn := month mod 12 in
  DayFromYear ym + monthStart (if isLeap ym then 1 else 0) mn + date - 1.

Definition MakeDate (day time : Z) : Z := day * msPerDay + time.

End ES.


(** ** Strings and numbers of the host language *)

(** Decimal digits of a non-negative integer. *)
Definition digits (n : Z) : string := NilZero.string_of_uint (N.to_uint (Z.to_N n)).

Fixpoint zeros (k : nat) : string :=
  match k with
  | O => ""
  | S k' => String "0" (zeros k')
  end.

(** [String(n).padStart(w, "0")] for a non-negative [n]. *)
Definition padStart0 (w : nat) (n : Z) : string :=
  let s := digits n in zeros (w - String.length s) ++ s.

(** [`${n}`] for an integral number; [None] is NaN. *)
Definition Number_toString (n : option Z) : string :=
  match n with
  | None => "NaN"
  | Some z => if z <? 0 then "-" ++ digits (- z) else digits z
  end.

(** An amount is a count of centavos; a whole number of pesos is [pesos n]. *)
Definition amount : Type := Z.
Definition pesos (n : Z) : amount := 100 * n.

(** [x.toFixed(2)] on an amount. *)
Definition toFixed2 (x : amount) : string :=
  (if x <? 0 then "-" else "") ++
  digits (Z.abs x / 100) ++ "." ++ padStart0 2 (Z.abs x mod 100).

(** [xs.join(sep)]. *)
Fixpoint join (sep : string) (xs : list string) : string :=
  match xs with
  | [] => ""
  | [x] => x
  | x :: rest => x ++ sep ++ join sep rest
  end.

(** Truthiness of a [string | null] value: [null], [undefined] and the empty
    string are falsy. *)
Definition truthy (v : option string) : bool :=
  match v with
  | Some s => negb (s =? "")%string
  | None => false
  end.

(** [v || d] with a string default. *)
Definition or_else (v : option string) (d : string) : string :=
  match v with
  | Some s => if (s =? "")%string then d else s
  | None => d
  end.

(** [v || null]. *)
Definition or_null (v : option string) : option string :=
  if truthy v then v else None.

(** [x || 0] on a [number | null]. *)
Definition or_zero (x : option amount) : amount :=
  match x with
  | Some n => if n =? 0 then 0 else n
  | None => 0
  end.

(** ** The host: time zone and date parser *)

(** [LocalTZA] is the offset of local time from UTC in milliseconds (a fixed
    offset: no daylight saving). [Date_parse] is [Date.parse], [None] being
    NaN. *)
Class Host : Type := {
  LocalTZA : Z;
  Date_parse : string -> option Z
}.

Definition digit_of (c : ascii) : option Z :=
  let n := Z.of_nat (nat_of_ascii c) in
  if (48 <=? n) && (n <=? 57) then Some (n - 48) else None.

(** Length of month [m] (0 = January). *)
Definition DaysInMonth (leap m : Z) : Z :=
  match m with
  | 1 => 28 + leap
  | 3 | 5 | 8 | 10 => 30
  | _ => 31
  end.

(** The date-only form [YYYY-MM-DD] of the ECMAScript date-time string
    format, read as UTC midnight of that day; anything else is NaN. *)
Definition iso_date_parse (s : string) : option Z :=
  match list_ascii_of_string s with
  | [y1; y2; y3; y4; h1; m1; m2; h2; d1; d2] =>
      match digit_of y1, digit_of y2, digit_of y3, digit_of y4,
            digit_of m1, digit_of m2, digit_of d1, digit_of d2 with
      | Some p, Some q, Some r, Some u, Some v, Some w, Some x, Some z =>
          let y := 1000 * p + 100 * q + 10 * r + u in
          let m := 10 * v + w in
          let d := 10 * x + z in
          if (Ascii.eqb h1 "-") && (Ascii.eqb h2 "-") &&
             (1 <=? m) && (m <=? 12) && (1 <=? d) &&
             (d <=? DaysInMonth (if ES.isLeap y then 1 else 0) (m - 1))
          then Some (ES.MakeDate (ES.MakeDay y (m - 1) d) 0)
          else None
      | _, _, _, _, _, _, _, _ => None
      end
  | _ => None
  end.

(** A browser set to Philippine time (UTC+8), reading ISO dates: the host
    of the sample inputs. *)
#[export] Instance manila : Host :=
  {| LocalTZA := 8 * 3600000; Date_parse := iso_date_parse |}.

Section Dates.
Context {host : Host}.

Definition LocalTime (t : Z) : Z := t + LocalTZA.
Definition UTC (t : Z) : Z := t - LocalTZA.

(** Methods of a valid [Date], given by its time value. *)
Definition getDay (d : Z) : Z := ES.WeekDay (LocalTime d).
Definition getDate (d : Z) : Z := ES.DateFromTime (LocalTime d).
Definition getMonth (d : Z) : Z := ES.MonthFromTime (LocalTime d).
Definition getFullYear (d : Z) : Z := ES.YearFromTime (LocalTime d).

Definition setDate (d dt : Z) : Z :=
  let t := LocalTime d in
  UTC (ES.MakeDate (ES.MakeDay (ES.YearFromTime t) (ES.MonthFromTime t) dt)
                   (ES.TimeWithinDay t)).

Definition setHours (d h m s ms : Z) : Z :=
  let t := LocalTime d in
  UTC (ES.MakeDate (ES.Day t) (ES.MakeTime h m s ms)).

(** [new Date(year, month, day)]: local midnight of that day. *)
Definition Date_of_fields (year month day : Z) : Z :=
  let yr := if (0 <=? year) && (year <=? 99) then 1900 + year else year in
  UTC (ES.MakeDate (ES.MakeDay yr month day) (ES.MakeTime 0 0 0 0)).

(** [new Date(v)] for [v : string | null]: a string is parsed, [null] is
    converted to the number 0. The result is the time value, [None] for an
    Invalid Date. *)
Definition Date_of_value (v : option string) : option Z :=
  match v with
  | Some s => Date_parse s
  | None => Some 0
  end.

(** [d >= t] and [d <= t] between a possibly invalid [Date] and a valid one:
    a comparison with NaN is false. *)
Definition date_ge (d : option Z) (t : Z) : bool :=
  match d with Some x => t <=? x | None => false end.
Definition date_le (d : option Z) (t : Z) : bool :=
  match d with Some x => x <=? t | None => false end.

End Dates.

(** [d.toISOString()] (UTC fields) and its first ten characters. *)
Definition toISOString (t : Z) : string :=
  let y := ES.YearFromTime t in
  let tm := ES.TimeWithinDay t in
  (if (0 <=? y) && (y <=? 9999) then padStart0 4 y
   else (if y <? 0 then "-" else "+") ++ padStart0 6 (Z.abs y)) ++
  "-" ++ padStart0 2 (ES.MonthFromTime t + 1) ++
  "-" ++ padStart0 2 (ES.DateFromTime t) ++
  "T" ++ padStart0 2 (tm / 3600000) ++
  ":" ++ padStart0 2 (tm / 60000 mod 60) ++
  ":" ++ padStart0 2 (tm / 1000 mod 60) ++
  "." ++ padStart0 3 (tm mod 1000) ++ "Z".

Definition slice_0_10 (s : string) : string := substring 0 10 s.

(** ** Data model (src/types.ts) *)

Record ReceiptData : Type := mkReceiptData {
  transaction_name : option string;
  total_amount : option amount;
  transaction_date : option string;
  category : option string;
  client_or_prospect : option string;
  purpose : option string
}.

(** [SavedReceiptData extends ReceiptData] with a numeric [id]. *)
Record SavedReceiptData : Type := mkSavedReceiptData {
  receipt :> ReceiptData;
  id : Z
}.

(** ** Arrays and objects of the host language *)

Section ArraySort.
Context {A : Type}.

(** [Array.prototype.sort] with a comparator, which is stable. On a
    consistent comparator all stable sorts return the same array; the
    embedding takes insertion sort. [cmp a b <= 0] keeps [a] before [b]. *)
Fixpoint sort_insert (cmp : A -> A -> Z) (x : A) (l : list A) : list A :=
  match l with
  | [] => [x]
  | y :: t => if cmp x y <=? 0 then x :: y :: t else y :: sort_insert cmp x t
  end.

Fixpoint Array_sort (cmp : A -> A -> Z) (l : list A) : list A :=
  match l with
  | [] => []
  | x :: t => sort_insert cmp x (Array_sort cmp t)
  end.

End ArraySort.

(** The comparator's result is a number; [sort] reads NaN as +0. *)
Definition nan_as_zero (v : option Z) : Z :=
  match v with Some z => z | None => 0 end.

(** A plain object used as a map from strings to numbers: its own
    properties in creation order. Keys that name members of
    [Object.prototype] are outside this model (see [Object_prototype_names]). *)
Definition JSObject : Type := list (string * amount).

Fixpoint obj_get (o : JSObject) (k : string) : option amount :=
  match o with
  | [] => None
  | (k', v) :: t => if (k' =? k)%string then Some v else obj_get t k
  end.

(** [o[k] = v]: an existing property keeps its place, a new one is created
    last. *)
Fixpoint obj_set (o : JSObject) (k : string) (v : amount) : JSObject :=
  match o with
  | [] => [(k, v)]
  | (k', v') :: t =>
      if (k' =? k)%string then (k', v) :: t else (k', v') :: obj_set t k v
  end.

Fixpoint digits_value (cs : list ascii) (acc : Z) : option Z :=
  match cs with
  | [] => Some acc
  | c :: t =>
      match digit_of c with
      | Some d => digits_value t (10 * acc + d)
      | None => None
      end
  end.

(** A property key is an array index when it is the canonical decimal form
    of an integer in [0, 2^32 - 2]. *)
Definition array_index (k : string) : option Z :=
  match list_ascii_of_string k with
  | [] => None
  | c :: t =>
      if Ascii.eqb c "0" && negb (match t with [] => true | _ => false end)
      then None
      else match digits_value (c :: t) 0 with
           | Some n => if n <=? 4294967294 then Some n else None
           | None => None
           end
  end.

Definition is_array_index (k : string) : bool :=
  match array_index k with Some _ => true | None => false end.

Definition index_cmp (a b : string * amount) : Z :=
  nan_as_zero (array_index (fst a)) - nan_as_zero (array_index (fst b)).

(** [Object.entries(o)]: array-index keys in ascending numeric order, then
    the other keys in creation order. *)
Definition Object_entries (o : JSObject) : list (string * amount) :=
  Array_sort index_cmp (filter (fun e => is_array_index (fst e)) o) ++
  filter (fun e => negb (is_array_index (fst e))) o.

(** Names an empty object literal inherits from [Object.prototype]. *)
Definition Object_prototype_names : list string :=
  ["constructor"; "toString"; "toLocaleString"; "valueOf"; "hasOwnProperty";
   "isPrototypeOf"; "propertyIsEnumerable"; "__proto__"; "__defineGetter__";
   "__defineSetter__"; "__lookupGetter__"; "__lookupSetter__"].

Definition mem_string (k : string) (ks : list string) : bool :=
  existsb (String.eqb k) ks.

(** ** Application state (src/App.tsx) *)

Record AppState : Type := mkAppState {
  receiptData : option ReceiptData;
  savedReceipts : list SavedReceiptData;
  isLoading : bool;
  error : option string;
  manualEntryData : option ReceiptData;
  showCamera : bool
}.

Definition setReceiptData (v : option ReceiptData) (st : AppState) : AppState :=
  mkAppState v (savedReceipts st) (isLoading st) (error st)
             (manualEntryData st) (showCamera st).

Definition setSavedReceipts
  (f : list SavedReceiptData -> list SavedReceiptData) (st : AppState) : AppState :=
  mkAppState (receiptData st) (f (savedReceipts st)) (isLoading st) (error st)
             (manualEntryData st) (showCamera st).

Definition setIsLoading (v : bool) (st : AppState) : AppState :=
  mkAppState (receiptData st) (savedReceipts st) v (error st)
             (manualEntryData st) (showCamera st).

Definition setError (v : option string) (st : AppState) : AppState :=
  mkAppState (receiptData st) (savedReceipts st) (isLoading st) v
             (manualEntryData st) (showCamera st).

Definition is_null {A : Type} (v : option A) : bool :=
  match v with Some _ => false | None => true end.

Section App.
Context {host : Host}.

(** [new Date(r.transaction_date!).getTime()]. *)
Definition dateTime (r : SavedReceiptData) : option Z :=
  Date_of_value (transaction_date r).

(** The comparator of [handleSaveReceipt]:
    [new Date(b.transaction_date!).getTime() - new Date(a.transaction_date!).getTime()]. *)
Definition byDateDesc (a b : SavedReceiptData) : Z :=
  nan_as_zero
    match dateTime b, dateTime a with
    | Some tb, Some ta => Some (tb - ta)
    | _, _ => None
    end.

Definition incomplete_message : string := "Cannot save incomplete receipt data.".

(** [handleSaveReceipt(data)]; [now] is the value of [Date.now()]. *)
Definition handleSaveReceipt (now : Z) (data : ReceiptData) (st : AppState) : AppState :=
  if negb (truthy (transaction_name data)) || is_null (total_amount data)
     || negb (truthy (transaction_date data)) || negb (truthy (category data))
  then setError (Some incomplete_message) st
  else
    let newReceipt := {| receipt := data; id := now |} in
    let st := setSavedReceipts (fun prev => Array_sort byDateDesc (newReceipt :: prev)) st in
    setReceiptData None st.

(** [handleDeleteReceipt(id)]. *)
Definition handleDeleteReceipt (id0 : Z) (st : AppState) : AppState :=
  setSavedReceipts (fun prev => filter (fun receipt => negb (id receipt =? id0)) prev) st.

Definition year_message (receiptYear : option Z) (currentYear : Z) : string :=
  "This receipt is from " ++ Number_toString receiptYear ++
  ". Only transactions for the current year (" ++
  Number_toString (Some currentYear) ++ ") are allowed.".

Definition analysis_failed_message : string :=
  "Failed to analyze the receipt. Please try again.".

(** [handleImageSelect(file)]. [outcome] is what [await analyzeReceipt(file)]
    produces: [Some data], or [None] when the promise is rejected; [now] is
    the clock read by [new Date()]. *)
Definition handleImageSelect
  (now : Z) (outcome : option ReceiptData) (st : AppState) : AppState :=
  let st := setIsLoading true st in
  let st := setError None st in
  let st := setReceiptData None st in
  match outcome with
  | Some data =>
      if truthy (transaction_date data) then
        let receiptYear := option_map getFullYear (Date_of_value (transaction_date data)) in
        let currentYear := getFullYear now in
        if negb (match receiptYear with
                 | Some y => y =? currentYear
                 | None => false
                 end)
        then
          let st := setError (Some (year_message receiptYear currentYear)) st in
          let st := setIsLoading false st in
          setIsLoading false st
        else
          let st := setReceiptData (Some data) st in
          setIsLoading false st
      else
        let st := setReceiptData (Some data) st in
        setIsLoading false st
  | None =>
      let st := setError (Some analysis_failed_message) st in
      setIsLoading false st
  end.

End App.

(** ** Extraction defaults and serialization (src/services/geminiService.ts) *)

Definition categories : list string :=
  ["Food & Drink"; "Groceries"; "Transportation"; "Shopping"; "Utilities";
   "Entertainment"; "Health & Wellness"; "Travel"; "Other"].

(** [data.category && categories.includes(data.category) ? data.category : 'Other']. *)
Definition validated_category (c : option string) : option string :=
  match c with
  | Some s =>
      if truthy (Some s) && mem_string s categories then Some s else Some "Other"
  | None => Some "Other"
  end.

(** The part of [analyzeReceipt] after the model has answered: [data] is
    [JSON.parse(response.text) as ReceiptData]. At that type the test
    [typeof data.total_amount === 'number'] holds exactly of a present
    amount. *)
Definition analyzeReceipt (data : ReceiptData) : ReceiptData :=
  {| transaction_name := or_null (transaction_name data);
     total_amount := match total_amount data with Some n => Some n | None => None end;
     transaction_date := or_null (transaction_date data);
     category := validated_category (category data);
     client_or_prospect := or_null (client_or_prospect data);
     purpose := or_null (purpose data) |}.

(** [new Date().toISOString().slice(0, 10)]. *)
Definition today_of (now : Z) : string := slice_0_10 (toISOString now).

(** The part of [analyzeTransactionFromVoice] after the model has answered;
    [now] is the clock read before the request. *)
Definition analyzeTransactionFromVoice (now : Z) (data : ReceiptData) : ReceiptData :=
  let today := today_of now in
  {| transaction_name := or_null (transaction_name data);
     total_amount := match total_amount data with Some n => Some n | None => None end;
     transaction_date := Some (or_else (transaction_date data) today);
     category := validated_category (category data);
     client_or_prospect := or_null (client_or_prospect data);
     purpose := or_null (purpose data) |}.

Definition ai_header : string :=
  "Date,Transaction,Amount,Category,Client/Prospect,Purpose" ++ String "010" "".

Definition newline : string := String "010" "".

(** One row of [formatTransactionsForAI]. *)
Definition ai_row (t : SavedReceiptData) : string :=
  join "," [ or_else (transaction_date t) "N/A";
             or_else (transaction_name t) "N/A";
             or_else (option_map toFixed2 (total_amount t)) "0.00";
             or_else (category t) "N/A";
             or_else (client_or_prospect t) "N/A";
             or_else (purpose t) "N/A" ].

Definition formatTransactionsForAI (transactions : list SavedReceiptData) : string :=
  if (List.length transactions =? 0)%nat then "No transactions available."
  else fold_left (fun formattedString t => formattedString ++ ai_row t ++ newline)
                 transactions ai_header.

(** ** Summaries (the TransactionHistory component) *)

Inductive FilterType : Type :=
  | Daily | Weekly | Monthly | Quarterly | Yearly | All.

(** What [filteredData] holds: the records themselves under [All], the
    per-category totals under every other filter. *)
Inductive FilteredData : Type :=
  | Records (rs : list SavedReceiptData)
  | Summary (totals : list (string * amount)).

Section History.
Context {host : Host}.

(** [getWeekRange(date)], returning [(start, end)]. *)
Definition getWeekRange (date : Z) : Z * Z :=
  let start := date in
  let day := getDay start in
  let diff := getDate start - day + (if day =? 0 then -6 else 1) in
  let start := setDate start diff in
  let start := setHours start 0 0 0 0 in
  let end_ := start in
  let end_ := setDate end_ (getDate start + 6) in
  let end_ := setHours end_ 23 59 59 999 in
  (start, end_).

(** [getQuarterRange(date)], returning [(start, end)]. *)
Definition getQuarterRange (date : Z) : Z * Z :=
  let quarter := getMonth date / 3 in
  let start := Date_of_fields (getFullYear date) (quarter * 3) 1 in
  let end_ := Date_of_fields (getFullYear start) (getMonth start + 3) 0 in
  let end_ := setHours end_ 23 59 59 999 in
  (start, end_).

(** The [switch] on the active filter: the records that are kept. *)
Definition filtered (activeFilter : FilterType) (now : Z)
  (receipts : list SavedReceiptData) : list SavedReceiptData :=
  match activeFilter with
  | Daily =>
      let todayStart := setHours now 0 0 0 0 in
      filter (fun r => date_ge (dateTime r) todayStart) receipts
  | Weekly =>
      let '(weekStart, weekEnd) := getWeekRange now in
      filter (fun r => let d := dateTime r in
                       date_ge d weekStart && date_le d weekEnd) receipts
  | Monthly =>
      let monthStart := Date_of_fields (getFullYear now) (getMonth now) 1 in
      filter (fun r => date_ge (dateTime r) monthStart) receipts
  | Quarterly =>
      let '(quarterStart, _) := getQuarterRange now in
      filter (fun r => date_ge (dateTime r) quarterStart) receipts
  | Yearly =>
      let yearStart := Date_of_fields (getFullYear now) 0 1 in
      filter (fun r => date_ge (dateTime r) yearStart) receipts
  | All => receipts
  end.

(** [receipt.category || 'Uncategorized']. *)
Definition category_key (r : SavedReceiptData) : string :=
  or_else (category r) "Uncategorized".

(** The reducer of the summary:
    [acc[category] = (acc[category] || 0) + (receipt.total_amount || 0)]. *)
Definition summary_step (acc : JSObject) (r : SavedReceiptData) : JSObject :=
  let c := category_key r in
  obj_set acc c (or_zero (obj_get acc c) + or_zero (total_amount r)).

Definition summaryArray (rs : list SavedReceiptData) : list (string * amount) :=
  Object_entries (fold_left summary_step rs []).

(** The [filteredData] of the [useMemo]; [now] is the clock it reads. *)
Definition filteredData (activeFilter : FilterType) (now : Z)
  (receipts : list SavedReceiptData) : FilteredData :=
  let rs := filtered activeFilter now receipts in
  match activeFilter with
  | All => Records rs
  | _ => Summary (summaryArray rs)
  end.

End History.

(** ** Notions the properties are stated with *)

(** [l1] is [l2] with some elements left out, the others in place. *)
Inductive Subseq {A : Type} : list A -> list A -> Prop :=
  | Subseq_nil : Subseq [] []
  | Subseq_keep x l1 l2 : Subseq l1 l2 -> Subseq (x :: l1) (x :: l2)
  | Subseq_drop x l1 l2 : Subseq l1 l2 -> Subseq l1 (x :: l2).

(** The keys of a list in the order of their first occurrence. *)
Definition first_seen (ks : list string) : list string :=
  fold_left (fun acc k => if mem_string k acc then acc else (acc ++ [k])%list) ks [].

(** Sum of the amounts, an absent one counting for zero. *)
Definition total_of (rs : list ReceiptData) : amount :=
  fold_left (fun s r => s + match total_amount r with Some a => a | None => 0 end) rs 0.

Section Notions.
Context {host : Host}.

(** The record carries a date the host can read. *)
Definition dated (r : SavedReceiptData) : Prop := dateTime r <> None.

(** [a] is not earlier than [b]. *)
Definition not_before (a b : SavedReceiptData) : Prop :=
  match dateTime a, dateTime b with
  | Some ta, Some tb => tb <= ta
  | _, _ => False
  end.

(** The list is non-increasing by date. *)
Definition date_descending (l : list SavedReceiptData) : Prop :=
  Forall dated l /\ StronglySorted not_before l.

(** The records of [rs] filed under category key [k]. *)
Definition of_category (k : string) (rs : list SavedReceiptData) : list ReceiptData :=
  map receipt (filter (fun r => (category_key r =? k)%string) rs).

(** One pair per distinct category key, in order of first occurrence, with
    the total of the records under that key. *)
Definition totals_by_category (rs : list SavedReceiptData) : list (string * amount) :=
  map (fun k => (k, total_of (of_category k rs))) (first_seen (map category_key rs)).

(** A category name that is an ordinary property key: not an array index
    and not a member of [Object.prototype]. *)
Definition ordinary_key (k : string) : Prop :=
  is_array_index k = false /\ mem_string k Object_prototype_names = false.

(** The Monday that opens the week of [now], as a local day number. *)
Definition week_monday (now : Z) : Z :=
  ES.Day (LocalTime now) - (ES.WeekDay (LocalTime now) + 6) mod 7.

(** [r] carries a later date than [x]. *)
Definition later_than (x r : SavedReceiptData) : bool := 0 <? byDateDesc x r.

(** A user action on the record store. *)
Inductive Action : Type :=
  | Save (now : Z) (data : ReceiptData)
  | Delete (id0 : Z).

Definition perform (st : AppState) (a : Action) : AppState :=
  match a with
  | Save now data => handleSaveReceipt now data st
  | Delete id0 => handleDeleteReceipt id0 st
  end.

(** The date of the saved data, when it has one, can be read. *)
Definition readable_date (data : ReceiptData) : Prop :=
  forall s, transaction_date data = Some s -> Date_parse s <> None.

Definition readable_action (a : Action) : Prop :=
  match a with
  | Save _ data => readable_date data
  | Delete _ => True
  end.

End Notions.

(** A field is absent when it is [null], [undefined] or, for a string, empty. *)
Definition absent (v : option string) : Prop := v = None \/ v = Some "".

Definition initialState : AppState :=
  {| receiptData := None; savedReceipts := []; isLoading := false;
     error := None; manualEntryData := None; showCamera := false |}.

(** A text field shows its content, or "N/A" when absent. *)
Definition text_field (v : option string) : string :=
  match v with
  | Some s => if (s =? "")%string then "N/A" else s
  | None => "N/A"
  end.

Definition row_with (amount_field : option amount -> string) (t : SavedReceiptData) : string :=
  text_field (transaction_date t) ++ "," ++ text_field (transaction_name t) ++ "," ++
  amount_field (total_amount t) ++ "," ++ text_field (category t) ++ "," ++
  text_field (client_or_prospect t) ++ "," ++ text_field (purpose t).

Fixpoint lines (row : SavedReceiptData -> string) (ts : list SavedReceiptData) : string :=
  match ts with
  | [] => ""
  | t :: rest => row t ++ newline ++ lines row rest
  end.

(** Worded as the specification has it: the header, then one row per
    record, "N/A" for every absent field, the amount included. *)
Definition serialization_as_specified (ts : list SavedReceiptData) : string :=
  ai_header ++
  lines (row_with (fun a => match a with Some x => toFixed2 x | None => "N/A" end)) ts.

Definition is_digit (c : ascii) : Prop := exists d, digit_of c = Some d.

(** The year written in a [YYYY-MM-DD] string. *)
Definition iso_year (s : string) : option Z :=
  match list_ascii_of_string s with
  | y1 :: y2 :: y3 :: y4 :: _ =>
      match digit_of y1, digit_of y2, digit_of y3, digit_of y4 with
      | Some p, Some q, Some r, Some u => Some (1000 * p + 100 * q + 10 * r + u)
      | _, _, _, _ => None
      end
  | _ => None
  end.

(** The serialization as the code produces it: a fixed sentence for the
    empty list; otherwise the header and one row per record, an absent
    amount shown as "0.00". *)
Definition serialization_as_written (ts : list SavedReceiptData) : string :=
  match ts with
  | [] => "No transactions available."
  | _ :: _ =>
      ai_header ++
      lines (row_with (fun a => match a with Some x => toFixed2 x | None => "0.00" end)) ts
  end.

Definition two_digit_string (s : string) : bool :=
  match s with
  | String c1 (String c2 EmptyString) =>
      match digit_of c1, digit_of c2 with
      | Some _, Some _ => true
      | _, _ => false
      end
  | _ => false
  end.

(** A saved record with every field absent. *)
Definition blank_record : SavedReceiptData :=
  {| receipt := {| transaction_name := None; total_amount := None;
                   transaction_date := None; category := None;
                   client_or_prospect := None; purpose := None |};
     id := 1 |}.

(** The scenario of the specification: three records of this month, of 50,
    100 and 200 pesos, saved in this order at clock readings [c1], [c2],
    [c3] into an empty store. *)
Definition scenario_record (name : string) (p : Z) (date cat : string) : ReceiptData :=
  {| transaction_name := Some name; total_amount := Some (pesos p);
     transaction_date := Some date; category := Some cat;
     client_or_prospect := None; purpose := None |}.

Definition scenario_store {host : Host} (d1 d2 d3 : string) (c1 c2 c3 : Z)
  : list SavedReceiptData :=
  let st := handleSaveReceipt c1 (scenario_record "Parking" 50 d1 "Transportation")
                              initialState in
  let st := handleSaveReceipt c2 (scenario_record "Toll" 100 d2 "Transportation") st in
  let st := handleSaveReceipt c3 (scenario_record "Lunch" 200 d3 "Food & Drink") st in
  savedReceipts st.

(** Sample inputs: a clock reading on Saturday 2024-06-15 (00:00 UTC that
    day, 08:00 in Manila), one on Sunday 2024-06-16, and a few records. *)
Definition saturday_morning : Z := 1718409600000.
Definition sunday_morning : Z := 1718496000000.

Definition parking : ReceiptData :=
  scenario_record "Parking" 50 "2024-06-10" "Transportation".

Definition parking_without_category : ReceiptData :=
  {| transaction_name := Some "Parking"; total_amount := Some (pesos 50);
     transaction_date := Some "2024-06-10"; category := None;
     client_or_prospect := None; purpose := None |}.

Definition free_parking : ReceiptData :=
  {| transaction_name := Some "Parking"; total_amount := Some 0;
     transaction_date := Some "2024-06-10"; category := Some "Transportation";
     client_or_prospect := None; purpose := None |}.

Definition nameless : ReceiptData :=
  {| transaction_name := Some ""; total_amount := Some (pesos 50);
     transaction_date := Some "2024-06-10"; category := Some "Transportation";
     client_or_prospect := None; purpose := None |}.

Definition last_year_receipt : ReceiptData :=
  scenario_record "Toll" 100 "2023-06-10" "Transportation".

Definition reply_without_date (cat : option string) : ReceiptData :=
  {| transaction_name := Some "Lunch"; total_amount := Some (pesos 200);
     transaction_date := None; category := cat;
     client_or_prospect := None; purpose := None |}.

Definition june_store : list SavedReceiptData :=
  scenario_store (host := manila) "2024-06-12" "2024-06-09" "2024-06-10" 11 12 13.

(** The three records of the scenario, all dated 2024-06-10. *)
Definition same_day_store : list SavedReceiptData :=
  scenario_store (host := manila) "2024-06-10" "2024-06-10" "2024-06-10"
                 1718400000001 1718400000002 1718400000003.

Definition lunch_saved : SavedReceiptData :=
  {| receipt := scenario_record "Lunch" 200 "2024-06-10" "Food & Drink"; id := 13 |}.

Definition toll_saved : SavedReceiptData :=
  {| receipt := scenario_record "Toll" 100 "2024-06-09" "Transportation"; id := 12 |}.

(** A browser five hours behind UTC. *)
Definition new_york : Host :=
  {| LocalTZA := -5 * 3600000; Date_parse := iso_date_parse |}.

(** ** The other handlers of the application (src/App.tsx) *)

Definition setManualEntryData (v : option ReceiptData) (st : AppState) : AppState :=
  mkAppState (receiptData st) (savedReceipts st) (isLoading st) (error st)
             v (showCamera st).

Definition setShowCamera (v : bool) (st : AppState) : AppState :=
  mkAppState (receiptData st) (savedReceipts st) (isLoading st) (error st)
             (manualEntryData st) v.

(** A preset button: its label, the data it fills in (no date and no
    client: those fields are left out of the object) and its colours. *)
Record Preset : Type := mkPreset {
  label : string;
  data : ReceiptData;
  colorClass : string
}.

Definition agentPresets : list Preset :=
  [ {| label := "Parking (₱50)";
       data := {| transaction_name := Some "Parking"; total_amount := Some (pesos 50);
                  transaction_date := None; category := Some "Transportation";
                  client_or_prospect := None; purpose := Some "Parking" |};
       colorClass := "bg-blue-100 text-blue-800 hover:bg-blue-200" |};
    {| label := "Toll (₱100)";
       data := {| transaction_name := Some "Toll"; total_amount := Some (pesos 100);
                  transaction_date := None; category := Some "Transportation";
                  client_or_prospect := None; purpose := Some "Toll" |};
       colorClass := "bg-blue-100 text-blue-800 hover:bg-blue-200" |};
    {| label := "Client Coffee (₱120)";
       data := {| transaction_name := Some "Client Coffee"; total_amount := Some (pesos 120);
                  transaction_date := None; category := Some "Food & Drink";
                  client_or_prospect := None; purpose := Some "Client Coffee" |};
       colorClass := "bg-red-100 text-red-800 hover:bg-red-200" |} ].

Section Handlers.
Context {host : Host}.

(** [handleSaveFromManual(data)]. *)
Definition handleSaveFromManual (now : Z) (data : ReceiptData) (st : AppState) : AppState :=
  let st := handleSaveReceipt now data st in
  setManualEntryData None st.

(** [handlePresetClick(presetData)]: the preset's fields and today's date;
    [now] is the clock read by [new Date()]. *)
Definition handlePresetClick (now : Z) (presetData : ReceiptData) (st : AppState) : AppState :=
  let initialData :=
    {| transaction_name := transaction_name presetData;
       total_amount := total_amount presetData;
       transaction_date := Some (slice_0_10 (toISOString now));
       category := category presetData;
       client_or_prospect := client_or_prospect presetData;
       purpose := purpose presetData |} in
  setManualEntryData (Some initialData) st.

(** The click on "Manual / Voice Entry": a form that holds today's date
    only. *)
Definition manualEntryClick (now : Z) (st : AppState) : AppState :=
  setManualEntryData
    (Some {| transaction_name := None; total_amount := None;
             transaction_date := Some (slice_0_10 (toISOString now));
             category := None; client_or_prospect := None; purpose := None |}) st.

(** [handleDiscard()]. *)
Definition handleDiscard (st : AppState) : AppState :=
  let st := setReceiptData None st in
  setError None st.

End Handlers.

(** No text field of the record is an empty string. *)
Definition no_empty_text (d : ReceiptData) : Prop :=
  transaction_name d <> Some "" /\ transaction_date d <> Some ""
  /\ category d <> Some "" /\ client_or_prospect d <> Some "" /\ purpose d <> Some "".

(** ** The starts of the time windows (the TransactionHistory component) *)

Section Windows.
Context {host : Host}.

(** The constants [todayStart], [monthStart], [quarterStart] and
    [yearStart] of the [switch] on the active filter. *)
Definition todayStart (now : Z) : Z := setHours now 0 0 0 0.
Definition monthStart (now : Z) : Z := Date_of_fields (getFullYear now) (getMonth now) 1.
Definition quarterStart (now : Z) : Z := fst (getQuarterRange now).
Definition yearStart (now : Z) : Z := Date_of_fields (getFullYear now) 0 1.

(** The clock does not read a year from 0 to 99, which [new Date(y, m, d)]
    would take for 1900 to 1999. *)
Definition four_digit_year (now : Z) : Prop := ~ (0 <= getFullYear now <= 99).

End Windows.

(** ** The document export (the TransactionHistory component) *)

(** A cell of the table handed to the PDF library: plain text, or an object
    with content and bold style. *)
Inductive PdfCell : Type :=
  | Plain (s : string)
  | Bold (content : string).

Section Pdf.

(** [formatCurrency] is [Intl.NumberFormat('en-PH', { style: 'currency',
    currency: 'PHP' }).format], which the browser provides. *)
Variable formatCurrency : amount -> string.

(** [data.reduce((sum, r) => sum + (r.total_amount || 0), 0)]. *)
Definition totalAmount (data : list SavedReceiptData) : amount :=
  fold_left (fun sum (r : SavedReceiptData) => sum + or_zero (total_amount r)) data 0.

(** The [body] of [handleGeneratePdf]: a row per record, then the total row. *)
Definition pdf_body (data : list SavedReceiptData) : list (list PdfCell) :=
  (map (fun r : SavedReceiptData =>
         [ Plain (or_else (transaction_date r) "N/A");
                   Plain (or_else (transaction_name r) "N/A");
                   Plain (or_else (client_or_prospect r) "N/A");
                   Plain (or_else (purpose r) "N/A");
                   Plain (or_else (category r) "N/A");
                   Plain (formatCurrency (or_zero (total_amount r))) ]) data
   ++ [[ Plain ""; Plain ""; Plain ""; Plain "";
         Bold "TOTAL"; Bold (formatCurrency (totalAmount data)) ]])%list.

(** The test of [didDrawCell] on a body row: the cell of column 3 is the
    raw text 'N/A'. *)
Definition pdf_highlighted (row : list PdfCell) : bool :=
  match nth_error row 3 with
  | Some (Plain raw) => (raw =? "N/A")%string
  | _ => false
  end.

Definition pdf_notice : string :=
  "PDF generation is only available for the 'All' transactions view.".

(** [handleGeneratePdf()]: the notice of the [alert], or the table body of
    the document. [filteredData] is an array under every filter, so the
    test [!Array.isArray(filteredData)] never holds. *)
Definition handleGeneratePdf (activeFilter : FilterType) (filteredData : FilteredData)
  : string + list (list PdfCell) :=
  match activeFilter, filteredData with
  | All, Records data => inr (pdf_body data)
  | _, _ => inl pdf_notice
  end.

End Pdf.

(** Sum of the totals of a summary. *)
Definition sum_of_totals (totals : list (string * amount)) : amount :=
  fold_right (fun e s => snd e + s) 0 totals.


(** ** The delimited-text export (the TransactionHistory component) *)

(** The double quote character. *)
Definition dquote : ascii := "034"%char.

(** The [replace] of every double quote of [s] by two of them. *)
Fixpoint escape_quotes (s : string) : string :=
  match s with
  | EmptyString => EmptyString
  | String c t =>
      if Ascii.eqb c dquote then String dquote (String dquote (escape_quotes t))
      else String c (escape_quotes t)
  end.

(** A quoted field of the export: a quote, the text of the field with its
    quotes doubled (the empty text when the field is absent or that text is
    empty), and a quote. *)
Definition csv_quoted (v : option string) : string :=
  String dquote (or_else (option_map escape_quotes v) "" ++ String dquote "").

(** [x.toString()] on an amount: the decimal form without trailing zeros
    (amounts are far below the magnitude where the exponent form begins). *)
Definition amount_toString (x : amount) : string :=
  let a := Z.abs x in
  let f := a mod 100 in
  (if x <? 0 then "-" else "") ++ digits (a / 100) ++
  (if f =? 0 then ""
   else "." ++ (if f mod 10 =? 0 then digits (f / 10) else padStart0 2 f)).

Definition csv_header : string :=
  "Date,Transaction,Amount,Category,Client/Prospect,Purpose" ++ newline.

(** The cells of a record's row under the All filter. *)
Definition csv_row (r : SavedReceiptData) : list string :=
  [ or_else (transaction_date r) "";
    csv_quoted (transaction_name r);
    or_else (option_map amount_toString (total_amount r)) "0";
    or_else (category r) "Uncategorized";
    csv_quoted (client_or_prospect r);
    csv_quoted (purpose r) ].

(** The cells of a summary row under the other filters. *)
Definition csv_summary_row (s : string * amount) : list string :=
  [ fst s; amount_toString (snd s) ].

(** The text that [handleDownloadCsv] hands to [encodeURI], [csvContent +
    csvRows], for the list and the filter of the component. [periodTitle]
    is the title the component has computed for the active filter. *)
Definition handleDownloadCsv {host : Host} (activeFilter : FilterType) (now : Z)
  (receipts : list SavedReceiptData) (periodTitle : string) : string :=
  let csvContent := "data:text/csv;charset=utf-8," in
  let '(csvContent, rows) :=
    match activeFilter with
    | All => (csvContent ++ csv_header, map csv_row (filtered All now receipts))
    | _ =>
        (csvContent ++ "Category,Total Amount for " ++ periodTitle ++ newline,
         map csv_summary_row (summaryArray (filtered activeFilter now receipts)))
    end in
  let csvRows := join newline (map (join ",") rows) in
  csvContent ++ csvRows.

(** A reader of quoted fields, as a consumer of the file applies it: after
    the opening quote, a doubled quote stands for a quote and a single one
    closes the field. It returns the content and what follows the field. *)
Fixpoint read_quoted_body (s : string) : option (string * string) :=
  match s with
  | EmptyString => None
  | String c t =>
      if Ascii.eqb c dquote then
        match t with
        | String c' t' =>
            if Ascii.eqb c' dquote
            then option_map (fun p => (String dquote (fst p), snd p)) (read_quoted_body t')
            else Some (EmptyString, t)
        | EmptyString => Some (EmptyString, EmptyString)
        end
      else option_map (fun p => (String c (fst p), snd p)) (read_quoted_body t)
  end.

Definition read_quoted (s : string) : option (string * string) :=
  match s with
  | String c t => if Ascii.eqb c dquote then read_quoted_body t else None
  | EmptyString => None
  end.

(** The text does not begin with a double quote. *)
Definition no_leading_quote (s : string) : Prop :=
  match s with
  | String c _ => c <> dquote
  | EmptyString => True
  end.

(** The content of a text cell: empty when the field is absent. *)
Definition cell_text (v : option string) : string :=
  match v with Some s => s | None => "" end.

(** ** The assistant panel (src/components/AIAnalytics.tsx) *)

(** Strings here are read as sequences of code units below 256. The white
    space that [trim] removes is then: tab, line feed, vertical tab, form
    feed, carriage return, space and no-break space. *)
Definition is_whitespace (c : ascii) : bool :=
  let n := nat_of_ascii c in
  ((9 <=? n) && (n <=? 13) || (n =? 32) || (n =? 160))%nat.

(** The line terminators, which the dot of a regular expression does not
    match. *)
Definition is_line_terminator (c : ascii) : bool :=
  let n := nat_of_ascii c in ((n =? 10) || (n =? 13))%nat.

Fixpoint string_rev (s : string) : string :=
  match s with
  | EmptyString => EmptyString
  | String c t => string_rev t ++ String c EmptyString
  end.

Fixpoint trimStart (s : string) : string :=
  match s with
  | EmptyString => EmptyString
  | String c t => if is_whitespace c then trimStart t else s
  end.

Definition trimEnd (s : string) : string := string_rev (trimStart (string_rev s)).

Definition trim (s : string) : string := trimEnd (trimStart s).

Definition startsWith (p s : string) : bool := prefix p s.

Definition endsWith (p s : string) : bool := prefix (string_rev p) (string_rev s).

(** [s.substring(2)]. *)
Definition substring_2 (s : string) : string := substring 2 (String.length s - 2) s.

(** [s.slice(2, -2)]. *)
Definition slice_2_m2 (s : string) : string := substring 2 (String.length s - 4) s.

(** [text.split('\n')]. *)
Fixpoint split_newline (s : string) : list string :=
  match s with
  | EmptyString => [EmptyString]
  | String c t =>
      if Ascii.eqb c "010" then EmptyString :: split_newline t
      else match split_newline t with
           | line :: rest => String c line :: rest
           | [] => [String c EmptyString]
           end
  end.

(** After an opening pair of stars: the shortest run of characters other
    than line terminators that is followed by a pair of stars, and what
    follows that pair. *)
Fixpoint find_close (s : string) : option (string * string) :=
  match s with
  | EmptyString => None
  | String c t =>
      if startsWith "**" s then Some (EmptyString, substring_2 s)
      else if is_line_terminator c then None
      else option_map (fun p => (String c (fst p), snd p)) (find_close t)
  end.

(** The [split] of [content] on the captured pattern of two stars, as few
    characters as possible, two stars: the text between the matches and
    the matches themselves, in turn. [skip] counts the characters of a match
    that remain to be passed over, [plain] is the text met since the last
    match. *)
Fixpoint split_bold_from (skip : nat) (plain : string) (s : string) : list string :=
  match s with
  | EmptyString => [plain]
  | String c t =>
      match skip with
      | S k => split_bold_from k plain t
      | O =>
          if startsWith "**" s then
            match find_close (substring_2 s) with
            | Some (body, _) =>
                plain :: ("**" ++ body ++ "**")
                      :: split_bold_from (3 + String.length body) EmptyString t
            | None => split_bold_from O (plain ++ String c EmptyString) t
            end
          else split_bold_from O (plain ++ String c EmptyString) t
      end
  end.

Definition split_bold (content : string) : list string :=
  split_bold_from O EmptyString content.

(** What a line of the answer is rendered as. *)
Inductive Part : Type :=
  | Strong (s : string)
  | Text (s : string).

Inductive Node : Type :=
  | Hr
  | ListItem (parts : list Part)
  | Heading (content : string)
  | Paragraph (line : string).

Definition render_part (part : string) : Part :=
  if startsWith "**" part && endsWith "**" part
  then Strong (slice_2_m2 part) else Text part.

(** The callback of the [map] in [renderAnalysis]; [None] is [null]. *)
Definition render_line (line : string) : option Node :=
  if (trim line =? "---")%string then Some Hr
  else if startsWith "* " (trim line) then
    let content := substring_2 (trim line) in
    let parts := filter (fun part => negb (part =? "")%string) (split_bold content) in
    Some (ListItem (map render_part parts))
  else if startsWith "**" (trim line) && endsWith "**" (trim line) then
    let content := slice_2_m2 (trim line) in
    Some (Heading content)
  else if (trim line =? "")%string then None
  else Some (Paragraph line).

Fixpoint render_lines (i : nat) (lines : list string) : list (nat * Node) :=
  match lines with
  | [] => []
  | line :: rest =>
      match render_line line with
      | Some node => (i, node) :: render_lines (S i) rest
      | None => render_lines (S i) rest
      end
  end.

(** [renderAnalysis(text)]: the nodes, each with its [key], the index of
    its line; the lines that give [null] are filtered out. *)
Definition renderAnalysis (text : string) : list (nat * Node) :=
  render_lines O (split_newline text).

Module Assistant.

Record State : Type := mkState {
  query : string;
  analysis : string;
  isLoading : bool;
  error : option string
}.

Definition setAnalysis (v : string) (st : State) : State :=
  mkState (query st) v (isLoading st) (error st).
Definition setIsLoading (v : bool) (st : State) : State :=
  mkState (query st) (analysis st) v (error st).
Definition setError (v : option string) (st : State) : State :=
  mkState (query st) (analysis st) (isLoading st) v.
Definition setQuery (v : string) (st : State) : State :=
  mkState v (analysis st) (isLoading st) (error st).

Definition failed_message : string := "Failed to get insights. Please try again.".

(** [handleGetInsights()]. [outcome] is what
    [await getSpendingAnalysis(receipts, query)] produces when it is called:
    [Some result], or [None] when the promise is rejected. The result is the
    new state and the arguments of the call, if one is made. *)
Definition handleGetInsights (receipts : list SavedReceiptData)
  (outcome : option string) (st : State)
  : State * option (list SavedReceiptData * string) :=
  if (trim (query st) =? "")%string || (List.length receipts =? 0)%nat
  then (st, None)
  else
    let st1 := setIsLoading true st in
    let st1 := setError None st1 in
    let st1 := setAnalysis "" st1 in
    let st1 :=
      match outcome with
      | Some result => setAnalysis result st1
      | None => setError (Some failed_message) st1
      end in
    (setIsLoading false st1, Some (receipts, query st)).

(** [handlePromptClick(prompt)]. *)
Definition handlePromptClick (prompt : string) (st : State) : State :=
  setQuery prompt st.

End Assistant.

(** The [transactionData] that [getSpendingAnalysis] puts into its prompt. *)
Definition transactionData (transactions : list SavedReceiptData) : string :=
  formatTransactionsForAI transactions.

(** The text of a list of parts, one after the other. *)
Definition concat_parts (parts : list string) : string :=
  fold_right append EmptyString parts.

Fixpoint string_forall (p : ascii -> bool) (s : string) : bool :=
  match s with
  | EmptyString => true
  | String c t => p c && string_forall p t
  end.

Definition no_newline (line : string) : Prop :=
  string_forall (fun c => negb (Ascii.eqb c "010")) line = true.

(** Further sample inputs: a record dated after the sample clock readings,
    a question typed into the assistant panel, and a name that holds a
    double quote. *)
Definition gift_saved : SavedReceiptData :=
  {| receipt := scenario_record "Gift" 500 "2024-12-25" "Shopping"; id := 14 |}.

Definition asking : Assistant.State :=
  {| Assistant.query := "Where did I spend the most?"; Assistant.analysis := "";
     Assistant.isLoading := false; Assistant.error := None |}.

Definition quoted_name : string := String dquote "Big" ++ String dquote " Cafe".

(** The application with the June records in store. *)
Definition june_state : AppState :=
  {| receiptData := None; savedReceipts := june_store; isLoading := false;
     error := None; manualEntryData := None; showCamera := false |}.

(** * Properties *)

(** ** Calendar arithmetic *)

Lemma DayFromYear_quarter y :
  (y + 1 - 1969) / 4 = (y - 1969) / 4 + (if y mod 4 =? 0 then 1 else 0).
Proof.
  destruct (y mod 4 =? 0) eqn:E; rewrite ?Z.eqb_eq, ?Z.eqb_neq in E;
    Z.to_euclidean_division_equations; lia.
Qed.

Lemma DayFromYear_century y :
  (y + 1 - 1901) / 100 = (y - 1901) / 100 + (if y mod 100 =? 0 then 1 else 0).
Proof.
  destruct (y mod 100 =? 0) eqn:E; rewrite ?Z.eqb_eq, ?Z.eqb_neq in E;
    Z.to_euclidean_division_equations; lia.
Qed.

Lemma DayFromYear_quadricentury y :
  (y + 1 - 1601) / 400 = (y - 1601) / 400 + (if y mod 400 =? 0 then 1 else 0).
Proof.
  destruct (y mod 400 =? 0) eqn:E; rewrite ?Z.eqb_eq, ?Z.eqb_neq in E;
    Z.to_euclidean_division_equations; lia.
Qed.

Lemma DayFromYear_step y :
  ES.DayFromYear (y + 1) = ES.DayFromYear y + ES.DaysInYear y.
Proof.
  unfold ES.DayFromYear, ES.DaysInYear, ES.isLeap.
  replace (y + 1 - 1970) with (y - 1970 + 1) by lia.
  rewrite DayFromYear_quarter, DayFromYear_century, DayFromYear_quadricentury.
  assert (H1 : y mod 100 = 0 -> y mod 4 = 0)
    by (intros; Z.to_euclidean_division_equations; lia).
  assert (H2 : y mod 400 = 0 -> y mod 100 = 0)
    by (intros; Z.to_euclidean_division_equations; lia).
  destruct (y mod 4 =? 0) eqn:E4; destruct (y mod 100 =? 0) eqn:E100;
    destruct (y mod 400 =? 0) eqn:E400; cbn [andb orb negb];
    rewrite ?Z.eqb_eq, ?Z.eqb_neq in *; lia.
Qed.

(** [YearFromDay d] is the year whose days include day [d]. *)
Lemma YearFromDay_spec d :
  ES.DayFromYear (ES.YearFromDay d) <= d < ES.DayFromYear (ES.YearFromDay d + 1).
Proof.
  unfold ES.YearFromDay.
  set (y := 1970 + 400 * d / 146097).
  destruct (d <? ES.DayFromYear y) eqn:E1.
  - apply Z.ltb_lt in E1. replace (y - 1 + 1) with y by lia. split; [|exact E1].
    unfold ES.DayFromYear in *. subst y.
    Z.to_euclidean_division_equations; lia.
  - apply Z.ltb_ge in E1.
    destruct (ES.DayFromYear (y + 1) <=? d) eqn:E2.
    + apply Z.leb_le in E2. split; [exact E2|].
      unfold ES.DayFromYear in *. subst y.
      Z.to_euclidean_division_equations; lia.
    + apply Z.leb_gt in E2. lia.
Qed.

Lemma DayFromYear_mono y1 y2 : y1 <= y2 -> ES.DayFromYear y1 <= ES.DayFromYear y2.
Proof.
  intros H. unfold ES.DayFromYear. Z.to_euclidean_division_equations; lia.
Qed.

(** The year of a day is determined by the bounds of [YearFromDay_spec]. *)
Lemma YearFromDay_unique d y :
  ES.DayFromYear y <= d < ES.DayFromYear (y + 1) -> ES.YearFromDay d = y.
Proof.
  intros [Hl Hu]. destruct (YearFromDay_spec d) as [Gl Gu].
  destruct (Z.lt_trichotomy (ES.YearFromDay d) y) as [L | [E | G]]; [|exact E|].
  - pose proof (DayFromYear_mono (ES.YearFromDay d + 1) y ltac:(lia)). lia.
  - pose proof (DayFromYear_mono (y + 1) (ES.YearFromDay d) ltac:(lia)). lia.
Qed.

(** ** Truthiness *)

Lemma truthy_false_iff v : truthy v = false <-> absent v.
Proof.
  unfold absent. destruct v as [s|]; simpl.
  - rewrite negb_false_iff, String.eqb_eq. split.
    + intros ->. now right.
    + intros [H|H]; congruence.
  - split; auto.
Qed.

Lemma truthy_true_iff v : truthy v = true <-> exists s, v = Some s /\ s <> "".
Proof.
  destruct v as [s|]; simpl.
  - rewrite negb_true_iff, String.eqb_neq. split.
    + intros H. now exists s.
    + intros [s' [E H]]. congruence.
  - split; [discriminate | intros [s [E _]]; discriminate].
Qed.

Lemma or_else_present s d : s <> "" -> or_else (Some s) d = s.
Proof. intros H. simpl. apply String.eqb_neq in H. now rewrite H. Qed.

Lemma or_else_absent v d : absent v -> or_else v d = d.
Proof. intros [-> | ->]; reflexivity. Qed.

(** ** Subsequences and sorting *)

Lemma Subseq_refl {A} (l : list A) : Subseq l l.
Proof. induction l; constructor; assumption. Qed.

Lemma filter_Subseq {A} (p : A -> bool) l : Subseq (filter p l) l.
Proof.
  induction l as [|x l IH]; simpl; [constructor|].
  destruct (p x); constructor; assumption.
Qed.

Lemma Subseq_In {A} (l1 l2 : list A) x : Subseq l1 l2 -> In x l1 -> In x l2.
Proof. induction 1; simpl; intuition. Qed.

Lemma Subseq_Forall {A} (P : A -> Prop) l1 l2 :
  Subseq l1 l2 -> Forall P l2 -> Forall P l1.
Proof.
  induction 1; intros HF; [constructor| |]; inversion HF; subst; auto.
Qed.

Lemma Subseq_StronglySorted {A} (R : A -> A -> Prop) l1 l2 :
  Subseq l1 l2 -> StronglySorted R l2 -> StronglySorted R l1.
Proof.
  induction 1; intros HS; [constructor| |].
  - inversion HS; subst. constructor; [auto|].
    eapply Subseq_Forall; eassumption.
  - inversion HS; subst. auto.
Qed.

Lemma sort_insert_perm {A} (cmp : A -> A -> Z) x l :
  Permutation (x :: l) (sort_insert cmp x l).
Proof.
  induction l as [|y t IH]; simpl; [reflexivity|].
  destruct (cmp x y <=? 0); [reflexivity|].
  rewrite perm_swap. now apply perm_skip.
Qed.

Lemma Array_sort_perm {A} (cmp : A -> A -> Z) l :
  Permutation l (Array_sort cmp l).
Proof.
  induction l as [|x t IH]; simpl; [constructor|].
  rewrite <- sort_insert_perm. now apply perm_skip.
Qed.

Lemma filter_length_complement {A} (p : A -> bool) l :
  (List.length (filter (fun x => negb (p x)) l) + List.length (filter p l)
   = List.length l)%nat.
Proof.
  induction l as [|x l IH]; simpl; [reflexivity|].
  destruct (p x); simpl; lia.
Qed.

Lemma filter_all {A} (p : A -> bool) l :
  (forall x, In x l -> p x = true) -> filter p l = l.
Proof.
  induction l as [|x l IH]; simpl; intros H; [reflexivity|].
  rewrite (H x (or_introl eq_refl)). f_equal. apply IH. auto.
Qed.

Lemma filter_none {A} (p : A -> bool) l :
  (forall x, In x l -> p x = false) -> filter p l = [].
Proof.
  induction l as [|x l IH]; simpl; intros H; [reflexivity|].
  rewrite (H x (or_introl eq_refl)). apply IH. auto.
Qed.

(** ** The record store *)

Section Store.
Context {host : Host}.

Lemma dated_time r : dated r -> exists t, dateTime r = Some t.
Proof. unfold dated. destruct (dateTime r) as [t|]; [eauto | congruence]. Qed.

Lemma byDateDesc_le a b :
  dated a -> dated b -> (byDateDesc a b <= 0 <-> not_before a b).
Proof.
  intros [ta Ha]%dated_time [tb Hb]%dated_time.
  unfold byDateDesc, not_before. rewrite Ha, Hb. simpl. lia.
Qed.

Lemma byDateDesc_gt a b :
  dated a -> dated b -> 0 < byDateDesc a b -> not_before b a.
Proof.
  intros [ta Ha]%dated_time [tb Hb]%dated_time.
  unfold byDateDesc, not_before. rewrite Ha, Hb. simpl. lia.
Qed.

Lemma not_before_trans a b c : not_before a b -> not_before b c -> not_before a c.
Proof.
  unfold not_before.
  destruct (dateTime a), (dateTime b), (dateTime c); try tauto. lia.
Qed.

Lemma sort_insert_descending x l :
  dated x -> Forall dated l -> StronglySorted not_before l ->
  StronglySorted not_before (sort_insert byDateDesc x l).
Proof.
  intros Hx Hl HS. induction HS as [|y t HS IH Hy]; simpl.
  - repeat constructor.
  - inversion Hl as [|? ? Dy Dt]; subst.
    destruct (byDateDesc x y <=? 0) eqn:E.
    + apply Z.leb_le in E. apply byDateDesc_le in E; [|assumption..].
      constructor; [constructor; assumption|].
      constructor; [assumption|].
      eapply Forall_impl; [|exact Hy]. intros z Hz.
      eapply not_before_trans; eassumption.
    + apply Z.leb_gt in E. apply byDateDesc_gt in E; [|assumption..].
      constructor; [auto|].
      eapply Permutation_Forall; [apply sort_insert_perm|].
      constructor; assumption.
Qed.

Lemma Array_sort_descending l :
  Forall dated l -> StronglySorted not_before (Array_sort byDateDesc l).
Proof.
  induction l as [|x t IH]; intros Hl; simpl; [constructor|].
  inversion Hl; subst.
  apply sort_insert_descending; auto.
  eapply Permutation_Forall; [apply Array_sort_perm | assumption].
Qed.

Lemma Array_sort_date_descending l :
  Forall dated l -> date_descending (Array_sort byDateDesc l).
Proof.
  intros Hl. split; [|now apply Array_sort_descending].
  eapply Permutation_Forall; [apply Array_sort_perm | assumption].
Qed.

(** The guard of [handleSaveReceipt] fires exactly on an absent field. *)
Lemma save_guard data :
  negb (truthy (transaction_name data)) || is_null (total_amount data)
    || negb (truthy (transaction_date data)) || negb (truthy (category data)) = true
  <-> absent (transaction_name data) \/ total_amount data = None
      \/ absent (transaction_date data) \/ absent (category data).
Proof.
  rewrite !orb_true_iff, !negb_true_iff, !truthy_false_iff.
  assert (E : is_null (total_amount data) = true <-> total_amount data = None)
    by (destruct (total_amount data); simpl; split; congruence).
  rewrite E. tauto.
Qed.

Lemma save_rejected now data st :
  absent (transaction_name data) \/ total_amount data = None
    \/ absent (transaction_date data) \/ absent (category data) ->
  handleSaveReceipt now data st = setError (Some incomplete_message) st.
Proof.
  intros H. apply save_guard in H. unfold handleSaveReceipt. now rewrite H.
Qed.

Lemma save_accepted now data st :
  ~ absent (transaction_name data) -> total_amount data <> None ->
  ~ absent (transaction_date data) -> ~ absent (category data) ->
  handleSaveReceipt now data st =
  setReceiptData None
    (setSavedReceipts
       (fun prev => Array_sort byDateDesc ({| receipt := data; id := now |} :: prev)) st).
Proof.
  intros H1 H2 H3 H4. unfold handleSaveReceipt.
  destruct (_ || _ || _ || _) eqn:E; [|reflexivity].
  apply save_guard in E. tauto.
Qed.

(** C1. A save with [transaction_name], [total_amount], [transaction_date]
    or [category] absent only sets the incomplete-data error: nothing is
    appended and the saved list (like the rest of the state) is unchanged.
    With the four fields present the record, with its id, joins the list:
    the new list is a rearrangement of the new record put before the old
    ones, hence contains it and is one longer. *)
Theorem save_needs_the_four_fields now data st :
  (absent (transaction_name data) \/ total_amount data = None
     \/ absent (transaction_date data) \/ absent (category data) ->
   let st' := handleSaveReceipt now data st in
   error st' = Some "Cannot save incomplete receipt data."
   /\ savedReceipts st' = savedReceipts st
   /\ receiptData st' = receiptData st
   /\ manualEntryData st' = manualEntryData st)
  /\
  (~ absent (transaction_name data) -> total_amount data <> None ->
   ~ absent (transaction_date data) -> ~ absent (category data) ->
   let st' := handleSaveReceipt now data st in
   let newReceipt := {| receipt := data; id := now |} in
   Permutation (newReceipt :: savedReceipts st) (savedReceipts st')
   /\ In newReceipt (savedReceipts st')
   /\ List.length (savedReceipts st') = S (List.length (savedReceipts st))
   /\ error st' = error st).
Proof.
  split.
  - intros H. cbv zeta. rewrite (save_rejected now data st H). now simpl.
  - intros H1 H2 H3 H4. cbv zeta. rewrite (save_accepted now data st H1 H2 H3 H4).
    unfold setReceiptData, setSavedReceipts. cbn [savedReceipts error].
    assert (P := Array_sort_perm byDateDesc
                   ({| receipt := data; id := now |} :: savedReceipts st)).
    repeat split.
    + exact P.
    + eapply Permutation_in; [exact P | now left].
    + rewrite <- (Permutation_length P). reflexivity.
Qed.

(** C9. An amount of exactly 0 counts as present: with a non-empty name,
    date and category the record is accepted and put into the list. An
    empty [transaction_name], [transaction_date] or [category] counts as
    absent: the save is rejected and the list unchanged. *)
Theorem zero_amount_is_present_empty_string_is_absent now st :
  (forall name date cat client why,
     name <> "" -> date <> "" -> cat <> "" ->
     let data := {| transaction_name := Some name; total_amount := Some 0;
                    transaction_date := Some date; category := Some cat;
                    client_or_prospect := client; purpose := why |} in
     let st' := handleSaveReceipt now data st in
     savedReceipts st' =
       Array_sort byDateDesc ({| receipt := data; id := now |} :: savedReceipts st)
     /\ In {| receipt := data; id := now |} (savedReceipts st')
     /\ error st' = error st)
  /\
  (forall data,
     transaction_name data = Some "" \/ transaction_date data = Some ""
       \/ category data = Some "" ->
     let st' := handleSaveReceipt now data st in
     error st' = Some incomplete_message
     /\ savedReceipts st' = savedReceipts st).
Proof.
  split.
  - intros name date cat client why Hn Hd Hc. cbv zeta.
    rewrite save_accepted; cbn [transaction_name total_amount transaction_date category];
      try (unfold absent; intros [?|?]; congruence); try congruence.
    unfold setReceiptData, setSavedReceipts. cbn [savedReceipts error].
    repeat split.
    eapply Permutation_in; [apply Array_sort_perm | now left].
  - intros data H. cbv zeta. rewrite save_rejected; [now simpl|].
    unfold absent. tauto.
Qed.

(** C10. [handleDeleteReceipt id0] keeps exactly the records whose id is not
    [id0], each as it was and in the same relative order; all records with
    that id go; without such a record the list is unchanged. The rest of the
    state is untouched. *)
Theorem delete_removes_exactly_the_id id0 st :
  let before := savedReceipts st in
  let after := savedReceipts (handleDeleteReceipt id0 st) in
  (forall r, In r after <-> In r before /\ id r <> id0)
  /\ Subseq after before
  /\ Forall (fun r => id r <> id0) after
  /\ (List.length after + List.length (filter (fun r => (id r =? id0)%Z) before)
      = List.length before)%nat
  /\ ((forall r, In r before -> id r <> id0) -> after = before)
  /\ handleDeleteReceipt id0 st = setSavedReceipts (fun _ => after) st.
Proof.
  cbv zeta. unfold handleDeleteReceipt, setSavedReceipts.
  cbn [savedReceipts].
  assert (Hin : forall r,
             In r (filter (fun receipt => negb (id receipt =? id0)) (savedReceipts st))
             <-> In r (savedReceipts st) /\ id r <> id0).
  { intros r. rewrite filter_In, negb_true_iff, Z.eqb_neq. tauto. }
  split; [exact Hin|].
  split; [apply filter_Subseq|].
  split; [apply Forall_forall; intros r Hr; now apply Hin in Hr|].
  split; [apply (filter_length_complement (fun r => id r =? id0))|].
  split; [|reflexivity].
  intros Hno. apply filter_all. intros r Hr.
  apply negb_true_iff, Z.eqb_neq. now apply Hno.
Qed.

Lemma save_keeps_descending now data st :
  date_descending (savedReceipts st) -> readable_date data ->
  date_descending (savedReceipts (handleSaveReceipt now data st)).
Proof.
  intros [Hd Hs] Hr. unfold handleSaveReceipt.
  destruct (_ || _ || _ || _) eqn:E.
  - cbn [setError savedReceipts]. now split.
  - unfold setReceiptData, setSavedReceipts. cbn [savedReceipts].
    apply Array_sort_date_descending. constructor; [|exact Hd].
    unfold dated, dateTime. cbn [receipt transaction_date].
    destruct (transaction_date data) as [s|] eqn:Es; cbn [Date_of_value].
    + now apply Hr.
    + discriminate.
Qed.

Lemma delete_keeps_descending id0 st :
  date_descending (savedReceipts st) ->
  date_descending (savedReceipts (handleDeleteReceipt id0 st)).
Proof.
  intros [Hd Hs]. unfold handleDeleteReceipt, setSavedReceipts.
  cbn [savedReceipts]. split.
  - eapply Subseq_Forall; [apply filter_Subseq | exact Hd].
  - eapply Subseq_StronglySorted; [apply filter_Subseq | exact Hs].
Qed.

Lemma sort_insert_place x l :
  dated x -> Forall dated l -> StronglySorted not_before l ->
  sort_insert byDateDesc x l =
  (filter (later_than x) l ++ x :: filter (fun r => negb (later_than x r)) l)%list.
Proof.
  intros Hx Hl HS. induction HS as [|y t HS IH Hy]; [reflexivity|].
  inversion Hl as [|? ? Dy Dt]; subst. cbn [sort_insert filter].
  assert (L : later_than x y = negb (byDateDesc x y <=? 0))
    by (unfold later_than; apply Z.ltb_antisym).
  rewrite L. destruct (byDateDesc x y <=? 0) eqn:E; cbn [negb].
  - apply Z.leb_le in E.
    assert (N : forall r, In r t -> later_than x r = false).
    { intros r Hr. unfold later_than. apply Z.ltb_ge.
      rewrite Forall_forall in Hy, Dt. specialize (Hy r Hr). specialize (Dt r Hr).
      apply byDateDesc_le; [assumption..|].
      apply byDateDesc_le in E; [|assumption..].
      eapply not_before_trans; eassumption. }
    rewrite (filter_none _ _ N). cbn [app]. do 2 f_equal.
    symmetry. apply filter_all. intros r Hr. now rewrite (N r Hr).
  - cbn [app]. f_equal. now apply IH.
Qed.

Lemma Array_sort_descending_id l :
  Forall dated l -> StronglySorted not_before l -> Array_sort byDateDesc l = l.
Proof.
  intros Hl HS. induction HS as [|x t HS IH Hx]; [reflexivity|].
  inversion Hl as [|? ? Dx Dt]; subst. cbn [Array_sort]. rewrite (IH Dt).
  destruct t as [|y t']; [reflexivity|]. cbn [sort_insert].
  inversion Hx as [|? ? Hxy _]; subst. inversion Dt; subst.
  apply byDateDesc_le in Hxy; [|assumption..].
  apply Z.leb_le in Hxy. now rewrite Hxy.
Qed.

(** On a date-descending store, a save puts the new record after the
    records with a later date and before all others - so before the records
    of the same date saved earlier. *)
Lemma save_places_new_record now data st :
  date_descending (savedReceipts st) -> readable_date data ->
  ~ absent (transaction_name data) -> total_amount data <> None ->
  ~ absent (transaction_date data) -> ~ absent (category data) ->
  let newReceipt := {| receipt := data; id := now |} in
  savedReceipts (handleSaveReceipt now data st) =
  (filter (later_than newReceipt) (savedReceipts st)
   ++ newReceipt :: filter (fun r => negb (later_than newReceipt r)) (savedReceipts st))%list.
Proof.
  intros [Hd Hs] Hr H1 H2 H3 H4. cbv zeta.
  rewrite (save_accepted now data st H1 H2 H3 H4).
  unfold setReceiptData, setSavedReceipts. cbn [savedReceipts Array_sort].
  rewrite (Array_sort_descending_id _ Hd Hs).
  apply sort_insert_place; [|assumption..].
  unfold dated, dateTime. cbn [receipt].
  destruct (transaction_date data) as [s|] eqn:Es; cbn [Date_of_value];
    [now apply Hr | discriminate].
Qed.

(** C2. On a list that is non-increasing by date, a save leaves a list that
    is again non-increasing by [transaction_date]; a deletion leaves the
    surviving records in their relative order (and so the list
    non-increasing); hence any sequence of saves (and deletions) keeps the
    persisted list non-increasing by date. Dates are dates the host can
    read: for an unreadable one the comparator of the sort is NaN. *)
Theorem saved_list_stays_date_descending :
  (forall now data st,
     date_descending (savedReceipts st) -> readable_date data ->
     date_descending (savedReceipts (handleSaveReceipt now data st)))
  /\
  (forall id0 st,
     Subseq (savedReceipts (handleDeleteReceipt id0 st)) (savedReceipts st)
     /\ (date_descending (savedReceipts st) ->
         date_descending (savedReceipts (handleDeleteReceipt id0 st))))
  /\
  (forall actions st,
     date_descending (savedReceipts st) -> Forall readable_action actions ->
     date_descending (savedReceipts (fold_left perform actions st))).
Proof.
  split; [exact save_keeps_descending|].
  split.
  - intros id0 st. split; [apply filter_Subseq | apply delete_keeps_descending].
  - induction actions as [|a actions IH]; intros st Hst Hact; simpl; [exact Hst|].
    inversion Hact as [|? ? Ha Hrest]; subst. apply IH; [|exact Hrest].
    destruct a as [now data | id0]; simpl.
    + now apply save_keeps_descending.
    + now apply delete_keeps_descending.
Qed.

End Store.

(** ** Extraction defaults *)

Lemma mem_string_In k ks : mem_string k ks = true <-> In k ks.
Proof.
  unfold mem_string. rewrite existsb_exists. split.
  - intros [x [Hx E]]. apply String.eqb_eq in E. now subst.
  - intros H. exists k. split; [exact H | apply String.eqb_refl].
Qed.

Lemma validated_category_member c :
  In c categories -> validated_category (Some c) = Some c.
Proof.
  intros H. unfold validated_category.
  assert (T : truthy (Some c) = true).
  { apply truthy_true_iff. exists c. split; [reflexivity|]. intros ->.
    simpl in H. intuition discriminate. }
  apply mem_string_In in H. now rewrite T, H.
Qed.

Lemma validated_category_other c :
  ~ In c categories -> validated_category (Some c) = Some "Other".
Proof.
  intros H. unfold validated_category.
  destruct (mem_string c categories) eqn:E.
  - apply mem_string_In in E. contradiction.
  - now rewrite andb_false_r.
Qed.

(** C5. On both extraction paths, a returned category that is a member of
    the nine-value list is kept unchanged; one that is not a member, or is
    absent, becomes exactly 'Other'. *)
Theorem category_outside_the_list_becomes_Other now data :
  (forall c, category data = Some c -> In c categories ->
     category (analyzeReceipt data) = Some c
     /\ category (analyzeTransactionFromVoice now data) = Some c)
  /\
  (category data = None \/ (exists c, category data = Some c /\ ~ In c categories) ->
     category (analyzeReceipt data) = Some "Other"
     /\ category (analyzeTransactionFromVoice now data) = Some "Other").
Proof.
  unfold analyzeReceipt, analyzeTransactionFromVoice. cbn [category]. split.
  - intros c E H. rewrite E, (validated_category_member c H). now split.
  - intros [E | [c [E H]]]; rewrite E.
    + now split.
    + rewrite (validated_category_other c H). now split.
Qed.

(** C6. When the response has no [transaction_date], the audio path puts
    today's date, the anchor given to the model, while the image path leaves
    the date absent (null). *)
Theorem missing_date_defaults_to_today_on_audio_only now data :
  absent (transaction_date data) ->
  transaction_date (analyzeTransactionFromVoice now data) = Some (today_of now)
  /\ transaction_date (analyzeReceipt data) = None.
Proof.
  intros H. unfold analyzeReceipt, analyzeTransactionFromVoice.
  cbn [transaction_date]. rewrite (or_else_absent _ _ H). split; [reflexivity|].
  unfold or_null. apply truthy_false_iff in H. now rewrite H.
Qed.

(** ** Serialization for the analysis prompt *)

Lemma append_assoc (a b c : string) : (a ++ b) ++ c = a ++ b ++ c.
Proof. induction a as [|x a IH]; simpl; [reflexivity | now rewrite IH]. Qed.

Lemma append_nonempty_r (a b : string) : b <> "" -> a ++ b <> "".
Proof. destruct a; simpl; [auto | discriminate]. Qed.

Lemma toFixed2_nonempty x : toFixed2 x <> "".
Proof.
  unfold toFixed2. apply append_nonempty_r, append_nonempty_r.
  simpl. discriminate.
Qed.

Lemma padStart0_two_digits k :
  0 <= k < 100 -> two_digit_string (padStart0 2 k) = true.
Proof.
  intros H.
  assert (A : forallb (fun n => two_digit_string (padStart0 2 (Z.of_nat n)))
                      (seq 0 100) = true) by (vm_compute; reflexivity).
  rewrite forallb_forall in A.
  specialize (A (Z.to_nat k)). rewrite Z2Nat.id in A by lia.
  apply A, in_seq. lia.
Qed.

(** [toFixed(2)] ends in a point and two digits. *)
Lemma toFixed2_two_decimals x :
  exists whole c1 c2,
    toFixed2 x = whole ++ "." ++ String c1 (String c2 "")
    /\ is_digit c1 /\ is_digit c2.
Proof.
  assert (H : 0 <= Z.abs x mod 100 < 100) by (apply Z.mod_pos_bound; lia).
  apply padStart0_two_digits in H. unfold toFixed2.
  destruct (padStart0 2 (Z.abs x mod 100)) as [|c1 [|c2 [|? ?]]]; try discriminate.
  simpl in H.
  destruct (digit_of c1) as [d1|] eqn:E1; [|discriminate].
  destruct (digit_of c2) as [d2|] eqn:E2; [|discriminate].
  exists ((if x <? 0 then "-" else "") ++ digits (Z.abs x / 100)), c1, c2.
  split; [now rewrite append_assoc|].
  split; [now exists d1 | now exists d2].
Qed.

Lemma or_else_text_field v : or_else v "N/A" = text_field v.
Proof. reflexivity. Qed.

Lemma ai_row_fields t :
  ai_row t =
  row_with (fun a => match a with Some x => toFixed2 x | None => "0.00" end) t.
Proof.
  unfold ai_row, row_with, join. rewrite !or_else_text_field.
  destruct (total_amount t) as [x|]; simpl option_map; [|reflexivity].
  rewrite or_else_present by apply toFixed2_nonempty. reflexivity.
Qed.

Lemma fold_left_lines row ts acc :
  fold_left (fun formattedString t => formattedString ++ row t ++ newline) ts acc
  = acc ++ lines row ts.
Proof.
  revert acc. induction ts as [|t ts IH]; intros acc; simpl.
  - induction acc as [|c acc IHa]; simpl; [reflexivity | now rewrite <- IHa].
  - rewrite IH, !append_assoc. reflexivity.
Qed.

Lemma lines_ext (f g : SavedReceiptData -> string) ts :
  (forall t, f t = g t) -> lines f ts = lines g ts.
Proof. intros H. induction ts as [|t ts IH]; simpl; [reflexivity | now rewrite H, IH]. Qed.

(** C4, as the code has it. For the empty list the serialization is the
    sentence "No transactions available."; for a non-empty list it is the
    fixed header followed by one row per record, in which an absent (or
    empty) text field reads "N/A", a present amount is printed with two
    decimals, and an absent amount reads "0.00". *)
Theorem formatTransactionsForAI_serialization ts :
  formatTransactionsForAI ts = serialization_as_written ts
  /\ (forall x, exists whole c1 c2,
        toFixed2 x = whole ++ "." ++ String c1 (String c2 "")
        /\ is_digit c1 /\ is_digit c2).
Proof.
  split; [|exact toFixed2_two_decimals].
  unfold formatTransactionsForAI, serialization_as_written.
  destruct ts as [|t ts]; [reflexivity|].
  cbn [List.length Nat.eqb]. rewrite fold_left_lines.
  f_equal. apply lines_ext, ai_row_fields.
Qed.

(** C4 as stated fails: a record without an amount is serialized with
    "0.00" in the amount column, not "N/A"; and the empty list gives no
    header at all. *)
Lemma absent_amount_is_serialized_as_zero :
  formatTransactionsForAI [blank_record]
    = ai_header ++ "N/A,N/A,0.00,N/A,N/A,N/A" ++ newline
  /\ serialization_as_specified [blank_record]
    = ai_header ++ "N/A,N/A,N/A,N/A,N/A,N/A" ++ newline
  /\ formatTransactionsForAI [blank_record] <> serialization_as_specified [blank_record]
  /\ formatTransactionsForAI [] <> serialization_as_specified [].
Proof.
  repeat split; try reflexivity; vm_compute; discriminate.
Qed.

(** ** The weekly window *)

Section Week.
Context {host : Host}.

Lemma MonthFromTime_range t : 0 <= ES.MonthFromTime t <= 11.
Proof.
  unfold ES.MonthFromTime.
  repeat match goal with
         | |- context [if ?b then _ else _] => destruct b
         end; lia.
Qed.

(** Within the month of [t], day-of-month [DateFromTime t + k] is day
    [Day t + k]. *)
Lemma MakeDay_same_month t k :
  ES.MakeDay (ES.YearFromTime t) (ES.MonthFromTime t) (ES.DateFromTime t + k)
  = ES.Day t + k.
Proof.
  pose proof (MonthFromTime_range t) as Hm.
  unfold ES.MakeDay.
  rewrite (Z.div_small (ES.MonthFromTime t) 12) by lia.
  rewrite (Z.mod_small (ES.MonthFromTime t) 12) by lia.
  rewrite Z.add_0_r.
  unfold ES.DateFromTime, ES.DayWithinYear, ES.InLeapYear. lia.
Qed.

Lemma setDate_shift d k : setDate d (getDate d + k) = d + k * ES.msPerDay.
Proof.
  unfold setDate, getDate. rewrite MakeDay_same_month.
  unfold UTC, LocalTime, ES.MakeDate, ES.Day, ES.TimeWithinDay, ES.msPerDay.
  Z.to_euclidean_division_equations; lia.
Qed.

Lemma Day_shift t k : ES.Day (t + k * ES.msPerDay) = ES.Day t + k.
Proof. unfold ES.Day. apply Z.div_add. unfold ES.msPerDay. lia. Qed.

Lemma getWeekRange_closed now :
  getWeekRange now =
  (UTC (week_monday now * ES.msPerDay),
   UTC (week_monday now * ES.msPerDay + 7 * ES.msPerDay - 1)).
Proof.
  unfold getWeekRange.
  set (w := getDay now).
  replace (getDate now - w + (if w =? 0 then -6 else 1))
    with (getDate now + ((if w =? 0 then -6 else 1) - w)) by lia.
  rewrite setDate_shift.
  set (k := (if w =? 0 then -6 else 1) - w).
  assert (Hs : setHours (now + k * ES.msPerDay) 0 0 0 0
               = UTC (week_monday now * ES.msPerDay)).
  { unfold setHours, LocalTime.
    replace (now + k * ES.msPerDay + LocalTZA)
      with (now + LocalTZA + k * ES.msPerDay) by lia.
    rewrite Day_shift. unfold ES.MakeDate, ES.MakeTime, week_monday, LocalTime.
    f_equal. subst k w. unfold getDay, LocalTime, ES.WeekDay.
    generalize (ES.Day (now + LocalTZA)). intros D. unfold ES.msPerDay.
    destruct ((D + 4) mod 7 =? 0) eqn:E;
      rewrite ?Z.eqb_eq, ?Z.eqb_neq in E;
      Z.to_euclidean_division_equations; lia. }
  rewrite Hs. rewrite setDate_shift. f_equal.
  unfold setHours, LocalTime, UTC.
  replace (week_monday now * ES.msPerDay - LocalTZA + 6 * ES.msPerDay + LocalTZA)
    with (0 + (week_monday now + 6) * ES.msPerDay) by lia.
  rewrite Day_shift. unfold ES.Day, ES.MakeDate, ES.MakeTime, ES.msPerDay.
  rewrite Z.div_0_l by lia. lia.
Qed.

Lemma Day_of_midnight n : ES.Day (n * ES.msPerDay) = n.
Proof. unfold ES.Day. apply Z.div_mul. unfold ES.msPerDay. lia. Qed.

Lemma Weekly_kept now receipts r :
  In r (filtered Weekly now receipts) <->
  In r receipts /\ exists t, dateTime r = Some t
                             /\ fst (getWeekRange now) <= t <= snd (getWeekRange now).
Proof.
  unfold filtered. destruct (getWeekRange now) as [ws we]. cbn [fst snd].
  rewrite filter_In, andb_true_iff. unfold date_ge, date_le.
  destruct (dateTime r) as [t|].
  - rewrite !Z.leb_le. split.
    + intros [H1 H2]. split; [exact H1|]. now exists t.
    + intros [H1 [t' [E H2]]]. injection E as <-. tauto.
  - split; [intros [_ [H _]]; discriminate | intros [_ [t [E _]]]; discriminate].
Qed.

(** C7. For every [now], the window of [getWeekRange] starts at local
    midnight of the Monday at or before [now] (less than seven days back)
    and ends at the last millisecond of the Sunday six days later; when
    [now] is a Sunday the start is the Monday six days before. The Weekly
    filter keeps exactly the records whose date, as an instant, lies in the
    window, both ends included; where local time is UTC or ahead of it by
    less than a day, a record dated (at UTC midnight) day [n] is kept exactly
    when [n] is one of the seven days from that Monday to that Sunday. *)
Theorem week_runs_from_monday_to_sunday now receipts :
  let start := fst (getWeekRange now) in
  let end_ := snd (getWeekRange now) in
  (ES.WeekDay (LocalTime start) = 1
   /\ ES.TimeWithinDay (LocalTime start) = 0
   /\ start <= now < start + 7 * ES.msPerDay
   /\ ES.Day (LocalTime start) = week_monday now)
  /\
  (ES.WeekDay (LocalTime end_) = 0
   /\ ES.TimeWithinDay (LocalTime end_) = ES.msPerDay - 1
   /\ ES.Day (LocalTime end_) = ES.Day (LocalTime start) + 6
   /\ end_ = start + 7 * ES.msPerDay - 1)
  /\
  (getDay now = 0 -> ES.Day (LocalTime start) = ES.Day (LocalTime now) - 6)
  /\
  (forall r, In r (filtered Weekly now receipts) <->
             In r receipts /\ exists t, dateTime r = Some t /\ start <= t <= end_)
  /\
  (0 <= LocalTZA < ES.msPerDay ->
   forall r n, dateTime r = Some (ES.MakeDate n 0) ->
     (In r (filtered Weekly now receipts) <->
      In r receipts /\ week_monday now <= n <= week_monday now + 6)).
Proof.
  cbv zeta.
  assert (Hk : forall r, In r (filtered Weekly now receipts) <->
     In r receipts /\ exists t, dateTime r = Some t
        /\ fst (getWeekRange now) <= t <= snd (getWeekRange now))
    by (intros r; apply Weekly_kept).
  rewrite getWeekRange_closed in *. cbn [fst snd] in *.
  unfold week_monday, getDay, UTC, LocalTime in *.
  set (L := now + LocalTZA) in *.
  assert (HL : now = L - LocalTZA) by (subst L; lia).
  set (M := ES.Day L - (ES.WeekDay L + 6) mod 7) in *.
  replace (M * ES.msPerDay - LocalTZA + LocalTZA) with (M * ES.msPerDay) by lia.
  replace (M * ES.msPerDay + 7 * ES.msPerDay - 1 - LocalTZA + LocalTZA)
    with (ES.msPerDay - 1 + (M + 6) * ES.msPerDay) by lia.
  assert (HM : ES.Day L - 6 <= M <= ES.Day L /\ (M + 4) mod 7 = 1
               /\ (ES.WeekDay L = 0 -> M = ES.Day L - 6)).
  { subst M. unfold ES.WeekDay. generalize (ES.Day L). intros D.
    Z.to_euclidean_division_equations; lia. }
  assert (HD : ES.Day L * ES.msPerDay <= L < ES.Day L * ES.msPerDay + ES.msPerDay).
  { unfold ES.Day, ES.msPerDay. Z.to_euclidean_division_equations; lia. }
  clearbody M. destruct HM as [HM1 [HM2 HM3]].
  split; [|split; [|split; [|split]]].
  - unfold ES.WeekDay, ES.TimeWithinDay. rewrite Day_of_midnight.
    split; [exact HM2|]. split; [apply Z.mod_mul; discriminate|].
    split; [|reflexivity]. unfold ES.msPerDay in *. lia.
  - unfold ES.WeekDay, ES.TimeWithinDay.
    assert (E : ES.Day (ES.msPerDay - 1 + (M + 6) * ES.msPerDay) = M + 6).
    { unfold ES.Day. rewrite Z.div_add by discriminate.
      rewrite Z.div_small by (unfold ES.msPerDay; lia). lia. }
    rewrite E, Day_of_midnight.
    split; [Z.to_euclidean_division_equations; lia|].
    split; [|split; [reflexivity | unfold ES.msPerDay; lia]].
    rewrite Z.mod_add by discriminate. apply Z.mod_small.
    unfold ES.msPerDay. lia.
  - rewrite Day_of_midnight. exact HM3.
  - exact Hk.
  - intros Htz r n Hr. rewrite Hk, Hr. unfold ES.MakeDate, ES.msPerDay in *.
    split.
    + intros [H1 [t [E H2]]]. injection E as <-. split; [exact H1 | lia].
    + intros [H1 H2]. split; [exact H1|]. eexists. split; [reflexivity | lia].
Qed.

End Week.

(** ** The year check of the image path *)

Lemma digit_of_range c d : digit_of c = Some d -> 0 <= d <= 9.
Proof.
  unfold digit_of.
  destruct (_ && _) eqn:E; [|discriminate].
  apply andb_true_iff in E. destruct E as [E1 E2].
  apply Z.leb_le in E1, E2. intros H. injection H as <-. lia.
Qed.

Lemma MakeDay_within_year y m d :
  0 <= m <= 11 -> 1 <= d <= DaysInMonth (if ES.isLeap y then 1 else 0) m ->
  ES.DayFromYear y <= ES.MakeDay y m d < ES.DayFromYear (y + 1).
Proof.
  intros Hm Hd. rewrite DayFromYear_step. unfold ES.MakeDay, ES.DaysInYear.
  rewrite (Z.div_small m 12), (Z.mod_small m 12), Z.add_0_r by lia.
  destruct (ES.isLeap y);
    assert (C : m = 0 \/ m = 1 \/ m = 2 \/ m = 3 \/ m = 4 \/ m = 5 \/ m = 6
                \/ m = 7 \/ m = 8 \/ m = 9 \/ m = 10 \/ m = 11) by lia;
    repeat (destruct C as [-> | C]; [simpl in *; lia|]); subst m; simpl in *; lia.
Qed.

(** Where local time is UTC or ahead of it by less than a day, the local
    year of a parsed [YYYY-MM-DD] date is the year written in the string. *)
Lemma iso_date_local_year s t tz :
  iso_date_parse s = Some t -> 0 <= tz < ES.msPerDay ->
  iso_year s = Some (ES.YearFromTime (t + tz)).
Proof.
  unfold iso_date_parse, iso_year. intros H Htz.
  destruct (list_ascii_of_string s)
    as [|y1 [|y2 [|y3 [|y4 [|h1 [|m1 [|m2 [|h2 [|d1 [|d2 [|? ?]]]]]]]]]]];
    try discriminate.
  destruct (digit_of y1) as [p|] eqn:Ep; [|discriminate].
  destruct (digit_of y2) as [q|] eqn:Eq; [|discriminate].
  destruct (digit_of y3) as [r|] eqn:Er; [|discriminate].
  destruct (digit_of y4) as [u|] eqn:Eu; [|discriminate].
  destruct (digit_of m1) as [v|] eqn:Ev; [|discriminate].
  destruct (digit_of m2) as [w|] eqn:Ew; [|discriminate].
  destruct (digit_of d1) as [x|] eqn:Ex; [|discriminate].
  destruct (digit_of d2) as [z|] eqn:Ez; [|discriminate].
  cbv zeta in H.
  set (y := 1000 * p + 100 * q + 10 * r + u) in *.
  set (m := 10 * v + w) in *. set (d := 10 * x + z) in *.
  destruct (_ && _) eqn:C in H; [|discriminate].
  injection H as <-.
  repeat (apply andb_true_iff in C; destruct C as [C ?]).
  repeat match goal with H : (_ <=? _) = true |- _ => apply Z.leb_le in H end.
  f_equal. symmetry. unfold ES.YearFromTime. apply YearFromDay_unique.
  assert (E : ES.Day (ES.MakeDate (ES.MakeDay y (m - 1) d) 0 + tz)
              = ES.MakeDay y (m - 1) d).
  { unfold ES.MakeDate, ES.Day. rewrite Z.add_0_r, Z.add_comm.
    rewrite Z.div_add by discriminate. rewrite Z.div_small by lia. lia. }
  rewrite E. apply MakeDay_within_year; lia.
Qed.

Section Image.
Context {host : Host}.

(** C8. When the extracted record carries a date whose year, read as the
    handler reads it (the local year of the parsed date, NaN when the date
    cannot be parsed), is not the current year, the handler sets an error
    message that names that year (and the current one), shows no record for
    review, and leaves the saved list as it was. For a [YYYY-MM-DD] date,
    where local time is UTC or ahead of it by less than a day, the year
    read is the year written in the date. *)
Theorem receipt_from_another_year_is_rejected now data st s :
  transaction_date data = Some s -> s <> "" ->
  let year := option_map getFullYear (Date_parse s) in
  let st' := handleImageSelect now (Some data) st in
  (year <> Some (getFullYear now) ->
   error st' =
     Some ("This receipt is from " ++ Number_toString year
           ++ ". Only transactions for the current year ("
           ++ Number_toString (Some (getFullYear now)) ++ ") are allowed.")
   /\ receiptData st' = None
   /\ savedReceipts st' = savedReceipts st
   /\ isLoading st' = false)
  /\
  (0 <= LocalTZA < ES.msPerDay ->
   Date_parse s = iso_date_parse s -> Date_parse s <> None ->
   year = iso_year s).
Proof.
  intros Hs Hne. cbv zeta. split.
  - intros Hy. unfold handleImageSelect.
    rewrite Hs. cbn [Date_of_value].
    assert (T : truthy (Some s) = true)
      by (apply truthy_true_iff; now exists s).
    rewrite T.
    destruct (Date_parse s) as [t|]; cbn [option_map] in *.
    + destruct (getFullYear t =? getFullYear now) eqn:E.
      * apply Z.eqb_eq in E. congruence.
      * cbn. repeat split.
    + cbn. repeat split.
  - intros Htz Hiso Hp. destruct (Date_parse s) as [t|] eqn:Et; [|congruence].
    cbn [option_map]. unfold getFullYear, LocalTime.
    symmetry. apply iso_date_local_year; [congruence | exact Htz].
Qed.

End Image.

(** ** Category totals *)

Lemma first_seen_snoc ks k :
  first_seen (ks ++ [k]) =
  if mem_string k (first_seen ks) then first_seen ks else (first_seen ks ++ [k])%list.
Proof. unfold first_seen. now rewrite fold_left_app. Qed.

Lemma first_seen_In ks k : In k (first_seen ks) <-> In k ks.
Proof.
  induction ks as [|x ks IH] using rev_ind; [reflexivity|].
  rewrite first_seen_snoc, in_app_iff. simpl.
  destruct (mem_string x (first_seen ks)) eqn:E.
  - apply mem_string_In in E. rewrite IH in *. intuition (subst; auto).
  - rewrite in_app_iff, IH. simpl. tauto.
Qed.

Lemma first_seen_NoDup ks : NoDup (first_seen ks).
Proof.
  induction ks as [|x ks IH] using rev_ind; [constructor|].
  rewrite first_seen_snoc.
  destruct (mem_string x (first_seen ks)) eqn:E; [exact IH|].
  apply NoDup_app; [exact IH | repeat constructor; simpl; tauto |].
  intros a Ha [<- | []].
  apply mem_string_In in Ha. congruence.
Qed.

Lemma total_of_snoc rs r :
  total_of (rs ++ [r]) =
  total_of rs + match total_amount r with Some a => a | None => 0 end.
Proof. unfold total_of. now rewrite fold_left_app. Qed.

Lemma or_zero_value x :
  or_zero x = match x with Some a => a | None => 0 end.
Proof.
  destruct x as [a|]; simpl; [|reflexivity].
  destruct (a =? 0) eqn:E; [apply Z.eqb_eq in E; now subst | reflexivity].
Qed.

Lemma of_category_snoc k rs r :
  of_category k (rs ++ [r]) =
  (of_category k rs ++
   (if (category_key r =? k)%string then [receipt r] else []))%list.
Proof.
  unfold of_category. rewrite filter_app, map_app. simpl.
  now destruct (category_key r =? k)%string.
Qed.

Lemma of_category_unseen k rs :
  ~ In k (map category_key rs) -> of_category k rs = [].
Proof.
  unfold of_category. induction rs as [|r rs IH]; simpl; intros H; [reflexivity|].
  destruct (category_key r =? k)%string eqn:E.
  - apply String.eqb_eq in E. tauto.
  - apply IH. tauto.
Qed.

Lemma obj_get_tabulated (g : string -> amount) K k :
  obj_get (map (fun k' => (k', g k')) K) k =
  if mem_string k K then Some (g k) else None.
Proof.
  induction K as [|x K IH]; simpl; [reflexivity|].
  rewrite (String.eqb_sym k x).
  destruct (x =? k)%string eqn:E; simpl; [|exact IH].
  apply String.eqb_eq in E. now subst.
Qed.

Lemma obj_set_fresh (g : string -> amount) K k v :
  ~ In k K ->
  obj_set (map (fun k' => (k', g k')) K) k v =
  (map (fun k' => (k', g k')) K ++ [(k, v)])%list.
Proof.
  induction K as [|x K IH]; simpl; intros H; [reflexivity|].
  destruct (x =? k)%string eqn:E.
  - apply String.eqb_eq in E. tauto.
  - f_equal. apply IH. tauto.
Qed.

Lemma obj_set_present (g : string -> amount) K k v :
  NoDup K -> In k K ->
  obj_set (map (fun k' => (k', g k')) K) k v =
  map (fun k' => (k', if (k' =? k)%string then v else g k')) K.
Proof.
  induction K as [|x K IH]; simpl; intros HN H; [contradiction|].
  inversion HN as [|? ? Hx HK]; subst.
  destruct (x =? k)%string eqn:E.
  - apply String.eqb_eq in E. subst x. f_equal.
    apply map_ext_in. intros a Ha.
    destruct (a =? k)%string eqn:Ea; [|reflexivity].
    apply String.eqb_eq in Ea. subst. contradiction.
  - f_equal. apply IH; [exact HK|].
    destruct H as [H|H]; [|exact H]. apply String.eqb_neq in E. contradiction.
Qed.

(** The object built by the reducer holds, in creation order, the totals by
    category in order of first occurrence. *)
Lemma summary_object rs :
  fold_left summary_step rs [] = totals_by_category rs.
Proof.
  induction rs as [|r rs IH] using rev_ind; [reflexivity|].
  rewrite fold_left_app. cbn [fold_left]. rewrite IH.
  unfold totals_by_category at 2. rewrite map_app. cbn [map].
  rewrite first_seen_snoc.
  unfold summary_step, totals_by_category.
  set (c := category_key r). set (K := first_seen (map category_key rs)).
  rewrite obj_get_tabulated, !or_zero_value.
  destruct (mem_string c K) eqn:E.
  - apply mem_string_In in E.
    rewrite obj_set_present by (auto; apply first_seen_NoDup).
    apply map_ext. intros k. f_equal.
    rewrite of_category_snoc. fold c.
    destruct (k =? c)%string eqn:Ek.
    + apply String.eqb_eq in Ek. subst k. rewrite String.eqb_refl.
      now rewrite total_of_snoc.
    + rewrite String.eqb_sym, Ek. now rewrite app_nil_r.
  - assert (Hc : ~ In c K) by (rewrite <- mem_string_In; congruence).
    rewrite obj_set_fresh by exact Hc.
    rewrite map_app. cbn [map]. f_equal.
    + apply map_ext_in. intros k Hk. f_equal.
      rewrite of_category_snoc. fold c.
      destruct (c =? k)%string eqn:Ek; [|now rewrite app_nil_r].
      apply String.eqb_eq in Ek. subst k. contradiction.
    + do 2 f_equal. rewrite of_category_snoc. fold c.
      rewrite String.eqb_refl, of_category_unseen.
      * reflexivity.
      * subst K. now rewrite first_seen_In in Hc.
Qed.

Lemma Object_entries_ordinary (o : JSObject) :
  (forall e, In e o -> is_array_index (fst e) = false) -> Object_entries o = o.
Proof.
  intros H. unfold Object_entries.
  rewrite filter_none by exact H. simpl.
  apply filter_all. intros e He. now rewrite (H e He).
Qed.

Lemma totals_by_category_keys rs :
  map fst (totals_by_category rs) = first_seen (map category_key rs).
Proof.
  unfold totals_by_category. rewrite map_map. simpl. apply map_id.
Qed.

Lemma summaryArray_ordinary rs :
  Forall (fun r => ordinary_key (category_key r)) rs ->
  summaryArray rs = totals_by_category rs.
Proof.
  intros HF. unfold summaryArray. rewrite summary_object.
  apply Object_entries_ordinary. intros e He.
  apply (in_map fst) in He. rewrite totals_by_category_keys in He.
  apply first_seen_In, in_map_iff in He. destruct He as [r [<- Hr]].
  rewrite Forall_forall in HF. apply (HF r Hr).
Qed.

Lemma mem_string_filter k (p : string -> bool) K :
  mem_string k (filter p K) = mem_string k K && p k.
Proof.
  unfold mem_string. induction K as [|x K IH]; simpl; [reflexivity|].
  destruct (p x) eqn:Px; simpl; rewrite IH.
  - destruct (k =? x)%string eqn:E; simpl; [|reflexivity].
    apply String.eqb_eq in E. subst. now rewrite Px.
  - destruct (k =? x)%string eqn:E; simpl; [|reflexivity].
    apply String.eqb_eq in E. subst. rewrite Px. now rewrite andb_false_r.
Qed.

Lemma first_seen_from acc ks :
  fold_left (fun acc k => if mem_string k acc then acc else (acc ++ [k])%list) ks acc
  = (acc ++ filter (fun k => negb (mem_string k acc)) (first_seen ks))%list.
Proof.
  induction ks as [|k ks IH] using rev_ind.
  - simpl. now rewrite app_nil_r.
  - rewrite fold_left_app. cbn [fold_left]. rewrite IH, first_seen_snoc.
    unfold mem_string at 1. rewrite existsb_app. fold (mem_string k acc).
    fold (mem_string k (filter (fun k0 => negb (mem_string k0 acc)) (first_seen ks))).
    rewrite mem_string_filter.
    destruct (mem_string k acc) eqn:Ea; destruct (mem_string k (first_seen ks)) eqn:Ek;
      cbn [orb andb negb]; try reflexivity.
    + rewrite filter_app. cbn [filter]. rewrite Ea. cbn [negb].
      now rewrite app_nil_r.
    + rewrite filter_app. cbn [filter]. rewrite Ea. cbn [negb].
      now rewrite app_assoc.
Qed.

(** [first_seen] lists each key once, at the place of its first occurrence. *)
Lemma first_seen_cons k ks :
  first_seen (k :: ks) = k :: filter (fun x => negb (x =? k)%string) (first_seen ks).
Proof.
  unfold first_seen at 1. cbn [fold_left mem_string existsb].
  rewrite first_seen_from. cbn [app]. f_equal.
  apply filter_ext. intros x. unfold mem_string. cbn [existsb].
  now rewrite orb_false_r.
Qed.

(** The category names of the application are ordinary property keys. *)
Lemma categories_are_ordinary_keys :
  Forall ordinary_key ("Uncategorized" :: categories).
Proof. repeat constructor. Qed.

Lemma category_key_ordinary (r : SavedReceiptData) :
  (forall c, category r = Some c -> c = "" \/ In c categories) ->
  ordinary_key (category_key r).
Proof.
  intros H. pose proof categories_are_ordinary_keys as HF.
  rewrite Forall_forall in HF. apply HF. unfold category_key.
  destruct (category r) as [c|] eqn:E; simpl; [|now left].
  destruct (H c eq_refl) as [-> | Hc]; [now left|].
  destruct (c =? "")%string eqn:Ec; [now left | now right].
Qed.

(** Keys that look like array indices are listed first, in numeric order,
    whatever the order in which they were met. *)
Example index_like_keys_come_first :
  summaryArray
    (map (fun c => mkSavedReceiptData (scenario_record "Misc" 1 "2024-06-10" c) 1)
         ["b"; "2"; "a"; "1"; "b"])
  = [("1", pesos 1); ("2", pesos 1); ("b", pesos 2); ("a", pesos 1)].
Proof. reflexivity. Qed.

Section Summaries.
Context {host : Host}.

Lemma byDateDesc_parsed a b ta tb :
  dateTime a = Some ta -> dateTime b = Some tb -> byDateDesc a b = tb - ta.
Proof. intros Ha Hb. unfold byDateDesc. now rewrite Ha, Hb. Qed.

Lemma filteredData_not_All f now receipts :
  f <> All -> filteredData f now receipts = Summary (summaryArray (filtered f now receipts)).
Proof. destruct f; intros H; try reflexivity. contradiction. Qed.

Lemma scenario_summary now c1 c2 c3 d1 d2 d3 t1 t2 t3 :
  d1 <> "" -> d2 <> "" -> d3 <> "" ->
  Date_parse d1 = Some t1 -> Date_parse d2 = Some t2 -> Date_parse d3 = Some t3 ->
  Date_of_fields (getFullYear now) (getMonth now) 1 <= t1 ->
  Date_of_fields (getFullYear now) (getMonth now) 1 <= t2 ->
  Date_of_fields (getFullYear now) (getMonth now) 1 <= t3 ->
  filteredData Monthly now (scenario_store d1 d2 d3 c1 c2 c3) =
  Summary (if (t1 <=? t3) && (t2 <=? t3)
           then [("Food & Drink", pesos 200); ("Transportation", pesos 150)]
           else [("Transportation", pesos 150); ("Food & Drink", pesos 200)]).
Proof.
  intros N1 N2 N3 P1 P2 P3 M1 M2 M3.
  unfold scenario_store. cbv zeta.
  rewrite !save_accepted; unfold scenario_record;
    cbn [transaction_name total_amount transaction_date category];
    try (unfold absent; intros [?|?]; congruence); try congruence.
  unfold setReceiptData, setSavedReceipts, initialState. cbn [savedReceipts].
  unfold filteredData, filtered.
  set (ms := Date_of_fields _ _ _) in *. clearbody ms.
  repeat (cbn [Array_sort sort_insert];
          match goal with
          | |- context [byDateDesc ?a ?b <=? 0] =>
              erewrite (byDateDesc_parsed a b) by (cbn; eassumption);
              match goal with
              | |- context [?x - ?y <=? 0] => destruct (Z.leb_spec (x - y) 0)
              end
          end).
  all: cbn [filter dateTime receipt transaction_date Date_of_value];
       rewrite ?P1, ?P2, ?P3; cbn [date_ge].
  all: repeat match goal with
         | |- context [?m <=? ?t] =>
             replace (m <=? t) with true by (symmetry; apply Z.leb_le; lia)
         end.
  all: destruct (Z.leb_spec t1 t3); destruct (Z.leb_spec t2 t3); try lia; reflexivity.
Qed.

(** C3, as the code has it. Under every filter but All, the output is one
    (category, total) pair per distinct category key of the filtered
    records (an absent category filed under 'Uncategorized'), the total
    being the sum of the amounts under that key with an absent amount
    counting for zero, the pairs in the order in which the keys first occur
    in the filtered list - the category names being ordinary property keys,
    as those of the application are. In the scenario of the three saved
    records, Monthly yields the pair (Transportation, 150) and the pair
    (Food & Drink, 200); as the store is kept latest date first, and latest
    save first among equal dates, Food & Drink comes first unless a
    Transportation record carries a later date. *)
Theorem summary_is_totals_by_category :
  (forall f now receipts,
     f <> All ->
     Forall (fun r => ordinary_key (category_key r)) (filtered f now receipts) ->
     let kept := filtered f now receipts in
     filteredData f now receipts = Summary (totals_by_category kept)
     /\ map fst (totals_by_category kept) = first_seen (map category_key kept)
     /\ NoDup (map fst (totals_by_category kept))
     /\ (forall k, In k (map fst (totals_by_category kept)) <->
                   exists r, In r kept /\ category_key r = k)
     /\ (forall k v, In (k, v) (totals_by_category kept) ->
                     v = total_of (of_category k kept)))
  /\
  (forall now c1 c2 c3 d1 d2 d3 t1 t2 t3,
     d1 <> "" -> d2 <> "" -> d3 <> "" ->
     Date_parse d1 = Some t1 -> Date_parse d2 = Some t2 -> Date_parse d3 = Some t3 ->
     Date_of_fields (getFullYear now) (getMonth now) 1 <= t1 ->
     Date_of_fields (getFullYear now) (getMonth now) 1 <= t2 ->
     Date_of_fields (getFullYear now) (getMonth now) 1 <= t3 ->
     filteredData Monthly now (scenario_store d1 d2 d3 c1 c2 c3) =
     Summary (if (t1 <=? t3) && (t2 <=? t3)
              then [("Food & Drink", pesos 200); ("Transportation", pesos 150)]
              else [("Transportation", pesos 150); ("Food & Drink", pesos 200)])).
Proof.
  split; [|exact scenario_summary].
  intros f now receipts Hf Hk. cbv zeta.
  rewrite (filteredData_not_All f now receipts Hf), (summaryArray_ordinary _ Hk).
  rewrite totals_by_category_keys.
  split; [reflexivity|]. split; [reflexivity|].
  split; [apply first_seen_NoDup|]. split.
  - intros k. rewrite first_seen_In, in_map_iff.
    split; intros [r [H1 H2]]; exists r; tauto.
  - intros k v H. unfold totals_by_category in H. apply in_map_iff in H.
    destruct H as [k' [E _]]. now injection E as <- <-.
Qed.

End Summaries.

(** C3 as stated fails: three records of the same day saved in the order
    Transportation 50, Transportation 100, Food & Drink 200 are stored
    latest save first, and Monthly lists Food & Drink before Transportation. *)
Lemma same_day_scenario_lists_food_first :
  map id same_day_store = [1718400000003; 1718400000002; 1718400000001]
  /\ filteredData (host := manila) Monthly saturday_morning same_day_store
     = Summary [("Food & Drink", pesos 200); ("Transportation", pesos 150)]
  /\ filteredData (host := manila) Monthly saturday_morning same_day_store
     <> Summary [("Transportation", pesos 150); ("Food & Drink", pesos 200)].
Proof.
  split; [vm_compute; reflexivity|].
  split; [vm_compute; reflexivity|]. vm_compute. discriminate.
Qed.

(** * The properties on sample inputs *)

Example reading_the_samples :
  toISOString saturday_morning = "2024-06-15T00:00:00.000Z"
  /\ today_of saturday_morning = "2024-06-15"
  /\ iso_date_parse "2024-06-15" = Some saturday_morning
  /\ iso_date_parse "2023-02-29" = None
  /\ iso_date_parse "next week" = None
  /\ getDay (host := manila) saturday_morning = 6
  /\ toFixed2 12345 = "123.45" /\ toFixed2 5 = "0.05" /\ toFixed2 (pesos 50) = "50.00"
  /\ map id june_store = [11; 13; 12].
Proof. repeat split. Qed.

(** On a Wednesday in Manila the week runs from Monday 00:00 to Sunday
    23:59:59.999, local time (16:00 UTC of the day before). *)
Example wednesday_week :
  let wednesday_noon := 1718164800000 in
  getDay (host := manila) wednesday_noon = 3
  /\ toISOString (fst (getWeekRange (host := manila) wednesday_noon))
     = "2024-06-09T16:00:00.000Z"
  /\ toISOString (snd (getWeekRange (host := manila) wednesday_noon))
     = "2024-06-16T15:59:59.999Z".
Proof. repeat split. Qed.

(** Behind UTC, the local year of a date string can be the year before the
    one written in it. *)
Example new_year_behind_utc :
  option_map (getFullYear (host := new_york)) (iso_date_parse "2025-01-01") = Some 2024
  /\ iso_year "2025-01-01" = Some 2025.
Proof. split; reflexivity. Qed.

(** A manual entry without category is refused and leaves the store empty;
    the complete entry is stored. *)
Lemma save_needs_the_four_fields_witness :
  (category parking_without_category = None
   /\ error (handleSaveReceipt saturday_morning parking_without_category initialState)
      = Some "Cannot save incomplete receipt data."
   /\ savedReceipts (handleSaveReceipt saturday_morning parking_without_category
                                       initialState) = [])
  /\ In {| receipt := parking; id := saturday_morning |}
        (savedReceipts (handleSaveReceipt saturday_morning parking initialState)).
Proof.
  split.
  - split; [reflexivity|].
    destruct (save_needs_the_four_fields saturday_morning parking_without_category
                                         initialState) as [R _].
    destruct R as (E & S & _).
    + right; right; right; left; reflexivity.
    + split; [exact E | exact S].
  - destruct (save_needs_the_four_fields saturday_morning parking initialState)
      as [_ A].
    destruct A as (_ & I & _); try (intros [H|H]; discriminate H).
    + discriminate.
    + exact I.
Defined.

(** Saves and a deletion from the empty store keep it date-descending. *)
Lemma saved_list_stays_date_descending_witness :
  date_descending (host := manila) []
  /\ readable_date (host := manila) parking
  /\ date_descending
       (savedReceipts (handleSaveReceipt saturday_morning parking initialState))
  /\ date_descending
       (savedReceipts
          (fold_left perform
             [Save 11 parking; Save 12 free_parking; Delete 11; Save 13 last_year_receipt]
             initialState)).
Proof.
  assert (E : date_descending (host := manila) [])
    by (split; constructor).
  assert (R : forall name p date cat,
             iso_date_parse date <> None ->
             readable_date (host := manila) (scenario_record name p date cat)).
  { intros name p date cat H s Hs. injection Hs as <-. exact H. }
  assert (R0 : readable_date (host := manila) free_parking).
  { intros s Hs. injection Hs as <-. vm_compute. discriminate. }
  destruct (saved_list_stays_date_descending (host := manila)) as (S & _ & N).
  split; [exact E|].
  split; [apply R; vm_compute; discriminate|].
  split.
  - apply (S saturday_morning parking initialState E).
    apply R. vm_compute. discriminate.
  - apply (N _ initialState E).
    repeat constructor; try exact R0; apply R; vm_compute; discriminate.
Defined.

(** The Monthly summary of the three records, for two choices of dates. *)
Lemma summary_is_totals_by_category_witness :
  Forall (fun r => ordinary_key (category_key r))
         (filtered Monthly saturday_morning june_store)
  /\ filteredData Monthly saturday_morning june_store
     = Summary [("Transportation", pesos 150); ("Food & Drink", pesos 200)]
  /\ filteredData Monthly saturday_morning
       (scenario_store "2024-06-10" "2024-06-10" "2024-06-10" 11 12 13)
     = Summary [("Food & Drink", pesos 200); ("Transportation", pesos 150)].
Proof.
  assert (K : Forall (fun r => ordinary_key (category_key r))
                     (filtered Monthly saturday_morning june_store)).
  { assert (E : filtered Monthly saturday_morning june_store = june_store)
      by (vm_compute; reflexivity).
    rewrite E. unfold june_store.
    assert (P : Permutation
                  [mkSavedReceiptData (scenario_record "Lunch" 200 "2024-06-10" "Food & Drink") 13;
                   mkSavedReceiptData (scenario_record "Toll" 100 "2024-06-09" "Transportation") 12;
                   mkSavedReceiptData (scenario_record "Parking" 50 "2024-06-12" "Transportation") 11]
                  (scenario_store "2024-06-12" "2024-06-09" "2024-06-10" 11 12 13)).
    { unfold scenario_store. cbv zeta.
      rewrite !save_accepted; unfold scenario_record;
        cbn [transaction_name total_amount transaction_date category];
        try (unfold absent; intros [?|?]; congruence); try congruence.
      unfold setReceiptData, setSavedReceipts, initialState. cbn [savedReceipts].
      rewrite <- Array_sort_perm. apply perm_skip.
      rewrite <- Array_sort_perm. apply perm_skip.
      apply Array_sort_perm. }
    eapply Permutation_Forall; [exact P|].
    repeat constructor. }
  destruct (summary_is_totals_by_category (host := manila)) as [G S].
  split; [exact K|]. split.
  - destruct (G Monthly saturday_morning june_store ltac:(discriminate) K) as [E _].
    rewrite E. vm_compute. reflexivity.
  - assert (M : Date_of_fields (getFullYear saturday_morning)
                               (getMonth saturday_morning) 1 <= 1717977600000)
      by (apply Z.leb_le; vm_compute; reflexivity).
    rewrite (S saturday_morning 11 12 13 "2024-06-10" "2024-06-10" "2024-06-10"
               1717977600000 1717977600000 1717977600000
               ltac:(discriminate) ltac:(discriminate) ltac:(discriminate)
               eq_refl eq_refl eq_refl M M M).
    reflexivity.
Defined.

(** 'Travel' is kept, 'Gifts' becomes 'Other'. *)
Lemma category_outside_the_list_becomes_Other_witness :
  (In "Travel" categories
   /\ category (analyzeReceipt (reply_without_date (Some "Travel"))) = Some "Travel"
   /\ category (analyzeTransactionFromVoice saturday_morning
                  (reply_without_date (Some "Travel"))) = Some "Travel")
  /\ (~ In "Gifts" categories
      /\ category (analyzeReceipt (reply_without_date (Some "Gifts"))) = Some "Other"
      /\ category (analyzeTransactionFromVoice saturday_morning
                     (reply_without_date (Some "Gifts"))) = Some "Other").
Proof.
  assert (T : In "Travel" categories) by (simpl; tauto).
  assert (G : ~ In "Gifts" categories) by (simpl; intuition discriminate).
  split.
  - split; [exact T|].
    apply (proj1 (category_outside_the_list_becomes_Other saturday_morning
                    (reply_without_date (Some "Travel"))) "Travel" eq_refl T).
  - split; [exact G|].
    apply (proj2 (category_outside_the_list_becomes_Other saturday_morning
                    (reply_without_date (Some "Gifts")))).
    right. exists "Gifts". split; [reflexivity | exact G].
Defined.

(** A reply without date, read on 2024-06-15. *)
Lemma missing_date_defaults_to_today_on_audio_only_witness :
  absent (transaction_date (reply_without_date None))
  /\ transaction_date (analyzeTransactionFromVoice saturday_morning
                         (reply_without_date None)) = Some "2024-06-15"
  /\ transaction_date (analyzeReceipt (reply_without_date None)) = None.
Proof.
  assert (A : absent (transaction_date (reply_without_date None)))
    by (left; reflexivity).
  split; [exact A|].
  exact (missing_date_defaults_to_today_on_audio_only saturday_morning
           (reply_without_date None) A).
Defined.

(** On Sunday 2024-06-16 the week began on Monday the 10th: the record of
    the 10th is kept, the one of the 9th is not. *)
Lemma week_runs_from_monday_to_sunday_witness :
  getDay (host := manila) sunday_morning = 0
  /\ ES.Day (LocalTime (fst (getWeekRange sunday_morning)))
     = ES.Day (LocalTime sunday_morning) - 6
  /\ (0 <= LocalTZA < ES.msPerDay)
  /\ In lunch_saved (filtered Weekly sunday_morning june_store)
  /\ ~ In toll_saved (filtered Weekly sunday_morning june_store).
Proof.
  assert (D : getDay (host := manila) sunday_morning = 0) by reflexivity.
  assert (Z : 0 <= LocalTZA (Host := manila) < ES.msPerDay)
    by (unfold ES.msPerDay; cbn; lia).
  destruct (week_runs_from_monday_to_sunday (host := manila) sunday_morning june_store)
    as (_ & _ & S & _ & W).
  split; [exact D|]. split; [exact (S D)|]. split; [exact Z|]. split.
  - apply (proj2 (W Z lunch_saved 19884 eq_refl)). split.
    + vm_compute. tauto.
    + split; apply Z.leb_le; vm_compute; reflexivity.
  - intros H. apply (proj1 (W Z toll_saved 19883 eq_refl)) in H.
    destruct H as [_ [H _]]. apply Z.leb_le in H. vm_compute in H. discriminate H.
Defined.

(** A receipt of 2023 analysed in 2024. *)
Lemma receipt_from_another_year_is_rejected_witness :
  option_map getFullYear (Date_parse "2023-06-10") <> Some (getFullYear saturday_morning)
  /\ error (handleImageSelect saturday_morning (Some last_year_receipt) initialState)
     = Some "This receipt is from 2023. Only transactions for the current year (2024) are allowed."
  /\ receiptData (handleImageSelect saturday_morning (Some last_year_receipt) initialState)
     = None
  /\ savedReceipts (handleImageSelect saturday_morning (Some last_year_receipt) initialState)
     = []
  /\ option_map getFullYear (Date_parse "2023-06-10") = iso_year "2023-06-10".
Proof.
  assert (Y : option_map (getFullYear (host := manila)) (Date_parse "2023-06-10")
              <> Some (getFullYear saturday_morning))
    by (vm_compute; discriminate).
  assert (Z : 0 <= LocalTZA (Host := manila) < ES.msPerDay)
    by (unfold ES.msPerDay; cbn; lia).
  assert (P : Date_parse (Host := manila) "2023-06-10" <> None)
    by (vm_compute; discriminate).
  split; [exact Y|].
  destruct (receipt_from_another_year_is_rejected (host := manila) saturday_morning
              last_year_receipt initialState "2023-06-10" eq_refl
              ltac:(discriminate)) as [R W].
  destruct (R Y) as (E & D & S & _).
  split; [exact E|]. split; [exact D|]. split; [exact S|].
  exact (W Z eq_refl P).
Defined.

(** A free parking is stored; a record with an empty name is not. *)
Lemma zero_amount_is_present_empty_string_is_absent_witness :
  In {| receipt := free_parking; id := saturday_morning |}
     (savedReceipts (handleSaveReceipt saturday_morning free_parking initialState))
  /\ (transaction_name nameless = Some ""
      /\ error (handleSaveReceipt saturday_morning nameless initialState)
         = Some incomplete_message
      /\ savedReceipts (handleSaveReceipt saturday_morning nameless initialState) = []).
Proof.
  destruct (zero_amount_is_present_empty_string_is_absent (host := manila)
              saturday_morning initialState) as [A R].
  split.
  - destruct (A "Parking" "2024-06-10" "Transportation" None None) as (_ & I & _);
      try discriminate.
    exact I.
  - split; [reflexivity|]. apply (R nameless). left. reflexivity.
Defined.

(** Deleting an id that no record carries changes nothing. *)
Lemma delete_removes_exactly_the_id_witness :
  (forall r, In r june_store -> id r <> 14)
  /\ savedReceipts
       (handleDeleteReceipt 14 (setSavedReceipts (fun _ => june_store) initialState))
     = june_store.
Proof.
  assert (N : forall r, In r june_store -> id r <> 14).
  { intros r H. vm_compute in H. intuition (subst; discriminate). }
  split; [exact N|].
  destruct (delete_removes_exactly_the_id 14
              (setSavedReceipts (fun _ => june_store) initialState))
    as (_ & _ & _ & _ & U & _).
  exact (U N).
Defined.

(** * Further properties of the handlers and of the extraction defaults *)

Lemma append_nonempty_l (a b : string) : a <> "" -> a ++ b <> "".
Proof. destruct a; simpl; [congruence | discriminate]. Qed.

Lemma substring_nonempty n (s : string) : s <> "" -> substring 0 (S n) s <> "".
Proof. destruct s; simpl; [congruence | discriminate]. Qed.

(** Today's date string is never empty. *)
Lemma today_of_nonempty now : today_of now <> "".
Proof.
  unfold today_of, slice_0_10. apply (substring_nonempty 9).
  unfold toISOString.
  match goal with |- ?a ++ _ <> "" => destruct a eqn:E end.
  - simpl. discriminate.
  - simpl. discriminate.
Qed.

Lemma or_null_not_empty v : or_null v <> Some "".
Proof.
  unfold or_null. destruct (truthy v) eqn:E; [|discriminate].
  apply truthy_true_iff in E. destruct E as [s [-> Hs]]. congruence.
Qed.

Lemma or_null_absent v : or_null v = None <-> absent v.
Proof.
  unfold or_null. destruct (truthy v) eqn:E.
  - apply truthy_true_iff in E. destruct E as [s [-> Hs]].
    unfold absent. split; [discriminate | intros [H|H]; congruence].
  - apply truthy_false_iff in E. tauto.
Qed.

Lemma or_null_present v : ~ absent v -> or_null v = v.
Proof.
  intros H. unfold or_null. destruct (truthy v) eqn:E; [reflexivity|].
  apply truthy_false_iff in E. contradiction.
Qed.

Lemma validated_category_in_list c :
  exists k, validated_category c = Some k /\ In k categories.
Proof.
  destruct c as [s|].
  - unfold validated_category.
    destruct (truthy (Some s) && mem_string s categories) eqn:E.
    + exists s. split; [reflexivity|].
      apply andb_true_iff in E. now apply mem_string_In.
    + exists "Other". split; [reflexivity | simpl; tauto].
  - exists "Other". split; [reflexivity | simpl; tauto].
Qed.

Lemma validated_category_idem c :
  validated_category (validated_category c) = validated_category c.
Proof.
  destruct (validated_category_in_list c) as [k [E Hk]]. rewrite E.
  now apply validated_category_member.
Qed.

Lemma or_null_idem v : or_null (or_null v) = or_null v.
Proof.
  unfold or_null. destruct (truthy v) eqn:E; [now rewrite E | reflexivity].
Qed.

Lemma in_categories_not_empty k : In k categories -> k <> "".
Proof. intros H ->. simpl in H. intuition discriminate. Qed.

(** X1. What [analyzeReceipt] returns is clean: no text field is an empty
    string (an empty one has become null), the category is one of the nine
    of the list, and cleaning it again changes nothing. *)
Theorem analyzeReceipt_cleans data :
  no_empty_text (analyzeReceipt data)
  /\ (exists k, category (analyzeReceipt data) = Some k /\ In k categories)
  /\ analyzeReceipt (analyzeReceipt data) = analyzeReceipt data.
Proof.
  split; [|split].
  - unfold no_empty_text, analyzeReceipt. cbn.
    repeat split; try apply or_null_not_empty.
    destruct (validated_category_in_list (category data)) as [k [E Hk]].
    rewrite E. intros H. injection H as ->. now apply in_categories_not_empty in Hk.
  - apply validated_category_in_list.
  - unfold analyzeReceipt. cbn.
    rewrite !or_null_idem, validated_category_idem.
    now destruct (total_amount data).
Qed.

Lemma voice_date_present now data :
  ~ absent (transaction_date (analyzeTransactionFromVoice now data)).
Proof.
  unfold analyzeTransactionFromVoice. cbn. intros [H|H]; [discriminate|].
  injection H as H. revert H.
  destruct (transaction_date data) as [d|]; simpl.
  - destruct (d =? "")%string eqn:E; [apply today_of_nonempty|].
    now apply String.eqb_neq.
  - apply today_of_nonempty.
Qed.

(** X2. What [analyzeTransactionFromVoice] returns is clean in the same way
    and, in addition, always carries a date: the one of the reply when it
    has one, today's otherwise. *)
Theorem analyzeTransactionFromVoice_cleans now data :
  no_empty_text (analyzeTransactionFromVoice now data)
  /\ (exists k, category (analyzeTransactionFromVoice now data) = Some k
                /\ In k categories)
  /\ ~ absent (transaction_date (analyzeTransactionFromVoice now data))
  /\ (~ absent (transaction_date data) ->
      transaction_date (analyzeTransactionFromVoice now data) = transaction_date data).
Proof.
  assert (D : forall s, or_else (transaction_date data) (today_of now) = s -> s <> "").
  { intros s <-. destruct (transaction_date data) as [d|]; simpl.
    - destruct (d =? "")%string eqn:E; [apply today_of_nonempty|].
      now apply String.eqb_neq.
    - apply today_of_nonempty. }
  split; [|split; [|split]].
  - unfold no_empty_text, analyzeTransactionFromVoice. cbn.
    repeat split; try apply or_null_not_empty.
    + intros H. injection H as H. now apply D in H.
    + destruct (validated_category_in_list (category data)) as [k [E Hk]].
      rewrite E. intros H. injection H as ->. now apply in_categories_not_empty in Hk.
  - apply validated_category_in_list.
  - unfold analyzeTransactionFromVoice. cbn. intros [H|H]; [discriminate|].
    injection H as H. now apply D in H.
  - intros H. unfold analyzeTransactionFromVoice. cbn.
    destruct (transaction_date data) as [d|]; [|exfalso; apply H; now left].
    rewrite or_else_present; [reflexivity|].
    intros ->. apply H. now right.
Qed.

Section Composition.
Context {host : Host}.

Lemma save_changes_iff_complete now data st :
  savedReceipts (handleSaveReceipt now data st) = savedReceipts st <->
  absent (transaction_name data) \/ total_amount data = None
  \/ absent (transaction_date data) \/ absent (category data).
Proof.
  split.
  - intros H.
    destruct (negb (truthy (transaction_name data)) || is_null (total_amount data)
              || negb (truthy (transaction_date data))
              || negb (truthy (category data))) eqn:G.
    + now apply save_guard.
    + exfalso. unfold handleSaveReceipt in H. rewrite G in H.
      unfold setReceiptData, setSavedReceipts in H. cbn [savedReceipts] in H.
      apply (f_equal (@List.length _)) in H.
      rewrite <- (Permutation_length (Array_sort_perm byDateDesc _)) in H.
      simpl in H. lia.
  - intros H. now rewrite save_rejected.
Qed.

Lemma save_needs_four_fields_accept now data st :
  ~ absent (transaction_name data) -> total_amount data <> None ->
  ~ absent (transaction_date data) -> ~ absent (category data) ->
  Permutation ({| receipt := data; id := now |} :: savedReceipts st)
              (savedReceipts (handleSaveReceipt now data st))
  /\ In {| receipt := data; id := now |} (savedReceipts (handleSaveReceipt now data st))
  /\ List.length (savedReceipts (handleSaveReceipt now data st))
     = S (List.length (savedReceipts st)).
Proof.
  intros H1 H2 H3 H4. rewrite (save_accepted now data st H1 H2 H3 H4).
  unfold setReceiptData, setSavedReceipts. cbn [savedReceipts].
  assert (P := Array_sort_perm byDateDesc
                 ({| receipt := data; id := now |} :: savedReceipts st)).
  split; [exact P|]. split.
  - eapply Permutation_in; [exact P | now left].
  - rewrite <- (Permutation_length P). reflexivity.
Qed.

Lemma validated_category_present c : ~ absent (validated_category c).
Proof.
  destruct (validated_category_in_list c) as [k [E Hk]]. rewrite E.
  intros [H|H]; [discriminate|]. injection H as ->.
  now apply in_categories_not_empty in Hk.
Qed.

(** X3. After extraction the category never stands in the way of a save:
    what the image path returns is refused by [handleSaveReceipt] exactly
    when the reply lacks the name, the amount or the date, and what the
    audio path returns exactly when the reply lacks the name or the amount. *)
Theorem extracted_record_is_saved_unless_unnamed_or_unpriced now clock reply st :
  (savedReceipts (handleSaveReceipt clock (analyzeReceipt reply) st) = savedReceipts st
   <-> absent (transaction_name reply) \/ total_amount reply = None
       \/ absent (transaction_date reply))
  /\
  (savedReceipts (handleSaveReceipt clock (analyzeTransactionFromVoice now reply) st)
     = savedReceipts st
   <-> absent (transaction_name reply) \/ total_amount reply = None).
Proof.
  pose proof (validated_category_present (category reply)) as C.
  pose proof (voice_date_present now reply) as D.
  assert (N : forall v, absent (or_null v) <-> absent v).
  { intros v. pose proof (or_null_not_empty v) as E.
    pose proof (or_null_absent v) as O. unfold absent at 1. tauto. }
  assert (A : forall v : option amount,
             match v with Some n => Some n | None => None end = None <-> v = None)
    by (intros [n|]; split; congruence).
  split; rewrite save_changes_iff_complete.
  - unfold analyzeReceipt. cbn [transaction_name total_amount transaction_date category].
    rewrite !N, A. tauto.
  - cbn [transaction_name total_amount category]. 
    unfold analyzeTransactionFromVoice at 1 2 4.
    cbn [transaction_name total_amount category].
    rewrite N, A. tauto.
Qed.

(** X4. Whatever the analysis gives, [handleImageSelect] leaves the saved
    list, the manual-entry form and the camera flag as they were and ends
    with the loading flag down; afterwards either a record is under review
    or an error is shown, never both and never neither. A failed analysis
    gives the generic error; a record without date is put under review
    without any check of the year, as is a record whose year is the current
    one. *)
Theorem image_analysis_ends_in_review_or_error now outcome st :
  let st' := handleImageSelect now outcome st in
  (savedReceipts st' = savedReceipts st
   /\ manualEntryData st' = manualEntryData st
   /\ showCamera st' = showCamera st
   /\ isLoading st' = false)
  /\ (receiptData st' = None <-> error st' <> None)
  /\ (outcome = None ->
      error st' = Some "Failed to analyze the receipt. Please try again.")
  /\ (forall record, outcome = Some record ->
        absent (transaction_date record)
        \/ (exists s, transaction_date record = Some s
                      /\ option_map getFullYear (Date_parse s) = Some (getFullYear now)) ->
        receiptData st' = Some record /\ error st' = None).
Proof.
  cbv zeta. unfold handleImageSelect.
  destruct outcome as [record|].
  - destruct (truthy (transaction_date record)) eqn:T.
    + apply truthy_true_iff in T. destruct T as [s [Es Hs]]. rewrite Es.
      cbn [Date_of_value].
      destruct (option_map getFullYear (Date_parse s)) as [y|] eqn:Ey;
        [destruct (y =? getFullYear now) eqn:E; [|apply Z.eqb_neq in E]|];
        cbn; (split; [repeat split|]); (split; [split; congruence|]);
        (split; [discriminate|]);
        intros r H D; injection H as <-;
        try (split; reflexivity);
        destruct D as [[A|A] | [s' [A B]]]; congruence.
    + cbn. split; [repeat split|]. split; [split; congruence|].
      split; [discriminate|]. intros r H _. injection H as <-. now split.
  - cbn. split; [repeat split|]. split; [split; congruence|].
    split; [reflexivity | discriminate].
Qed.

(** X5. [handleSaveFromManual] closes the manual-entry form whether or not
    the save is accepted: an incomplete entry only leaves the
    incomplete-data error, the saved list unchanged and no form. *)
Theorem manual_save_always_closes_the_form now entry st :
  let st' := handleSaveFromManual now entry st in
  manualEntryData st' = None
  /\ savedReceipts st' = savedReceipts (handleSaveReceipt now entry st)
  /\ (absent (transaction_name entry) \/ total_amount entry = None
      \/ absent (transaction_date entry) \/ absent (category entry) ->
      savedReceipts st' = savedReceipts st
      /\ error st' = Some "Cannot save incomplete receipt data.").
Proof.
  cbv zeta. unfold handleSaveFromManual, setManualEntryData.
  cbn [manualEntryData savedReceipts error].
  split; [reflexivity|]. split; [reflexivity|].
  intros H. now rewrite save_rejected.
Qed.

(** X6. A preset that gives a name, an amount and a category yields, through
    [handlePresetClick], a form that can be saved as it stands: it carries
    today's date, and [handleSaveFromManual] stores it. The three presets
    of the application are of this kind, with categories of the list. The
    blank form of "Manual / Voice Entry" cannot be saved as it stands. *)
Theorem preset_form_can_be_saved_as_is now clock st :
  (forall presetData,
     ~ absent (transaction_name presetData) -> total_amount presetData <> None ->
     ~ absent (category presetData) ->
     exists form,
       manualEntryData (handlePresetClick now presetData st) = Some form
       /\ transaction_date form = Some (today_of now)
       /\ In {| receipt := form; id := clock |}
             (savedReceipts (handleSaveFromManual clock form
                               (handlePresetClick now presetData st))))
  /\ Forall (fun p => ~ absent (transaction_name (data p))
                      /\ total_amount (data p) <> None
                      /\ exists k, category (data p) = Some k /\ In k categories)
            agentPresets
  /\ (exists form,
        manualEntryData (manualEntryClick now st) = Some form
        /\ savedReceipts (handleSaveFromManual clock form (manualEntryClick now st))
           = savedReceipts st).
Proof.
  split; [|split].
  - intros p Hn Ha Hc. eexists. split; [reflexivity|]. split; [reflexivity|].
    unfold handleSaveFromManual, setManualEntryData. cbn [savedReceipts].
    rewrite save_accepted; cbn [transaction_name total_amount transaction_date category];
      try assumption.
    + unfold setReceiptData, setSavedReceipts. cbn [savedReceipts].
      eapply Permutation_in; [apply Array_sort_perm | now left].
    + intros [H|H]; [discriminate|]. injection H as H.
      now apply (today_of_nonempty now).
  - repeat constructor; try (intros [H|H]; discriminate); try discriminate;
      eexists; (split; [reflexivity | simpl; tauto]).
  - eexists. split; [reflexivity|].
    unfold handleSaveFromManual, setManualEntryData. cbn [savedReceipts].
    rewrite save_rejected; [reflexivity|]. left. now left.
Qed.

Lemma filter_sort_insert_dropped {A} (p : A -> bool) cmp x l :
  p x = false -> filter p (sort_insert cmp x l) = filter p l.
Proof.
  intros Hx. induction l as [|y t IH]; simpl.
  - now rewrite Hx.
  - destruct (cmp x y <=? 0); simpl.
    + now rewrite Hx.
    + now rewrite IH.
Qed.

Lemma save_then_filter_id now data st :
  date_descending (savedReceipts st) ->
  filter (fun r => negb (id r =? now)) (savedReceipts (handleSaveReceipt now data st))
  = filter (fun r => negb (id r =? now)) (savedReceipts st).
Proof.
  intros [Hd Hs]. unfold handleSaveReceipt.
  destruct (_ || _ || _ || _); [reflexivity|].
  unfold setReceiptData, setSavedReceipts. cbn [savedReceipts Array_sort].
  rewrite (Array_sort_descending_id _ Hd Hs).
  apply filter_sort_insert_dropped. cbn [id]. now rewrite Z.eqb_refl.
Qed.

(** X7. Deleting the id of a record just saved undoes the save: on a
    date-descending store in which no record carries the new id, the saved
    list is back to what it was. *)
Theorem delete_undoes_save now data st :
  date_descending (savedReceipts st) ->
  (forall r, In r (savedReceipts st) -> id r <> now) ->
  savedReceipts (handleDeleteReceipt now (handleSaveReceipt now data st))
  = savedReceipts st.
Proof.
  intros Hd Hfresh. unfold handleDeleteReceipt at 1, setSavedReceipts.
  cbn [savedReceipts]. rewrite (save_then_filter_id now data st Hd).
  apply filter_all. intros r Hr. apply negb_true_iff, Z.eqb_neq. now apply Hfresh.
Qed.

(** X8. Ids are clock readings and may collide: two records saved at the
    same reading both enter the list with that id, and one deletion by that
    id removes them both. *)
Theorem same_tick_records_are_deleted_together now first second st :
  date_descending (savedReceipts st) -> readable_date first ->
  (forall r, In r (savedReceipts st) -> id r <> now) ->
  let st2 := handleSaveReceipt now second (handleSaveReceipt now first st) in
  (~ absent (transaction_name first) -> total_amount first <> None ->
   ~ absent (transaction_date first) -> ~ absent (category first) ->
   ~ absent (transaction_name second) -> total_amount second <> None ->
   ~ absent (transaction_date second) -> ~ absent (category second) ->
   In {| receipt := first; id := now |} (savedReceipts st2)
   /\ In {| receipt := second; id := now |} (savedReceipts st2)
   /\ List.length (savedReceipts st2) = S (S (List.length (savedReceipts st))))
  /\ savedReceipts (handleDeleteReceipt now st2) = savedReceipts st.
Proof.
  intros Hd Hr Hfresh. cbv zeta. split.
  - intros F1 F2 F3 F4 S1 S2 S3 S4.
    destruct (save_needs_four_fields_accept now first st F1 F2 F3 F4) as (P1 & I1 & L1).
    destruct (save_needs_four_fields_accept now second (handleSaveReceipt now first st)
                S1 S2 S3 S4) as (P2 & I2 & L2).
    split; [|split].
    + eapply Permutation_in; [exact P2|]. now right.
    + exact I2.
    + now rewrite L2, L1.
  - unfold handleDeleteReceipt at 1, setSavedReceipts. cbn [savedReceipts].
    rewrite save_then_filter_id by now apply save_keeps_descending.
    rewrite save_then_filter_id by exact Hd.
    apply filter_all. intros r Hin. apply negb_true_iff, Z.eqb_neq. now apply Hfresh.
Qed.

End Composition.

(** * Further properties of the time windows *)

Lemma DayWithinYear_range t :
  0 <= ES.DayWithinYear t < ES.DaysInYear (ES.YearFromTime t).
Proof.
  unfold ES.DayWithinYear, ES.YearFromTime.
  pose proof (YearFromDay_spec (ES.Day t)) as H.
  rewrite DayFromYear_step in H. lia.
Qed.

Lemma InLeapYear_DaysInYear t :
  ES.DaysInYear (ES.YearFromTime t) = 365 + ES.InLeapYear t.
Proof. unfold ES.DaysInYear, ES.InLeapYear. now destruct (ES.isLeap _). Qed.

Lemma InLeapYear_range t : 0 <= ES.InLeapYear t <= 1.
Proof. unfold ES.InLeapYear. destruct (ES.isLeap _); lia. Qed.

(** The day of the month lies within the month. *)
Lemma DateFromTime_range t :
  1 <= ES.DateFromTime t <= DaysInMonth (ES.InLeapYear t) (ES.MonthFromTime t).
Proof.
  pose proof (DayWithinYear_range t) as H. rewrite InLeapYear_DaysInYear in H.
  pose proof (InLeapYear_range t) as L.
  unfold ES.DateFromTime, ES.MonthFromTime.
  repeat match goal with
         | |- context [if ?a <? ?b then _ else _] =>
             destruct (Z.ltb_spec a b)
         end; cbn [ES.monthStart DaysInMonth]; lia.
Qed.

(** Year, month and day of the month are read back from the day number
    that [MakeDay] builds from them. *)
Lemma fields_of_MakeDay y m d tm :
  0 <= m <= 11 -> 1 <= d <= DaysInMonth (if ES.isLeap y then 1 else 0) m ->
  0 <= tm < ES.msPerDay ->
  let t := ES.MakeDate (ES.MakeDay y m d) tm in
  ES.YearFromTime t = y /\ ES.MonthFromTime t = m /\ ES.DateFromTime t = d
  /\ ES.Day t = ES.MakeDay y m d /\ ES.TimeWithinDay t = tm.
Proof.
  intros Hm Hd Htm. cbv zeta.
  assert (D : ES.Day (ES.MakeDate (ES.MakeDay y m d) tm) = ES.MakeDay y m d).
  { unfold ES.MakeDate, ES.Day. rewrite Z.add_comm, Z.div_add by discriminate.
    rewrite Z.div_small by exact Htm. lia. }
  assert (T : ES.TimeWithinDay (ES.MakeDate (ES.MakeDay y m d) tm) = tm).
  { unfold ES.MakeDate, ES.TimeWithinDay. rewrite Z.add_comm, Z.mod_add by discriminate.
    now apply Z.mod_small. }
  assert (Y : ES.YearFromTime (ES.MakeDate (ES.MakeDay y m d) tm) = y).
  { unfold ES.YearFromTime. rewrite D. apply YearFromDay_unique.
    now apply MakeDay_within_year. }
  assert (W : ES.DayWithinYear (ES.MakeDate (ES.MakeDay y m d) tm)
              = ES.monthStart (if ES.isLeap y then 1 else 0) m + d - 1).
  { unfold ES.DayWithinYear. rewrite D, Y. unfold ES.MakeDay.
    rewrite (Z.div_small m 12), (Z.mod_small m 12), Z.add_0_r by lia. lia. }
  assert (M : ES.MonthFromTime (ES.MakeDate (ES.MakeDay y m d) tm) = m).
  { unfold ES.MonthFromTime, ES.InLeapYear. rewrite W, Y.
    assert (C : m = 0 \/ m = 1 \/ m = 2 \/ m = 3 \/ m = 4 \/ m = 5 \/ m = 6
                \/ m = 7 \/ m = 8 \/ m = 9 \/ m = 10 \/ m = 11) by lia.
    destruct (ES.isLeap y);
      repeat (destruct C as [-> | C]);
      try subst m; cbn [ES.monthStart DaysInMonth] in *;
      repeat match goal with
             | |- context [if ?a <? ?b then _ else _] =>
                 destruct (Z.ltb_spec a b); try lia
             end. }
  repeat split; try assumption.
  unfold ES.DateFromTime, ES.InLeapYear. rewrite W, M, Y. lia.
Qed.

Lemma filter_Subseq_filter {A} (p q : A -> bool) l :
  (forall x, In x l -> p x = true -> q x = true) ->
  Subseq (filter p l) (filter q l).
Proof.
  induction l as [|x l IH]; intros H; simpl; [constructor|].
  assert (IH' : Subseq (filter p l) (filter q l))
    by (apply IH; intros y Hy; apply H; now right).
  destruct (p x) eqn:Px.
  - rewrite (H x (or_introl eq_refl) Px). now constructor.
  - destruct (q x); [now constructor | exact IH'].
Qed.

Section WindowFacts.
Context {host : Host}.

Lemma Date_of_fields_first y m :
  ~ (0 <= y <= 99) -> 0 <= m <= 11 ->
  Date_of_fields y m 1 =
  UTC ((ES.DayFromYear y + ES.monthStart (if ES.isLeap y then 1 else 0) m) * ES.msPerDay).
Proof.
  intros Hy Hm. unfold Date_of_fields.
  assert (E : (0 <=? y) && (y <=? 99) = false).
  { apply andb_false_iff. rewrite Z.leb_gt, Z.leb_gt. lia. }
  rewrite E. unfold ES.MakeDay, ES.MakeDate, ES.MakeTime.
  rewrite (Z.div_small m 12), (Z.mod_small m 12) by lia.
  replace (y + 0) with y by lia.
  f_equal. unfold ES.msPerDay. lia.
Qed.

Lemma local_day_split now :
  ES.Day (LocalTime now)
  = ES.DayFromYear (getFullYear now)
    + ES.monthStart (ES.InLeapYear (LocalTime now)) (getMonth now)
    + (getDate now - 1).
Proof.
  unfold getFullYear, getMonth, getDate, ES.DateFromTime, ES.DayWithinYear. lia.
Qed.

Lemma monthStart_quarter leap m :
  0 <= leap -> 0 <= m <= 11 ->
  0 <= m / 3 * 3 <= 11
  /\ 0 <= ES.monthStart leap (m / 3 * 3) <= ES.monthStart leap m.
Proof.
  intros Hl Hm.
  assert (C : m = 0 \/ m = 1 \/ m = 2 \/ m = 3 \/ m = 4 \/ m = 5 \/ m = 6
              \/ m = 7 \/ m = 8 \/ m = 9 \/ m = 10 \/ m = 11) by lia.
  repeat (destruct C as [-> | C]); try subst m;
    match goal with
    | |- context [?a / 3 * 3] =>
        let v := eval vm_compute in (a / 3 * 3) in change (a / 3 * 3) with v
    end; cbn [ES.monthStart]; lia.
Qed.

Lemma window_starts_chain now :
  four_digit_year now ->
  yearStart now <= quarterStart now /\ quarterStart now <= monthStart now
  /\ monthStart now <= todayStart now /\ todayStart now <= now
  /\ fst (getWeekRange now) <= todayStart now.
Proof.
  intros Hy. unfold four_digit_year in Hy.
  pose proof (MonthFromTime_range (LocalTime now)) as Hm. fold (getMonth now) in Hm.
  pose proof (InLeapYear_range (LocalTime now)) as Hl.
  pose proof (DateFromTime_range (LocalTime now)) as Hd. fold (getDate now) in Hd.
  destruct (monthStart_quarter (ES.InLeapYear (LocalTime now)) (getMonth now)
              (proj1 Hl) Hm) as [Hq1 Hq2].
  unfold yearStart, quarterStart, monthStart, todayStart, getQuarterRange.
  cbn [fst]. rewrite getWeekRange_closed. cbn [fst].
  rewrite !Date_of_fields_first by (try exact Hy; lia).
  unfold setHours, ES.MakeDate, ES.MakeTime, UTC, week_monday.
  rewrite (local_day_split now).
  fold (ES.InLeapYear (LocalTime now)) in *.
  unfold ES.InLeapYear in *. fold (getFullYear now) in *.
  cbn [ES.monthStart] in *.
  assert (HL : ES.Day (LocalTime now) * ES.msPerDay <= LocalTime now).
  { unfold ES.Day, ES.msPerDay. Z.to_euclidean_division_equations; lia. }
  rewrite (local_day_split now) in HL. unfold LocalTime in HL at 2.
  unfold ES.InLeapYear in HL. fold (getFullYear now) in HL.
  assert (HW : 0 <= (ES.WeekDay (LocalTime now) + 6) mod 7)
    by (apply Z.mod_pos_bound; lia).
  unfold ES.msPerDay in *. lia.
Qed.

End WindowFacts.

Section WindowProperties.
Context {host : Host}.

Lemma filtered_Daily now rs :
  filtered Daily now rs = filter (fun r => date_ge (dateTime r) (todayStart now)) rs.
Proof. unfold filtered, todayStart. reflexivity. Qed.

Lemma filtered_Monthly now rs :
  filtered Monthly now rs = filter (fun r => date_ge (dateTime r) (monthStart now)) rs.
Proof. unfold filtered, monthStart. reflexivity. Qed.

Lemma filtered_Quarterly now rs :
  filtered Quarterly now rs = filter (fun r => date_ge (dateTime r) (quarterStart now)) rs.
Proof.
  unfold filtered, quarterStart. now destruct (getQuarterRange now).
Qed.

Lemma filtered_Yearly now rs :
  filtered Yearly now rs = filter (fun r => date_ge (dateTime r) (yearStart now)) rs.
Proof. unfold filtered, yearStart. reflexivity. Qed.

Lemma filtered_Weekly now rs :
  filtered Weekly now rs =
  filter (fun r => date_ge (dateTime r) (fst (getWeekRange now))
                   && date_le (dateTime r) (snd (getWeekRange now))) rs.
Proof. unfold filtered. now destruct (getWeekRange now). Qed.

Lemma date_ge_mono d a b : a <= b -> date_ge d b = true -> date_ge d a = true.
Proof.
  destruct d as [t|]; simpl; [|auto]. rewrite !Z.leb_le. lia.
Qed.

Lemma filtered_Subseq f now rs : Subseq (filtered f now rs) rs.
Proof.
  destruct f; rewrite ?filtered_Daily, ?filtered_Weekly, ?filtered_Monthly,
    ?filtered_Quarterly, ?filtered_Yearly; try apply filter_Subseq.
  apply Subseq_refl.
Qed.

(** X9. Unless the clock reads a year from 0 to 99, the window starts are
    ordered - year, quarter, month, today, now - and so are the filters:
    what Daily keeps Monthly keeps, what Monthly keeps Quarterly keeps, and
    what Quarterly keeps Yearly keeps, in the same order. *)
Theorem windows_are_nested now receipts :
  four_digit_year now ->
  (yearStart now <= quarterStart now /\ quarterStart now <= monthStart now
   /\ monthStart now <= todayStart now /\ todayStart now <= now)
  /\ Subseq (filtered Daily now receipts) (filtered Monthly now receipts)
  /\ Subseq (filtered Monthly now receipts) (filtered Quarterly now receipts)
  /\ Subseq (filtered Quarterly now receipts) (filtered Yearly now receipts).
Proof.
  intros Hy. destruct (window_starts_chain now Hy) as (H1 & H2 & H3 & H4 & _).
  split; [tauto|].
  rewrite filtered_Daily, filtered_Monthly, filtered_Quarterly, filtered_Yearly.
  repeat split; apply filter_Subseq_filter; intros r _;
    apply date_ge_mono; assumption.
Qed.

(** X10. Only the weekly window has an end. Unless the clock reads a year
    from 0 to 99, a record dated at or after now - a future date included -
    is kept by Daily, Monthly, Quarterly and Yearly; Weekly drops every
    record dated after the end of the week. *)
Theorem only_the_week_has_an_end now receipts r t :
  four_digit_year now ->
  In r receipts -> dateTime r = Some t ->
  (now <= t ->
   In r (filtered Daily now receipts) /\ In r (filtered Monthly now receipts)
   /\ In r (filtered Quarterly now receipts) /\ In r (filtered Yearly now receipts))
  /\ (snd (getWeekRange now) < t -> ~ In r (filtered Weekly now receipts)).
Proof.
  intros Hy Hin Ht. destruct (window_starts_chain now Hy) as (H1 & H2 & H3 & H4 & _).
  assert (K : forall start, start <= t ->
            In r (filter (fun r => date_ge (dateTime r) start) receipts)).
  { intros start Hs. apply filter_In. split; [exact Hin|].
    rewrite Ht. now apply Z.leb_le. }
  split.
  - intros Hn.
    rewrite filtered_Daily, filtered_Monthly, filtered_Quarterly, filtered_Yearly.
    repeat split; apply K; lia.
  - intros Hn H. rewrite filtered_Weekly in H. apply filter_In in H.
    destruct H as [_ H]. rewrite Ht in H.
    apply andb_true_iff in H. destruct H as [_ H]. apply Z.leb_le in H. lia.
Qed.

(** X11. Weekly windows partition time: every instant of the window of
    [now] has that same window. *)
Theorem week_of_any_instant_of_the_window now t :
  fst (getWeekRange now) <= t <= snd (getWeekRange now) ->
  getWeekRange t = getWeekRange now.
Proof.
  rewrite !getWeekRange_closed. cbn [fst snd]. intros H.
  assert (E : week_monday t = week_monday now); [|now rewrite E].
  unfold week_monday, UTC, LocalTime, ES.WeekDay in *.
  set (M := ES.Day (now + LocalTZA) - ((ES.Day (now + LocalTZA) + 4) mod 7 + 6) mod 7) in *.
  assert (HM : (M + 4) mod 7 = 1).
  { subst M. generalize (ES.Day (now + LocalTZA)). intros D.
    Z.to_euclidean_division_equations; lia. }
  clearbody M.
  assert (HD : M <= ES.Day (t + LocalTZA) <= M + 6).
  { unfold ES.Day, ES.msPerDay in *. Z.to_euclidean_division_equations; lia. }
  revert HD. generalize (ES.Day (t + LocalTZA)). intros D HD.
  Z.to_euclidean_division_equations; lia.
Qed.

(** X12. Every filter keeps the records in the order of the list: a
    date-descending list stays date-descending. All keeps the whole list;
    every other filter drops the records whose date cannot be read. *)
Theorem filters_keep_the_order f now receipts :
  Subseq (filtered f now receipts) receipts
  /\ (date_descending receipts -> date_descending (filtered f now receipts))
  /\ filtered All now receipts = receipts
  /\ (f <> All -> Forall dated (filtered f now receipts)).
Proof.
  pose proof (filtered_Subseq f now receipts) as S.
  split; [exact S|]. split; [|split; [reflexivity|]].
  - intros [Hd Hs]. split.
    + eapply Subseq_Forall; eassumption.
    + eapply Subseq_StronglySorted; eassumption.
  - intros Hf. apply Forall_forall. intros r Hr. unfold dated.
    destruct f; rewrite ?filtered_Daily, ?filtered_Weekly, ?filtered_Monthly,
      ?filtered_Quarterly, ?filtered_Yearly in Hr; try contradiction;
      apply filter_In in Hr; destruct Hr as [_ Hr];
      destruct (dateTime r); try discriminate; simpl in Hr; discriminate.
Qed.

Lemma LocalTime_UTC t : LocalTime (UTC t) = t.
Proof. unfold LocalTime, UTC. lia. Qed.

Lemma DaysInMonth_pos leap m : 0 <= leap -> 1 <= DaysInMonth leap m.
Proof.
  intros H. unfold DaysInMonth.
  repeat match goal with |- context [match ?x with _ => _ end] => destruct x end; lia.
Qed.

Lemma first_of_month_fields y m :
  ~ (0 <= y <= 99) -> 0 <= m <= 11 ->
  getFullYear (Date_of_fields y m 1) = y /\ getMonth (Date_of_fields y m 1) = m
  /\ getDate (Date_of_fields y m 1) = 1
  /\ ES.TimeWithinDay (LocalTime (Date_of_fields y m 1)) = 0
  /\ ES.Day (LocalTime (Date_of_fields y m 1)) = ES.MakeDay y m 1.
Proof.
  intros Hy Hm.
  assert (E : LocalTime (Date_of_fields y m 1) = ES.MakeDate (ES.MakeDay y m 1) 0).
  { unfold Date_of_fields.
    assert (B : (0 <=? y) && (y <=? 99) = false).
    { apply andb_false_iff. rewrite Z.leb_gt, Z.leb_gt. lia. }
    rewrite B, LocalTime_UTC. reflexivity. }
  unfold getFullYear, getMonth, getDate. rewrite E.
  assert (L : 0 <= (if ES.isLeap y then 1 else 0)) by (destruct (ES.isLeap y); lia).
  pose proof (DaysInMonth_pos _ m L) as P.
  destruct (fields_of_MakeDay y m 1 0 Hm ltac:(lia) ltac:(unfold ES.msPerDay; lia))
    as (F1 & F2 & F3 & F4 & F5).
  tauto.
Qed.

(** X13. Unless the clock reads a year from 0 to 99, the monthly window
    starts at local midnight of day 1 of the month of [now], the quarterly
    one at local midnight of day 1 of the first month of its quarter
    (January, April, July or October), the yearly one at local midnight of
    1 January, all in the year of [now]; the daily one starts at local
    midnight of the day of [now]. *)
Theorem windows_start_on_the_first now :
  four_digit_year now ->
  (getFullYear (monthStart now) = getFullYear now
   /\ getMonth (monthStart now) = getMonth now
   /\ getDate (monthStart now) = 1
   /\ ES.TimeWithinDay (LocalTime (monthStart now)) = 0)
  /\
  (getFullYear (quarterStart now) = getFullYear now
   /\ getMonth (quarterStart now) = 3 * (getMonth now / 3)
   /\ In (getMonth (quarterStart now)) [0; 3; 6; 9]
   /\ getDate (quarterStart now) = 1
   /\ ES.TimeWithinDay (LocalTime (quarterStart now)) = 0)
  /\
  (getFullYear (yearStart now) = getFullYear now
   /\ getMonth (yearStart now) = 0
   /\ getDate (yearStart now) = 1
   /\ ES.TimeWithinDay (LocalTime (yearStart now)) = 0)
  /\
  (ES.Day (LocalTime (todayStart now)) = ES.Day (LocalTime now)
   /\ ES.TimeWithinDay (LocalTime (todayStart now)) = 0).
Proof.
  intros Hy. unfold four_digit_year in Hy.
  pose proof (MonthFromTime_range (LocalTime now)) as Hm. fold (getMonth now) in Hm.
  assert (Hq : 0 <= getMonth now / 3 * 3 <= 11
               /\ getMonth now / 3 * 3 = 3 * (getMonth now / 3)
               /\ In (getMonth now / 3 * 3) [0; 3; 6; 9]).
  { assert (C : getMonth now / 3 = 0 \/ getMonth now / 3 = 1
                \/ getMonth now / 3 = 2 \/ getMonth now / 3 = 3)
      by (Z.to_euclidean_division_equations; lia).
    destruct C as [C | [C | [C | C]]]; rewrite C; simpl; intuition lia. }
  destruct Hq as (Hq1 & Hq2 & Hq3).
  unfold monthStart, quarterStart, yearStart, getQuarterRange. cbn [fst].
  destruct (first_of_month_fields (getFullYear now) (getMonth now) Hy Hm)
    as (M1 & M2 & M3 & M4 & _).
  destruct (first_of_month_fields (getFullYear now) (getMonth now / 3 * 3) Hy Hq1)
    as (Q1 & Q2 & Q3 & Q4 & _).
  destruct (first_of_month_fields (getFullYear now) 0 Hy ltac:(lia))
    as (Y1 & Y2 & Y3 & Y4 & _).
  split; [tauto|]. split; [rewrite Q2; tauto|]. split; [tauto|].
  unfold todayStart, setHours. rewrite LocalTime_UTC.
  unfold ES.MakeDate, ES.MakeTime, ES.TimeWithinDay. split.
  - unfold ES.Day at 1. rewrite Z.add_comm, Z.div_add by discriminate. reflexivity.
  - rewrite Z.add_comm, Z.mod_add by discriminate. reflexivity.
Qed.

Lemma next_quarter_start leap m :
  0 <= leap <= 1 -> 0 <= m <= 11 ->
  (m / 3 * 3 + 3) / 12 = (if m <? 9 then 0 else 1)
  /\ ES.monthStart leap m + DaysInMonth leap m
     <= (if m <? 9 then ES.monthStart leap ((m / 3 * 3 + 3) mod 12) else 365 + leap)
  /\ (9 <= m -> (m / 3 * 3 + 3) mod 12 = 0).
Proof.
  intros Hl Hm.
  assert (C : m = 0 \/ m = 1 \/ m = 2 \/ m = 3 \/ m = 4 \/ m = 5 \/ m = 6
              \/ m = 7 \/ m = 8 \/ m = 9 \/ m = 10 \/ m = 11) by lia.
  assert (L : leap = 0 \/ leap = 1) by lia.
  destruct L as [-> | ->];
    repeat (destruct C as [-> | C]); try subst m;
    (split; [vm_compute; reflexivity
            | split; [vm_compute; intro K; discriminate K
                     | intros K; first [reflexivity | lia]]]).
Qed.

Lemma day_before_next_quarter t :
  ES.Day t < ES.MakeDay (ES.YearFromTime t) (ES.MonthFromTime t / 3 * 3 + 3) 1.
Proof.
  pose proof (MonthFromTime_range t) as Hm.
  pose proof (InLeapYear_range t) as Hl.
  pose proof (DateFromTime_range t) as Hd.
  pose proof (DayWithinYear_range t) as Hw.
  rewrite InLeapYear_DaysInYear in Hw.
  destruct (next_quarter_start (ES.InLeapYear t) (ES.MonthFromTime t) Hl Hm)
    as (Q1 & Q2 & Q3).
  unfold ES.MakeDay. rewrite Q1.
  unfold ES.DateFromTime, ES.DayWithinYear in *.
  destruct (ES.MonthFromTime t <? 9) eqn:E.
  - rewrite Z.add_0_r. fold (ES.InLeapYear t). lia.
  - apply Z.ltb_ge in E. rewrite (Q3 E).
    rewrite DayFromYear_step, InLeapYear_DaysInYear. cbn [ES.monthStart]. lia.
Qed.

Lemma LocalTime_Date_of_fields y m d :
  ~ (0 <= y <= 99) ->
  LocalTime (Date_of_fields y m d) = ES.MakeDay y m d * ES.msPerDay.
Proof.
  intros Hy. unfold Date_of_fields.
  assert (B : (0 <=? y) && (y <=? 99) = false).
  { apply andb_false_iff. rewrite Z.leb_gt, Z.leb_gt. lia. }
  rewrite B, LocalTime_UTC. unfold ES.MakeDate, ES.MakeTime. lia.
Qed.

Lemma UTC_LocalTime t : UTC (LocalTime t) = t.
Proof. unfold LocalTime, UTC. lia. Qed.

Lemma quarter_end_closed now :
  four_digit_year now ->
  snd (getQuarterRange now)
  = UTC (ES.MakeDay (getFullYear now) (getMonth now / 3 * 3 + 3) 1 * ES.msPerDay - 1).
Proof.
  intros Hy. unfold four_digit_year in Hy.
  pose proof (MonthFromTime_range (LocalTime now)) as Hm.
  assert (Hq : 0 <= getMonth now / 3 * 3 <= 11)
    by (unfold getMonth; Z.to_euclidean_division_equations; lia).
  destruct (first_of_month_fields (getFullYear now) (getMonth now / 3 * 3) Hy Hq)
    as (Q1 & Q2 & _).
  unfold getQuarterRange. cbn [snd]. rewrite Q1, Q2.
  unfold setHours. rewrite (LocalTime_Date_of_fields _ _ _ Hy), Day_of_midnight.
  f_equal. unfold ES.MakeDate, ES.MakeTime, ES.MakeDay, ES.msPerDay. lia.
Qed.

Lemma quarterStart_le_now now :
  four_digit_year now -> fst (getQuarterRange now) <= now.
Proof.
  intros Hy. destruct (window_starts_chain now Hy) as (_ & H2 & H3 & H4 & _).
  revert H2 H3 H4. unfold quarterStart.
  generalize (fst (getQuarterRange now)) (monthStart now) (todayStart now).
  intros a b c H2 H3 H4. lia.
Qed.

(** X14. Unless the clock reads a year from 0 to 99, the range of
    [getQuarterRange] contains [now]: it runs from the start of the quarter
    to the last millisecond before the first day of the month three months
    later. *)
Theorem quarter_range_contains_now now :
  four_digit_year now ->
  let start := fst (getQuarterRange now) in
  let end_ := snd (getQuarterRange now) in
  start <= now <= end_
  /\ end_ + 1 = Date_of_fields (getFullYear now) (getMonth now / 3 * 3 + 3) 1.
Proof.
  intros Hy. cbv zeta.
  rewrite (quarter_end_closed now Hy).
  pose proof (day_before_next_quarter (LocalTime now)) as U.
  assert (HL : LocalTime now < ES.Day (LocalTime now) * ES.msPerDay + ES.msPerDay).
  { unfold ES.Day, ES.msPerDay. Z.to_euclidean_division_equations; lia. }
  split.
  - split; [now apply quarterStart_le_now|].
    revert U HL. generalize (ES.Day (LocalTime now)).
    unfold getFullYear, getMonth.
    generalize (ES.MakeDay (ES.YearFromTime (LocalTime now))
                           (ES.MonthFromTime (LocalTime now) / 3 * 3 + 3) 1).
    unfold UTC, LocalTime, ES.msPerDay. intros a b U HL. lia.
  - rewrite <- (UTC_LocalTime (Date_of_fields _ _ _)).
    rewrite (LocalTime_Date_of_fields _ _ _ Hy). unfold UTC. lia.
Qed.

End WindowProperties.

(** * Further properties of the summaries and of the exports *)

Lemma sum_of_totals_cons e t : sum_of_totals (e :: t) = snd e + sum_of_totals t.
Proof. reflexivity. Qed.

Lemma sum_of_totals_app a b :
  sum_of_totals (a ++ b) = sum_of_totals a + sum_of_totals b.
Proof.
  induction a as [|e a IH]; cbn [app]; [reflexivity|].
  rewrite !sum_of_totals_cons, IH. lia.
Qed.






Lemma totalAmount_from rs a :
  fold_left (fun sum (r : SavedReceiptData) => sum + or_zero (total_amount r)) rs a
  = fold_left (fun s (r : ReceiptData) =>
                 s + match total_amount r with Some x => x | None => 0 end)
              (map receipt rs) a.
Proof.
  revert a. induction rs as [|r rs IH]; intros a; cbn [fold_left map]; [reflexivity|].
  now rewrite or_zero_value, IH.
Qed.

Lemma totalAmount_total_of rs : totalAmount rs = total_of (map receipt rs).
Proof. apply totalAmount_from. Qed.


(** X16. The document export gives a table only under the All filter, and
    the notice otherwise. The table has one row per record, in the order of
    the list, and a last row with the total of the amounts in bold; the row
    of a record shows its name, or N/A, in the second cell, and meets the
    highlight test of [didDrawCell] exactly when the purpose of the record
    is absent or is the text N/A. *)
Theorem document_export_table {host : Host} formatCurrency f now receipts :
  (f <> All ->
   handleGeneratePdf formatCurrency f (filteredData f now receipts) = inl pdf_notice)
  /\
  (exists rows,
     handleGeneratePdf formatCurrency All (filteredData All now receipts)
       = inr (rows ++ [[ Plain ""; Plain ""; Plain ""; Plain "";
                         Bold "TOTAL";
                         Bold (formatCurrency (total_of (map receipt receipts))) ]])%list
     /\ List.length rows = List.length receipts
     /\ (forall i r, nth_error receipts i = Some r ->
           exists row, nth_error rows i = Some row
             /\ nth_error row 1 = Some (Plain (or_else (transaction_name r) "N/A"))
             /\ (pdf_highlighted row = true
                 <-> absent (purpose r) \/ purpose r = Some "N/A"))).
Proof.
  split.
  - intros Hf. destruct f; try reflexivity. contradiction.
  - eexists. unfold filteredData, filtered, handleGeneratePdf, pdf_body.
    split; [|split].
    + rewrite totalAmount_total_of. reflexivity.
    + apply length_map.
    + intros i r Hi. eexists. split; [apply map_nth_error; exact Hi|].
      split; [reflexivity|].
      unfold pdf_highlighted. cbn [nth_error]. rewrite String.eqb_eq.
      destruct (purpose r) as [p|]; simpl.
      * destruct (p =? "")%string eqn:E.
        -- apply String.eqb_eq in E. subst. unfold absent. intuition.
        -- apply String.eqb_neq in E. unfold absent.
           split; [intros ->; now right | intros [[H|H]|H]; congruence].
      * unfold absent. intuition.
Qed.

Lemma read_escaped s rest :
  no_leading_quote rest ->
  read_quoted_body (escape_quotes s ++ String dquote rest) = Some (s, rest).
Proof.
  intros Hr. induction s as [|c s IH].
  - cbn [escape_quotes append read_quoted_body]. rewrite Ascii.eqb_refl.
    destruct rest as [|c' rest']; [reflexivity|].
    cbn in Hr. apply Ascii.eqb_neq in Hr. rewrite Ascii.eqb_sym in Hr.
    rewrite Ascii.eqb_sym, Hr. reflexivity.
  - cbn [escape_quotes]. destruct (Ascii.eqb c dquote) eqn:E.
    + apply Ascii.eqb_eq in E. subst c.
      cbn [append read_quoted_body]. rewrite Ascii.eqb_refl, IH. reflexivity.
    + cbn [append read_quoted_body]. rewrite E, IH. reflexivity.
Qed.

Lemma escape_quotes_empty s : escape_quotes s = "" -> s = "".
Proof.
  destruct s as [|c s]; [reflexivity|]. cbn [escape_quotes].
  destruct (Ascii.eqb c dquote); discriminate.
Qed.

Lemma csv_quoted_escaped v :
  csv_quoted v = String dquote (escape_quotes (cell_text v) ++ String dquote "").
Proof.
  unfold csv_quoted. destruct v as [s|]; cbn [option_map cell_text or_else]; [|reflexivity].
  destruct (escape_quotes s =? "")%string eqn:E; [|reflexivity].
  apply String.eqb_eq in E. rewrite E. reflexivity.
Qed.

Lemma read_csv_quoted v rest :
  no_leading_quote rest ->
  read_quoted (csv_quoted v ++ rest) = Some (cell_text v, rest).
Proof.
  intros Hr. rewrite csv_quoted_escaped. cbn [append read_quoted].
  rewrite Ascii.eqb_refl, append_assoc. cbn [append].
  now apply read_escaped.
Qed.

(** X17. The quoting of the delimited-text export can be undone: a reader
    that takes a doubled quote for a quote and a single one for the end of
    the field reads back, from a quoted name, client or purpose followed by
    a comma, a line end or nothing, exactly the text of the field (the empty
    text for an absent one) - whatever quotes, commas or line ends the text
    holds. Under the All filter the exported text is the header followed
    by the rows of the records, joined by line feeds; in a record's row the
    name is read back in this way after the date, and the purpose at the
    end of the row. *)
Theorem quoted_fields_read_back :
  (forall v rest, no_leading_quote rest ->
     read_quoted (csv_quoted v ++ rest) = Some (cell_text v, rest))
  /\
  (forall {host : Host} now rs title,
     handleDownloadCsv All now rs title
       = "data:text/csv;charset=utf-8," ++ csv_header
         ++ join newline (map (fun r => join "," (csv_row r)) rs))
  /\
  (forall r, exists rest before_purpose,
     join "," (csv_row r)
       = or_else (transaction_date r) "" ++ "," ++
         csv_quoted (transaction_name r) ++ "," ++ rest
     /\ read_quoted (csv_quoted (transaction_name r) ++ "," ++ rest)
        = Some (cell_text (transaction_name r), "," ++ rest)
     /\ join "," (csv_row r) = before_purpose ++ csv_quoted (purpose r)
     /\ read_quoted (csv_quoted (purpose r)) = Some (cell_text (purpose r), "")).
Proof.
  split; [exact read_csv_quoted|].
  split.
  { intros host now rs title. unfold handleDownloadCsv, filtered.
    rewrite append_assoc, map_map. reflexivity. }
  intros r. eexists. eexists. split; [reflexivity|]. split; [|split].
  - apply read_csv_quoted. cbn. discriminate.
  - unfold csv_row. cbn [join]. rewrite <- !append_assoc. reflexivity.
  - pose proof (read_csv_quoted (purpose r) "" I) as H.
    assert (E : forall s : string, s ++ "" = s)
      by (induction s as [|c s IH]; cbn; [reflexivity | now rewrite IH]).
    now rewrite E in H.
Qed.
(** ** The assistant panel *)

Lemma string_length_app (a b : string) :
  String.length (a ++ b) = (String.length a + String.length b)%nat.
Proof. induction a as [|c a IH]; cbn; [reflexivity | now rewrite IH]. Qed.

Lemma append_empty_r (a : string) : (a ++ "")%string = a.
Proof. induction a as [|c a IH]; cbn; [reflexivity | now rewrite IH]. Qed.

Lemma string_rev_app (a b : string) :
  string_rev (a ++ b) = (string_rev b ++ string_rev a)%string.
Proof.
  induction a as [|c a IH]; cbn.
  - now rewrite append_empty_r.
  - now rewrite IH, append_assoc.
Qed.

Lemma substring_0_app (a b : string) :
  substring 0 (String.length a) (a ++ b) = a.
Proof.
  induction a as [|c a IH]; cbn.
  - destruct b; reflexivity.
  - now rewrite IH.
Qed.

Lemma substring_0_all (a : string) : substring 0 (String.length a) a = a.
Proof. rewrite <- (append_empty_r a) at 2. apply substring_0_app. Qed.

Lemma substring_2_skip (a b : ascii) (s : string) :
  substring_2 (String a (String b s)) = s.
Proof.
  unfold substring_2. cbn [String.length substring].
  replace (S (S (String.length s)) - 2)%nat with (String.length s) by lia.
  apply substring_0_all.
Qed.

Lemma slice_2_m2_bold (body : string) :
  slice_2_m2 ("**" ++ body ++ "**") = body.
Proof.
  unfold slice_2_m2. cbn [append String.length substring].
  rewrite string_length_app. cbn [String.length].
  replace (S (S (String.length body + 2)) - 4)%nat with (String.length body) by lia.
  apply substring_0_app.
Qed.

Lemma endsWith_bold (s : string) : endsWith "**" (s ++ "**") = true.
Proof.
  unfold endsWith. rewrite string_rev_app.
  change (string_rev "**") with "**"%string. cbn [append prefix].
  destruct (ascii_dec "*" "*"); [|congruence].
  destruct (string_rev s); reflexivity.
Qed.

Lemma startsWith_bold (s : string) : startsWith "**" ("**" ++ s) = true.
Proof.
  unfold startsWith. cbn [append prefix].
  destruct (ascii_dec "*" "*"); [|congruence]. destruct s; reflexivity.
Qed.

Lemma render_part_bold (body : string) :
  render_part ("**" ++ body ++ "**") = Strong body.
Proof.
  unfold render_part. rewrite slice_2_m2_bold, startsWith_bold.
  replace ("**" ++ body ++ "**")%string with (("**" ++ body) ++ "**")%string
    by (now rewrite append_assoc).
  rewrite endsWith_bold. reflexivity.
Qed.

Lemma concat_parts_cons (p : string) (ps : list string) :
  concat_parts (p :: ps) = (p ++ concat_parts ps)%string.
Proof. reflexivity. Qed.

Lemma find_close_sound (s body tail : string) :
  find_close s = Some (body, tail) ->
  s = (body ++ "**" ++ tail)%string /\ string_forall (fun c => negb (is_line_terminator c)) body = true.
Proof.
  revert body tail. induction s as [|c s IH]; intros body tail H; [discriminate|].
  cbn [find_close] in H.
  destruct (startsWith "**" (String c s)) eqn:E.
  - injection H as <- <-. split; [|reflexivity].
    unfold startsWith in E. cbn [prefix] in E.
    destruct (ascii_dec "*" c) as [<-|]; [|discriminate].
    destruct s as [|d s]; [discriminate|]. cbn [prefix] in E.
    destruct (ascii_dec "*" d) as [<-|]; [|discriminate].
    now rewrite substring_2_skip.
  - destruct (is_line_terminator c) eqn:L; [discriminate|].
    destruct (find_close s) as [[b t]|] eqn:F; [|discriminate].
    injection H as <- <-. destruct (IH _ _ eq_refl) as [-> Hb].
    split; [reflexivity|]. cbn. now rewrite L.
Qed.

Lemma find_close_plain (body rest : string) :
  string_forall (fun c => negb (Ascii.eqb c "*") && negb (is_line_terminator c)) body = true ->
  find_close (body ++ "**" ++ rest) = Some (body, rest).
Proof.
  induction body as [|c body IH]; intros H.
  - change ("" ++ "**" ++ rest)%string with (String "*" (String "*" rest)).
    cbn [find_close].
    change (String "*" (String "*" rest)) with ("**" ++ rest)%string at 1.
    rewrite startsWith_bold. now rewrite substring_2_skip.
  - cbn in H. apply andb_true_iff in H as [Hc Hb].
    apply andb_true_iff in Hc as [Hs Hl].
    apply negb_true_iff in Hs, Hl.
    change (String c body ++ "**" ++ rest)%string
      with (String c (body ++ "**" ++ rest)).
    cbn [find_close]. unfold startsWith. cbn [prefix].
    destruct (ascii_dec "*" c) as [<-|]; [discriminate|].
    rewrite Hl, (IH Hb). reflexivity.
Qed.

Lemma split_bold_from_skip (skipped rest plain : string) :
  split_bold_from (String.length skipped) plain (skipped ++ rest)
  = split_bold_from 0 plain rest.
Proof.
  induction skipped as [|c k IH]; cbn [String.length append].
  - destruct rest; reflexivity.
  - cbn [split_bold_from]. exact IH.
Qed.

Lemma split_bold_from_text (skip : nat) (s skipped rest plain : string) :
  s = (skipped ++ rest)%string -> String.length skipped = skip ->
  concat_parts (split_bold_from skip plain s) = (plain ++ rest)%string.
Proof.
  revert skip skipped rest plain.
  induction s as [|c s IH]; intros skip skipped rest plain Hs Hk.
  - destruct skipped; [|discriminate]. cbn in Hs. subst rest.
    cbn. reflexivity.
  - destruct skip as [|k].
    + destruct skipped; [|discriminate]. cbn in Hs. subst rest.
      assert (P : concat_parts (split_bold_from 0 (plain ++ String c "") s)
                  = (plain ++ String c s)%string).
      { rewrite (IH 0%nat ""%string s _ eq_refl eq_refl).
        now rewrite append_assoc. }
      cbn [split_bold_from].
      destruct (startsWith "**" (String c s)) eqn:E; [|exact P].
      destruct (find_close (substring_2 (String c s))) as [[body tail]|] eqn:F;
        [|exact P].
      unfold startsWith in E. cbn [prefix] in E.
      destruct (ascii_dec "*" c) as [<-|]; [|discriminate].
      destruct s as [|d s]; [discriminate|]. cbn [prefix] in E.
      destruct (ascii_dec "*" d) as [<-|]; [|discriminate].
      rewrite substring_2_skip in F.
      destruct (find_close_sound _ _ _ F) as [-> _].
      rewrite !concat_parts_cons.
      rewrite (IH (3 + String.length body)%nat ("*" ++ body ++ "**")%string tail
                  ""%string).
      * cbn [append]. rewrite !append_assoc. reflexivity.
      * cbn [append]. rewrite !append_assoc. reflexivity.
      * cbn [append String.length]. rewrite string_length_app. cbn. lia.
    + destruct skipped as [|c' k']; [discriminate|].
      cbn in Hs, Hk. injection Hs as <- ->. injection Hk as Hk.
      cbn [split_bold_from]. now apply (IH k k').
Qed.

Lemma split_bold_from_plain (pre rest plain : string) :
  string_forall (fun c => negb (Ascii.eqb c "*")) pre = true ->
  split_bold_from 0 plain (pre ++ rest)
  = split_bold_from 0 (plain ++ pre) rest.
Proof.
  revert plain. induction pre as [|c pre IH]; intros plain H.
  - cbn [append]. now rewrite append_empty_r.
  - cbn in H. apply andb_true_iff in H as [Hc Hp]. apply negb_true_iff in Hc.
    cbn [append split_bold_from]. unfold startsWith. cbn [prefix].
    destruct (ascii_dec "*" c) as [<-|]; [discriminate|].
    rewrite (IH _ Hp), append_assoc. reflexivity.
Qed.

Lemma split_bold_from_match (plain body tail s : string) :
  find_close s = Some (body, tail) ->
  split_bold_from 0 plain ("**" ++ s)
  = plain :: ("**" ++ body ++ "**")%string
          :: split_bold_from (3 + String.length body) "" ("*" ++ s).
Proof.
  intros H. change ("**" ++ s)%string with (String "*" (String "*" s)).
  cbn [split_bold_from].
  change (startsWith "**" (String "*" (String "*" s)))
    with (startsWith "**" ("**" ++ s)).
  rewrite startsWith_bold, substring_2_skip, H. reflexivity.
Qed.

Lemma concat_parts_filter (parts : list string) :
  concat_parts (filter (fun part => negb (part =? "")%string) parts)
  = concat_parts parts.
Proof.
  induction parts as [|p parts IH]; [reflexivity|].
  cbn [filter]. destruct (String.eqb_spec p "") as [->|]; cbn [negb];
    rewrite ?concat_parts_cons, IH; reflexivity.
Qed.

(** X19. Splitting the content of a list item on its bold spans loses
    nothing: the parts, and also the parts left once the empty ones are
    filtered out, give back the content when put one after the other. For
    a text without stars followed by a span of two stars, a body without
    stars or line terminators, and two stars, the split is that text, the
    span, and the split of what follows. A span is rendered as a strong
    element that holds its body. *)
Theorem bold_split_loses_nothing :
  (forall content,
     concat_parts (split_bold content) = content /\
     concat_parts (filter (fun part => negb (part =? "")%string) (split_bold content))
       = content)
  /\
  (forall pre body rest,
     string_forall (fun c => negb (Ascii.eqb c "*")) pre = true ->
     string_forall (fun c => negb (Ascii.eqb c "*") && negb (is_line_terminator c)) body = true ->
     split_bold (pre ++ "**" ++ body ++ "**" ++ rest)
       = pre :: ("**" ++ body ++ "**")%string :: split_bold rest)
  /\
  (forall body, render_part ("**" ++ body ++ "**") = Strong body).
Proof.
  split; [|split].
  - intros content.
    assert (P : concat_parts (split_bold content) = content)
      by exact (split_bold_from_text 0 content "" content "" eq_refl eq_refl).
    split; [exact P|]. now rewrite concat_parts_filter.
  - intros pre body rest Hp Hb. unfold split_bold.
    rewrite (split_bold_from_plain pre _ "" Hp).
    rewrite (split_bold_from_match _ body rest _ (find_close_plain body rest Hb)).
    f_equal. f_equal.
    replace ("*" ++ body ++ "**" ++ rest)%string
      with (("*" ++ body ++ "**") ++ rest)%string
      by (cbn [append]; now rewrite !append_assoc).
    replace (3 + String.length body)%nat
      with (String.length ("*" ++ body ++ "**"))
      by (cbn [append String.length]; rewrite string_length_app; cbn; lia).
    apply split_bold_from_skip.
  - exact render_part_bold.
Qed.
Lemma split_newline_nonempty (s : string) : split_newline s <> [].
Proof.
  destruct s as [|c s]; cbn; [discriminate|].
  destruct (Ascii.eqb c "010"); [discriminate|].
  destruct (split_newline s); discriminate.
Qed.

Lemma join_split_newline (text : string) :
  join newline (split_newline text) = text.
Proof.
  induction text as [|c s IH]; [reflexivity|].
  cbn [split_newline].
  destruct (Ascii.eqb_spec c "010") as [->|Hc].
  - destruct (split_newline s) as [|l ls] eqn:E;
      [now destruct (split_newline_nonempty s)|].
    change (join newline ("" :: l :: ls))%string
      with ("" ++ newline ++ join newline (l :: ls))%string.
    rewrite IH. reflexivity.
  - destruct (split_newline s) as [|l ls] eqn:E;
      [now destruct (split_newline_nonempty s)|].
    destruct ls as [|l' ls].
    + cbn [join] in *. now rewrite IH.
    + change (join newline (String c l :: l' :: ls))
        with (String c (l ++ newline ++ join newline (l' :: ls)))%string.
      change (join newline (l :: l' :: ls))
        with (l ++ newline ++ join newline (l' :: ls))%string in IH.
      now rewrite IH.
Qed.

Lemma split_newline_lines (text : string) :
  Forall no_newline (split_newline text).
Proof.
  induction text as [|c s IH]; [repeat constructor|].
  cbn [split_newline].
  destruct (Ascii.eqb c "010") eqn:E.
  - constructor; [reflexivity | exact IH].
  - destruct (split_newline s) as [|l ls]; [repeat constructor; unfold no_newline; cbn; now rewrite E|].
    inversion IH as [|? ? Hl Hls]; subst. constructor; [|exact Hls].
    unfold no_newline in *. cbn. now rewrite E, Hl.
Qed.

Lemma render_line_none_iff (line : string) :
  render_line line = None <-> trim line = ""%string.
Proof.
  unfold render_line. split.
  - destruct (trim line =? "---")%string; [discriminate|].
    destruct (startsWith "* " (trim line)); [discriminate|].
    destruct (startsWith "**" (trim line) && endsWith "**" (trim line));
      [discriminate|].
    destruct (String.eqb_spec (trim line) ""); [trivial | discriminate].
  - intros ->. reflexivity.
Qed.

Lemma render_lines_In (ls : list string) (i k : nat) (node : Node) :
  In (k, node) (render_lines i ls) <->
  exists j line, k = (i + j)%nat /\ nth_error ls j = Some line
                 /\ render_line line = Some node.
Proof.
  revert i. induction ls as [|l ls IH]; intros i.
  - cbn. split; [tauto|]. intros (j & line & _ & H & _). now destruct j.
  - assert (T : In (k, node) (render_lines (S i) ls) <->
                exists j line, k = (i + S j)%nat /\ nth_error ls j = Some line
                               /\ render_line line = Some node).
    { rewrite IH. split; intros (j & line & -> & H); exists j, line;
        (split; [lia | exact H]). }
    cbn [render_lines]. destruct (render_line l) as [n|] eqn:E.
    + cbn [In]. rewrite T. split.
      * intros [H | (j & line & -> & H)].
        -- injection H as <- <-. exists 0%nat, l. repeat split; [lia | exact E].
        -- exists (S j), line. split; [reflexivity | exact H].
      * intros ([|j] & line & -> & H1 & H2).
        -- left. cbn in H1. injection H1 as <-. rewrite E in H2.
           injection H2 as <-. f_equal. lia.
        -- right. exists j, line. repeat split; assumption.
    + rewrite T. split.
      * intros (j & line & -> & H). exists (S j), line.
        split; [reflexivity | exact H].
      * intros ([|j] & line & -> & H1 & H2).
        -- cbn in H1. injection H1 as <-. congruence.
        -- exists j, line. repeat split; assumption.
Qed.

Lemma render_lines_keys (ls : list string) (i : nat) :
  StronglySorted lt (map fst (render_lines i ls))
  /\ Forall (fun k => (i <= k)%nat) (map fst (render_lines i ls)).
Proof.
  revert i. induction ls as [|l ls IH]; intros i; [split; constructor|].
  destruct (IH (S i)) as [S1 F1].
  assert (F2 : Forall (fun k => (i < k)%nat) (map fst (render_lines (S i) ls)))
    by (eapply Forall_impl; [|exact F1]; cbn; intros; lia).
  cbn [render_lines]. destruct (render_line l).
  - cbn [map fst]. split; constructor; trivial.
    eapply Forall_impl; [|exact F2]. cbn. intros. lia.
  - split; [exact S1|]. eapply Forall_impl; [|exact F2]. cbn. intros. lia.
Qed.

(** X18. [renderAnalysis] works line by line: the lines are the pieces of
    the text between line feeds. A line gives no node exactly when it is
    blank once trimmed, and the nodes of the result are those of the other
    lines, each with the index of its line as key, in the order of the
    lines: the keys are strictly increasing, hence distinct. *)
Theorem one_node_per_line_that_is_not_blank (text : string) :
  join newline (split_newline text) = text
  /\ Forall no_newline (split_newline text)
  /\ (forall line, render_line line = None <-> trim line = ""%string)
  /\ (forall i node,
        In (i, node) (renderAnalysis text) <->
        exists line, nth_error (split_newline text) i = Some line
                     /\ render_line line = Some node)
  /\ StronglySorted lt (map fst (renderAnalysis text)).
Proof.
  split; [apply join_split_newline|].
  split; [apply split_newline_lines|].
  split; [exact render_line_none_iff|].
  split; [|apply render_lines_keys].
  intros i node. unfold renderAnalysis. rewrite render_lines_In. split.
  - intros (j & line & -> & H). exists line. exact H.
  - intros (line & H). exists i, line. split; [reflexivity | exact H].
Qed.

Lemma transactionData_rows (receipts : list SavedReceiptData) :
  receipts <> [] ->
  transactionData receipts = (ai_header ++ lines ai_row receipts)%string.
Proof.
  intros H. unfold transactionData, formatTransactionsForAI.
  destruct receipts as [|r rs]; [congruence|].
  cbn [List.length Nat.eqb]. apply fold_left_lines.
Qed.

(** X20. [handleGetInsights] does nothing, whatever the state, when the
    question is blank or there is no record: no call is made and the state
    is unchanged. Otherwise it calls the analysis with the records and the
    question as typed, ends with the loading flag off, and has either the
    answer with no error, or an empty answer with the fixed error message.
    In a call that it makes, the data of the prompt is the header
    followed by one row per record, never the sentence for an empty
    list. *)
Theorem insights_are_asked_only_with_a_question_and_records
  (receipts : list SavedReceiptData) (outcome : option string)
  (st : Assistant.State) :
  (trim (Assistant.query st) = ""%string \/ receipts = [] ->
     Assistant.handleGetInsights receipts outcome st = (st, None))
  /\
  (trim (Assistant.query st) <> ""%string -> receipts <> [] ->
     snd (Assistant.handleGetInsights receipts outcome st)
       = Some (receipts, Assistant.query st)
     /\ Assistant.isLoading (fst (Assistant.handleGetInsights receipts outcome st)) = false
     /\ Assistant.query (fst (Assistant.handleGetInsights receipts outcome st))
        = Assistant.query st
     /\ match outcome with
        | Some result =>
            Assistant.analysis (fst (Assistant.handleGetInsights receipts outcome st)) = result
            /\ Assistant.error (fst (Assistant.handleGetInsights receipts outcome st)) = None
        | None =>
            Assistant.analysis (fst (Assistant.handleGetInsights receipts outcome st)) = ""%string
            /\ Assistant.error (fst (Assistant.handleGetInsights receipts outcome st))
               = Some Assistant.failed_message
        end
     /\ transactionData receipts = (ai_header ++ lines ai_row receipts)%string
     /\ transactionData receipts <> "No transactions available."%string).
Proof.
  unfold Assistant.handleGetInsights. split.
  - intros [-> | ->]; [reflexivity|]. now rewrite orb_true_r.
  - intros Hq Hr.
    destruct (String.eqb_spec (trim (Assistant.query st)) "") as [|_]; [contradiction|].
    destruct receipts as [|r rs]; [congruence|].
    cbn [List.length Nat.eqb orb fst snd].
    split; [reflexivity|]. split; [reflexivity|]. split; [now destruct outcome|].
    split; [now destruct outcome|].
    rewrite (transactionData_rows (r :: rs) Hr). split; [reflexivity|].
    discriminate.
Qed.
(** * The further properties on sample inputs *)

Lemma saturday_is_in_2024 : getFullYear (host := manila) saturday_morning = 2024.
Proof. vm_compute. reflexivity. Qed.

Lemma saturday_four_digit_year : four_digit_year (host := manila) saturday_morning.
Proof. unfold four_digit_year. rewrite saturday_is_in_2024. lia. Qed.

Lemma present_text (s : string) :
  s <> ""%string -> ~ absent (Some s).
Proof. intros H [E|E]; [discriminate E | injection E as E; contradiction]. Qed.

Lemma empty_store_descending {host : Host} : date_descending [].
Proof. split; constructor. Qed.

Lemma scenario_record_readable name p date cat :
  iso_date_parse date <> None ->
  readable_date (host := manila) (scenario_record name p date cat).
Proof. intros H s Hs. injection Hs as <-. exact H. Qed.

Lemma june_store_descending : date_descending (host := manila) june_store.
Proof.
  unfold june_store, scenario_store. cbv zeta.
  repeat apply save_keeps_descending; try apply empty_store_descending;
    apply scenario_record_readable; vm_compute; discriminate.
Qed.

Lemma analyzeTransactionFromVoice_cleans_witness :
  ~ absent (transaction_date parking)
  /\ transaction_date (analyzeTransactionFromVoice saturday_morning parking)
     = Some "2024-06-10"%string.
Proof.
  assert (H : ~ absent (transaction_date parking))
    by (apply present_text; discriminate).
  split; [exact H|].
  destruct (analyzeTransactionFromVoice_cleans saturday_morning parking)
    as (_ & _ & _ & K).
  exact (K H).
Defined.

Lemma extracted_record_is_saved_unless_unnamed_or_unpriced_witness :
  absent (transaction_name nameless)
  /\ savedReceipts (handleSaveReceipt sunday_morning (analyzeReceipt nameless)
                                      initialState) = []
  /\ savedReceipts (handleSaveReceipt sunday_morning
                      (analyzeTransactionFromVoice saturday_morning nameless)
                      initialState) = [].
Proof.
  assert (H : absent (transaction_name nameless)) by (right; reflexivity).
  destruct (extracted_record_is_saved_unless_unnamed_or_unpriced
              saturday_morning sunday_morning nameless initialState) as [[_ A] [_ B]].
  split; [exact H|]. split.
  - exact (A (or_introl H)).
  - exact (B (or_introl H)).
Defined.

Lemma image_analysis_ends_in_review_or_error_witness :
  option_map (getFullYear (host := manila)) (Date_parse "2024-06-10")
    = Some (getFullYear saturday_morning)
  /\ receiptData (handleImageSelect saturday_morning (Some parking) initialState)
     = Some parking
  /\ error (handleImageSelect saturday_morning (Some parking) initialState) = None
  /\ error (handleImageSelect saturday_morning None initialState)
     = Some "Failed to analyze the receipt. Please try again."%string.
Proof.
  assert (Y : option_map (getFullYear (host := manila)) (Date_parse "2024-06-10")
              = Some (getFullYear saturday_morning))
    by (vm_compute; reflexivity).
  split; [exact Y|].
  destruct (image_analysis_ends_in_review_or_error (host := manila) saturday_morning
              (Some parking) initialState) as (_ & _ & _ & R).
  destruct (R parking eq_refl
              (or_intror (ex_intro _ "2024-06-10"%string (conj eq_refl Y))))
    as [R1 R2].
  split; [exact R1|]. split; [exact R2|].
  destruct (image_analysis_ends_in_review_or_error (host := manila) saturday_morning
              None initialState) as (_ & _ & F & _).
  exact (F eq_refl).
Defined.

Lemma manual_save_always_closes_the_form_witness :
  absent (category parking_without_category)
  /\ savedReceipts (handleSaveFromManual saturday_morning parking_without_category
                                         initialState) = []
  /\ error (handleSaveFromManual saturday_morning parking_without_category
                                 initialState)
     = Some "Cannot save incomplete receipt data."%string.
Proof.
  assert (H : absent (category parking_without_category)) by (left; reflexivity).
  split; [exact H|].
  destruct (manual_save_always_closes_the_form saturday_morning
              parking_without_category initialState) as (_ & _ & K).
  exact (K (or_intror (or_intror (or_intror H)))).
Defined.

Lemma preset_form_can_be_saved_as_is_witness :
  ~ absent (transaction_name free_parking)
  /\ total_amount free_parking <> None
  /\ ~ absent (category free_parking)
  /\ exists form,
       manualEntryData (handlePresetClick saturday_morning free_parking initialState)
         = Some form
       /\ transaction_date form = Some (today_of saturday_morning)
       /\ In {| receipt := form; id := sunday_morning |}
             (savedReceipts (handleSaveFromManual sunday_morning form
                (handlePresetClick saturday_morning free_parking initialState))).
Proof.
  assert (N : ~ absent (transaction_name free_parking))
    by (apply present_text; discriminate).
  assert (A : total_amount free_parking <> None) by discriminate.
  assert (C : ~ absent (category free_parking))
    by (apply present_text; discriminate).
  split; [exact N|]. split; [exact A|]. split; [exact C|].
  destruct (preset_form_can_be_saved_as_is (host := manila) saturday_morning
              sunday_morning initialState) as (P & _).
  exact (P free_parking N A C).
Defined.

Lemma delete_undoes_save_witness :
  date_descending (host := manila) june_store
  /\ (forall r, In r june_store -> id r <> saturday_morning)
  /\ savedReceipts
       (handleDeleteReceipt saturday_morning
          (handleSaveReceipt saturday_morning parking june_state))
     = june_store.
Proof.
  assert (F : forall r, In r june_store -> id r <> saturday_morning).
  { intros r H. vm_compute in H.
    destruct H as [<-|[<-|[<-|[]]]]; discriminate. }
  split; [exact june_store_descending|]. split; [exact F|].
  exact (delete_undoes_save (host := manila) saturday_morning parking
           june_state june_store_descending F).
Defined.

Lemma same_tick_records_are_deleted_together_witness :
  readable_date (host := manila) parking
  /\ List.length
       (savedReceipts
          (handleSaveReceipt saturday_morning free_parking
             (handleSaveReceipt saturday_morning parking initialState))) = 2%nat
  /\ savedReceipts
       (handleDeleteReceipt saturday_morning
          (handleSaveReceipt saturday_morning free_parking
             (handleSaveReceipt saturday_morning parking initialState))) = [].
Proof.
  assert (R : readable_date (host := manila) parking)
    by (apply scenario_record_readable; vm_compute; discriminate).
  split; [exact R|].
  destruct (same_tick_records_are_deleted_together (host := manila) saturday_morning
              parking free_parking initialState empty_store_descending R
              (fun r (H : In r []) => match H with end)) as [S D].
  split; [|exact D].
  destruct S as (_ & _ & L); try discriminate;
    try (apply present_text; discriminate).
  exact L.
Defined.
Lemma windows_are_nested_witness :
  four_digit_year (host := manila) saturday_morning
  /\ Subseq (filtered Daily saturday_morning june_store)
            (filtered Monthly saturday_morning june_store)
  /\ Subseq (filtered Quarterly saturday_morning june_store)
            (filtered Yearly saturday_morning june_store).
Proof.
  split; [exact saturday_four_digit_year|].
  destruct (windows_are_nested (host := manila) saturday_morning june_store
              saturday_four_digit_year) as (_ & A & _ & C).
  split; [exact A | exact C].
Defined.

Lemma only_the_week_has_an_end_witness :
  saturday_morning <= 1735084800000
  /\ snd (getWeekRange (host := manila) saturday_morning) < 1735084800000
  /\ In gift_saved (filtered Daily saturday_morning (gift_saved :: june_store))
  /\ In gift_saved (filtered Yearly saturday_morning (gift_saved :: june_store))
  /\ ~ In gift_saved (filtered Weekly saturday_morning (gift_saved :: june_store)).
Proof.
  assert (L : saturday_morning <= 1735084800000)
    by (apply Z.leb_le; vm_compute; reflexivity).
  assert (W : snd (getWeekRange (host := manila) saturday_morning) < 1735084800000)
    by (apply Z.ltb_lt; vm_compute; reflexivity).
  destruct (only_the_week_has_an_end (host := manila) saturday_morning
              (gift_saved :: june_store) gift_saved 1735084800000
              saturday_four_digit_year (or_introl eq_refl) eq_refl) as [A B].
  destruct (A L) as (D & _ & _ & Y).
  split; [exact L|]. split; [exact W|]. split; [exact D|]. split; [exact Y|].
  exact (B W).
Defined.

Lemma week_of_any_instant_of_the_window_witness :
  fst (getWeekRange (host := manila) sunday_morning) <= saturday_morning
    <= snd (getWeekRange (host := manila) sunday_morning)
  /\ getWeekRange (host := manila) saturday_morning
     = getWeekRange (host := manila) sunday_morning.
Proof.
  assert (H : fst (getWeekRange (host := manila) sunday_morning) <= saturday_morning
              <= snd (getWeekRange (host := manila) sunday_morning))
    by (split; apply Z.leb_le; vm_compute; reflexivity).
  split; [exact H|].
  exact (week_of_any_instant_of_the_window (host := manila) sunday_morning
           saturday_morning H).
Defined.

Lemma filters_keep_the_order_witness :
  Weekly <> All
  /\ date_descending (host := manila) june_store
  /\ date_descending (filtered Weekly sunday_morning june_store)
  /\ Forall dated (filtered Weekly sunday_morning june_store).
Proof.
  assert (N : Weekly <> All) by discriminate.
  destruct (filters_keep_the_order (host := manila) Weekly sunday_morning june_store)
    as (_ & D & _ & F).
  split; [exact N|]. split; [exact june_store_descending|].
  split; [exact (D june_store_descending) | exact (F N)].
Defined.

Lemma windows_start_on_the_first_witness :
  four_digit_year (host := manila) saturday_morning
  /\ getMonth (quarterStart saturday_morning) = 3 * (getMonth saturday_morning / 3)
  /\ getDate (quarterStart saturday_morning) = 1
  /\ getDate (monthStart saturday_morning) = 1
  /\ getMonth (yearStart saturday_morning) = 0.
Proof.
  split; [exact saturday_four_digit_year|].
  destruct (windows_start_on_the_first (host := manila) saturday_morning
              saturday_four_digit_year)
    as ((_ & _ & M & _) & (_ & Q1 & _ & Q2 & _) & (_ & Y & _) & _).
  split; [exact Q1|]. split; [exact Q2|]. split; [exact M | exact Y].
Defined.

Lemma quarter_range_contains_now_witness :
  four_digit_year (host := manila) saturday_morning
  /\ fst (getQuarterRange saturday_morning) <= saturday_morning
       <= snd (getQuarterRange saturday_morning).
Proof.
  split; [exact saturday_four_digit_year|].
  exact (proj1 (quarter_range_contains_now (host := manila) saturday_morning
                  saturday_four_digit_year)).
Defined.


Lemma document_export_table_witness :
  Monthly <> All
  /\ handleGeneratePdf toFixed2 Monthly
       (filteredData (host := manila) Monthly saturday_morning june_store)
     = inl pdf_notice.
Proof.
  assert (N : Monthly <> All) by discriminate.
  split; [exact N|].
  exact (proj1 (document_export_table (host := manila) toFixed2 Monthly
                  saturday_morning june_store) N).
Defined.

Lemma quoted_fields_read_back_witness :
  no_leading_quote ",200"
  /\ read_quoted (csv_quoted (Some quoted_name) ++ ",200")
     = Some (quoted_name, ",200"%string).
Proof.
  assert (H : no_leading_quote ",200") by (cbn; discriminate).
  split; [exact H|].
  exact (proj1 quoted_fields_read_back (Some quoted_name) ",200"%string H).
Defined.

Lemma bold_split_loses_nothing_witness :
  string_forall (fun c => negb (Ascii.eqb c "*")) "Food: " = true
  /\ string_forall (fun c => negb (Ascii.eqb c "*") && negb (is_line_terminator c))
                   "200" = true
  /\ split_bold ("Food: " ++ "**" ++ "200" ++ "**" ++ " spent")
     = "Food: "%string :: ("**" ++ "200" ++ "**")%string :: split_bold " spent".
Proof.
  split; [reflexivity|]. split; [reflexivity|].
  exact (proj1 (proj2 bold_split_loses_nothing) "Food: "%string "200"%string
           " spent"%string eq_refl eq_refl).
Defined.

Lemma insights_are_asked_only_with_a_question_and_records_witness :
  trim (Assistant.query asking) <> ""%string
  /\ june_store <> []
  /\ snd (Assistant.handleGetInsights june_store None asking)
     = Some (june_store, Assistant.query asking)
  /\ Assistant.handleGetInsights [] None asking = (asking, None).
Proof.
  assert (Q : trim (Assistant.query asking) <> ""%string)
    by (vm_compute; discriminate).
  assert (R : june_store <> []) by (vm_compute; discriminate).
  destruct (insights_are_asked_only_with_a_question_and_records june_store None asking)
    as [_ C].
  destruct (C Q R) as (S & _).
  split; [exact Q|]. split; [exact R|]. split; [exact S|].
  exact (proj1 (insights_are_asked_only_with_a_question_and_records [] None asking)
           (or_intror eq_refl)).
Defined.

Example rendering_a_sample_answer :
  renderAnalysis ("**Summary**" ++ newline ++ newline ++ "* Food: **200** spent"
                  ++ newline ++ "---" ++ newline ++ " ok ")
  = [ (0, Heading "Summary");
      (2, ListItem [Text "Food: "; Strong "200"; Text " spent"]);
      (3, Hr);
      (4, Paragraph " ok ") ]%nat.
Proof. vm_compute. reflexivity. Qed.
